(** * Image-generation clients and the face comparator

    A shallow embedding of the four scripts of the repository:

    - [compare_faces.py]             (module [CompareFaces]),
    - [infinitePersonImageGen.py]    (module [InfiniteYou]),
    - [stable_diffusion_image_gen.py] and [newPersonImageGen.py]
      (modules [HFClient], [StableDiffusion], [NewPerson]).

    Each script is a function from the world it runs in (environment
    variables, file system, scripted answers of the remote services) to
    the list of effects it performs and the way it ends.  Python values,
    [str.split], [in], truthiness and [base64] are modelled once, in the
    modules [Py] and [Base64]. *)

From Stdlib Require Import ZArith NArith Ascii String List Floats Lia.
From Stdlib.Strings Require Import Byte.
From stdpp Require Import gmap strings list pretty.

#[local] Set Warnings "-register-all".

(* ===================================================================== *)
(** * Python strings and values *)
(* ===================================================================== *)

Module Py.

(** [sub in s] for two strings. *)
Fixpoint contains (sub s : string) : bool :=
  String.prefix sub s
  || match s with
     | EmptyString => false
     | String _ s' => contains sub s'
     end.

(** [s.startswith(p)]. *)
Definition startswith (s p : string) : bool := String.prefix p s.

(** [s.split(sep)] for a non-empty separator: the pieces between the
    non-overlapping occurrences of [sep], scanned from the left.  [skip]
    counts the characters of a separator still to be passed over and
    [cur] is the piece being collected. *)
Fixpoint split_go (sep : string) (skip : nat) (cur s : string) : list string :=
  match s with
  | EmptyString => [cur]
  | String c s' =>
      match skip with
      | S k => split_go sep k cur s'
      | O =>
          if String.prefix sep s
          then cur :: split_go sep (String.length sep - 1) EmptyString s'
          else split_go sep 0 (cur +:+ String c EmptyString) s'
      end
  end.

Definition split (s sep : string) : list string := split_go sep 0 EmptyString s.

(** [os.getenv] answers [None] or a string; [not v] holds for both [None]
    and the empty string. *)
Definition truthy_str (v : option string) : bool :=
  match v with
  | Some s => negb (String.eqb s EmptyString)
  | None => false
  end.

(** The values [response.json()] can produce. *)
Inductive value :=
| VNone
| VBool (b : bool)
| VInt (n : Z)
| VFloat (f : float)
| VStr (s : string)
| VList (l : list value)
| VDict (d : gmap string value).

(** Truth value of an object, as [if v:] tests it. *)
Definition truthy (v : value) : bool :=
  match v with
  | VNone => false
  | VBool b => b
  | VInt n => negb (n =? 0)%Z
  | VFloat f => negb (PrimFloat.eqb f PrimFloat.zero)
  | VStr s => negb (String.eqb s EmptyString)
  | VList l => match l with [] => false | _ => true end
  | VDict d => negb (bool_decide (d = ∅))
  end.

(** [v == "text"] for a string literal. *)
Definition eq_str (v : value) (s : string) : bool :=
  match v with
  | VStr s' => String.eqb s' s
  | _ => false
  end.

(** Exceptions the scripts can meet, with the text [str(e)] where a
    script builds or prints it. *)
Inductive exn :=
| ValueError (msg : string)
| FileNotFoundError (msg : string)
| OSError
| AttributeError
| IndexError
| KeyError
| TypeError
| Base64Error
| UnidentifiedImageError
| RequestsTimeout
| RequestsException
| HTTPError (status : Z)
| JSONDecodeError
| CvError (msg : string).

(** [s * n]. *)
Fixpoint repeat_string (s : string) (n : nat) : string :=
  match n with
  | O => EmptyString
  | S n' => s +:+ repeat_string s n'
  end.

(** [sep.join(l)]. *)
Fixpoint join (sep : string) (l : list string) : string :=
  match l with
  | [] => EmptyString
  | [x] => x
  | x :: rest => x +:+ sep +:+ join sep rest
  end.

Fixpoint leading_slashes (s : string) : nat :=
  match s with
  | String c s' => if Ascii.eqb c "/" then S (leading_slashes s') else 0
  | EmptyString => 0
  end.

(** The root of a POSIX path: one slash, or two when the text starts
    with exactly two. *)
Definition path_root (s : string) : string :=
  match leading_slashes s with
  | 0 => EmptyString
  | 2 => "//"
  | _ => "/"
  end.

(** The pieces of a path: what stands between its slashes, without the
    empty pieces and the pieces ".". *)
Definition path_parts (s : string) : list string :=
  List.filter (fun x => negb (String.eqb x EmptyString) && negb (String.eqb x "."))
    (split s "/").

(** [str(Path(s))] on a POSIX system. *)
Definition path_str (s : string) : string :=
  let body := path_root s +:+ join "/" (path_parts s) in
  if String.eqb body EmptyString then "." else body.

End Py.

(* ===================================================================== *)
(** * base64 *)
(* ===================================================================== *)

Module Base64.

Definition alphabet : string :=
  "ABCDEFGHIJKLMNOPQRSTUVWXYZabcdefghijklmnopqrstuvwxyz0123456789+/".

Definition pad : ascii := "="%char.

(** The character of a 6-bit value. *)
Definition table_b2a (n : N) : ascii :=
  match String.get (N.to_nat n) alphabet with
  | Some c => c
  | None => pad
  end.

Fixpoint index_of (c : ascii) (s : string) (i : N) : option N :=
  match s with
  | EmptyString => None
  | String c' s' => if Ascii.eqb c c' then Some i else index_of c s' (i + 1)%N
  end.

(** The 6-bit value of a character, [None] outside the alphabet. *)
Definition table_a2b (c : ascii) : option N := index_of c alphabet 0%N.

(** A value stored into an [unsigned char]. *)
Definition byte_trunc (n : N) : byte :=
  match Byte.of_N (n mod 256) with
  | Some b => b
  | None => x00
  end.

Definition sextet1 (b1 : byte) : N := N.shiftr (Byte.to_N b1) 2.
Definition sextet2 (b1 b2 : byte) : N :=
  N.lor (N.shiftl (N.land (Byte.to_N b1) 3) 4) (N.shiftr (Byte.to_N b2) 4).
Definition sextet3 (b2 b3 : byte) : N :=
  N.lor (N.shiftl (N.land (Byte.to_N b2) 15) 2) (N.shiftr (Byte.to_N b3) 6).
Definition sextet4 (b3 : byte) : N := N.land (Byte.to_N b3) 63.

(** [base64.b64encode]: three bytes give four characters; one or two
    bytes left over give two or three characters and the padding. *)
Fixpoint b64encode (bs : list byte) : string :=
  match bs with
  | [] => EmptyString
  | [b1] =>
      String (table_b2a (sextet1 b1))
        (String (table_b2a (sextet2 b1 x00)) (String pad (String pad EmptyString)))
  | [b1; b2] =>
      String (table_b2a (sextet1 b1))
        (String (table_b2a (sextet2 b1 b2))
           (String (table_b2a (sextet3 b2 x00)) (String pad EmptyString)))
  | b1 :: b2 :: b3 :: rest =>
      String (table_b2a (sextet1 b1))
        (String (table_b2a (sextet2 b1 b2))
           (String (table_b2a (sextet3 b2 b3))
              (String (table_b2a (sextet4 b3)) (b64encode rest))))
  end.

(** [binascii.a2b_base64] without strict mode, which is what
    [base64.b64decode] calls: characters outside the alphabet are
    skipped, [quad_pos] is the position in the current group of four,
    [leftchar] the bits not yet written and [pads] the padding characters
    seen since the last data character.  [None] is [binascii.Error]. *)
Fixpoint a2b_go (s : string) (quad_pos : nat) (leftchar : N) (pads : nat)
  : option (list byte) :=
  match s with
  | EmptyString => if Nat.eqb quad_pos 0 then Some [] else None
  | String c s' =>
      if Ascii.eqb c pad then
        if Nat.leb 2 quad_pos then
          if Nat.leb 4 (quad_pos + S pads) then Some []
          else a2b_go s' quad_pos leftchar (S pads)
        else a2b_go s' quad_pos leftchar pads
      else
        match table_a2b c with
        | None => a2b_go s' quad_pos leftchar pads
        | Some this_ch =>
            match quad_pos with
            | 0 => a2b_go s' 1 this_ch 0
            | 1 =>
                cons (byte_trunc (N.lor (N.shiftl leftchar 2) (N.shiftr this_ch 4)))
                  <$> a2b_go s' 2 (N.land this_ch 15) 0
            | 2 =>
                cons (byte_trunc (N.lor (N.shiftl leftchar 4) (N.shiftr this_ch 2)))
                  <$> a2b_go s' 3 (N.land this_ch 3) 0
            | _ =>
                cons (byte_trunc (N.lor (N.shiftl leftchar 6) this_ch))
                  <$> a2b_go s' 0 0%N 0
            end
        end
  end.

Definition a2b_base64 (s : string) : option (list byte) := a2b_go s 0 0%N 0.

Fixpoint is_ascii (s : string) : bool :=
  match s with
  | EmptyString => true
  | String c s' => (N_of_ascii c <? 128)%N && is_ascii s'
  end.

(** [base64.b64decode] of a [str]: the text is first encoded as ASCII
    ([ValueError] when it is not), then decoded. *)
Definition b64decode (s : string) : Py.exn + list byte :=
  if is_ascii s then
    match a2b_base64 s with
    | Some bs => inr bs
    | None => inl Py.Base64Error
    end
  else inl (Py.ValueError "string argument should contain only ASCII characters").

(** ** Auxiliary definitions for the proofs *)

(** Every byte, for facts that are checked byte by byte. *)
Definition all_bytes : list byte :=
  map (fun n => byte_trunc (N.of_nat n)) (seq 0 256).

(** A character that stands for the 6-bit value [n]: not the padding,
    not a comma, plain ASCII, and read back as [n]. *)
Definition stands_for (c : ascii) (n : N) : bool :=
  negb (Ascii.eqb c pad) && negb (Ascii.eqb c ","%char)
  && (N_of_ascii c <? 128)%N
  && match table_a2b c with Some m => (m =? n)%N | None => false end.

(** The bytes the decoder rebuilds from the four values of a group. *)
Definition out1 (b1 b2 : byte) : byte :=
  byte_trunc (N.lor (N.shiftl (sextet1 b1) 2) (N.shiftr (sextet2 b1 b2) 4)).
Definition out2 (b1 b2 b3 : byte) : byte :=
  byte_trunc (N.lor (N.shiftl (N.land (sextet2 b1 b2) 15) 4) (N.shiftr (sextet3 b2 b3) 2)).
Definition out3 (b2 b3 : byte) : byte :=
  byte_trunc (N.lor (N.shiftl (N.land (sextet3 b2 b3) 3) 6) (sextet4 b3)).

End Base64.

(* ===================================================================== *)
(** * Effects *)
(* ===================================================================== *)

Module Eff.

(** A file-system entry. *)
Inductive node :=
| File (data : list byte)
| Dir.

(** An HTTP answer: the status code, the raw text and what
    [response.json()] gives ([None] when the body is not JSON). *)
Record response := {
  status_code : Z;
  text : string;
  json : option Py.value;
}.

(** The pieces of a printed line (an f-string): literal text, an
    interpolated string, [str] of an object, an integer, the elapsed time
    [poll_count * 0.5], a wall-clock difference, and [str(e)]. *)
Inductive part :=
| Lit (s : string)
| Str (s : string)
| Obj (v : Py.value)
| Int (n : Z)
| HalfSeconds (polls : nat)
| Seconds
| Exc (e : Py.exn).

Definition message := list part.

(** What a script does to the outside.  [EvMkdirParent child] is
    [Path(child).parent.mkdir(parents=True, exist_ok=True)], [EvImread] a
    call of [cv2.imread], [EvLoadCascade] the classifier file handed to
    [cv2.CascadeClassifier], and [EvDetect] a call of [detectMultiScale]
    on the image of that path. *)
Inductive event :=
| EvPrint (m : message)
| EvMkdir (dir : string)
| EvMkdirParent (child : string)
| EvReadFile (path : string)
| EvWriteFile (path : string) (data : list byte)
| EvHttpPost (url : string) (token : string) (body : Py.value)
| EvHttpGet (url : string) (job_id : Py.value) (token : string)
| EvSleep
| EvImread (path : string)
| EvLoadCascade (path : string)
| EvDetect (path : string)
| EvCsvRow (path : string) (row : list string).

(** How a computation ends; [OutOfFuel] is the model's own, for a loop
    that was given too few steps. *)
Inductive outcome (A : Type) :=
| Done (a : A)
| Raised (e : Py.exn)
| OutOfFuel.
Arguments Done {A} a.
Arguments Raised {A} e.
Arguments OutOfFuel {A}.

Definition M (A : Type) : Type := list event * outcome A.

Definition ret {A} (a : A) : M A := ([], Done a).
Definition raise {A} (e : Py.exn) : M A := ([], Raised e).
Definition emit (e : event) : M unit := ([e], Done tt).
Definition print (m : message) : M unit := emit (EvPrint m).

Definition bind {A B} (m : M A) (k : A -> M B) : M B :=
  match m with
  | (t, Done a) => let '(t', r) := k a in (t ++ t', r)
  | (t, Raised e) => (t, Raised e)
  | (t, OutOfFuel) => (t, OutOfFuel)
  end.

(** [try: m except Exception as e: h e]. *)
Definition try_except {A} (m : M A) (h : Py.exn -> M A) : M A :=
  match m with
  | (t, Raised e) => let '(t', r) := h e in (t ++ t', r)
  | _ => m
  end.

Definition lift {A} (r : Py.exn + A) : M A :=
  match r with
  | inl e => raise e
  | inr a => ret a
  end.

Definition trace {A} (m : M A) : list event := fst m.
Definition result {A} (m : M A) : outcome A := snd m.

Definition is_http (e : event) : bool :=
  match e with
  | EvHttpPost _ _ _ | EvHttpGet _ _ _ => true
  | _ => false
  end.

(** The network-call counter of a run. *)
Definition network_calls (t : list event) : nat := length (List.filter is_http t).

Definition is_write (e : event) : bool :=
  match e with
  | EvWriteFile _ _ => true
  | _ => false
  end.

(** A run that stops on a configuration it cannot use: with no request
    sent, and either an exception or an error line and a plain return. *)
Definition stops_unconfigured {A} (m : M A) : Prop :=
  network_calls (trace m) = 0
  /\ ((exists msg, result m = Raised (Py.ValueError msg))
      \/ (exists line a, trace m = [EvPrint [Lit line]] /\ result m = Done a)).

(** The files a run writes, in order. *)
Definition writes (t : list event) : list event := List.filter is_write t.

(** Every event of a run passes the test [Q]. *)
Definition all_events (Q : event -> bool) {A} (m : M A) : Prop :=
  forallb Q (trace m) = true.

(** A run that ends, normally or with an exception. *)
Definition finishes {A} (m : M A) : Prop := result m <> OutOfFuel.

(** What a run hands back, when it ends normally, satisfies [R]. *)
Definition ensures {A} (R : A -> Prop) (m : M A) : Prop :=
  forall a, result m = Done a -> R a.

Definition no_http (e : event) : bool := negb (is_http e).
Definition no_write (e : event) : bool := negb (is_write e).

Definition is_get (e : event) : bool :=
  match e with
  | EvHttpGet _ _ _ => true
  | _ => false
  end.

Definition is_post (e : event) : bool :=
  match e with
  | EvHttpPost _ _ _ => true
  | _ => false
  end.

Definition is_sleep (e : event) : bool :=
  match e with
  | EvSleep => true
  | _ => false
  end.

Definition is_print (e : event) : bool :=
  match e with
  | EvPrint _ => true
  | _ => false
  end.

(** The submissions and the pauses of a run, and its requests in order. *)
Definition posts (t : list event) : nat := length (List.filter is_post t).
Definition sleeps (t : list event) : nat := length (List.filter is_sleep t).
Definition http_events (t : list event) : list event := List.filter is_http t.

(** The trace of a run satisfies [T]. *)
Definition keeps (T : list event -> Prop) {A} (m : M A) : Prop := T (trace m).

End Eff.

Notation "'let*' x ':=' m 'in' k" := (Eff.bind m (fun x => k))
  (at level 10, x name, m at level 100, k at level 200).

(* ===================================================================== *)
(** * Helpers on Python objects that can raise *)
(* ===================================================================== *)

Module PyOps.
Import Py Eff.

(** [v.get(key, default)]: only a dict has [get]. *)
Definition get_default (v : value) (key : string) (default : value) : M value :=
  match v with
  | VDict d => ret (match d !! key with Some x => x | None => default end)
  | _ => raise AttributeError
  end.

(** [v.get(key)]. *)
Definition get (v : value) (key : string) : M value := get_default v key VNone.

(** [key in v] for a string literal [key]. *)
Definition has (key : string) (v : value) : M bool :=
  match v with
  | VDict d => ret (bool_decide (is_Some (d !! key)))
  | VList l => ret (existsb (fun x => eq_str x key) l)
  | VStr s => ret (contains key s)
  | _ => raise TypeError
  end.

(** [v[key]] for a string literal [key]. *)
Definition item (v : value) (key : string) : M value :=
  match v with
  | VDict d => match d !! key with Some x => ret x | None => raise KeyError end
  | _ => raise TypeError
  end.

Definition lower_ascii (c : ascii) : ascii :=
  let n := N_of_ascii c in
  if ((65 <=? n) && (n <=? 90))%N then ascii_of_N (n + 32) else c.

Fixpoint lower_string (s : string) : string :=
  match s with
  | EmptyString => EmptyString
  | String c s' => String (lower_ascii c) (lower_string s')
  end.

(** [v.lower()]: only a string has [lower]. *)
Definition lower (v : value) : M string :=
  match v with
  | VStr s => ret (lower_string s)
  | _ => raise AttributeError
  end.

(** [l[i]] on a list of strings. *)
Definition index (l : list string) (i : nat) : M string :=
  match l !! i with
  | Some x => ret x
  | None => raise IndexError
  end.

End PyOps.

(* ===================================================================== *)
(** * infinitePersonImageGen.py: the face-personalization client *)
(* ===================================================================== *)

Module InfiniteYou.
Import Py Eff PyOps.

(** The image library (PIL): [Image.open] on decoded bytes, which can
    fail to identify an image, and [image.save] to a path, which gives
    the bytes it writes or the exception it raises ([ValueError] for a
    file extension it does not know, [OSError] for a file it cannot
    write); a save that raises is not counted as a write. *)
Record pil := {
  image : Type;
  image_open : list byte -> option image;
  image_save : image -> string -> Py.exn + list byte;
}.

(** The world one run sees.  [env] is the environment after
    [load_dotenv()], [seed] the draw of [random.randint(1, 999999)],
    [post] the answer to the submission and [poll k] the answer to the
    [k]-th status request (a scripted service). *)
Record world := {
  env : gmap string string;
  fs : gmap string node;
  mkdir_ok : string -> bool;
  seed : Z;
  post : Py.exn + response;
  poll : nat -> Py.exn + response;
}.

Definition max_polls : nat := 2000.

(** The values a run needs, in the order they are checked. *)
Definition required : list string :=
  ["RUNPOD_INFU_URL"; "RUNPOD_API_KEY"; "INFINITE_INPUT_FACE_IMAGE_PATH";
   "INFINITE_OUTPUT_IMAGE_PATH"; "INFINITE_PERSON_PROMPT"].

Section Client.
Context (P : pil).

(** [image_to_base64], lines 19-23. *)
Definition image_to_base64 (w : world) (image_path : string) : M string :=
  let* _ := emit (EvReadFile image_path) in
  match fs w !! image_path with
  | Some (File data) => ret ("data:image/jpeg;base64," +:+ Base64.b64encode data)
  | Some Dir => raise OSError
  | None => raise (FileNotFoundError image_path)
  end.

(** The bytes [base64_to_image] is about to write, lines 27-33: the
    prefix of a data URL is dropped, the text is decoded, and the image
    library opens the result and encodes it for [output_path]. *)
Definition image_bytes (base64_string : value) (output_path : string) : M (list byte) :=
  match base64_string with
  | VStr s =>
      let* s1 :=
        (if startswith s "data:image" then index (split s ",") 1 else ret s) in
      let* image_data := lift (Base64.b64decode s1) in
      match image_open P image_data with
      | None => raise UnidentifiedImageError
      | Some img => lift (image_save P img output_path)
      end
  | _ => raise AttributeError
  end.

(** [base64_to_image], lines 25-34. *)
Definition base64_to_image (base64_string : value) (output_path : string) : M unit :=
  let* data := image_bytes base64_string output_path in
  let* _ := emit (EvWriteFile output_path data) in
  print [Lit "✅ Image saved to: "; Str output_path].

(** The metadata lines, 214-219 and 282-287. *)
Definition print_metadata (output : value) : M unit :=
  let* metadata := get_default output "metadata" (VDict ∅) in
  let* _ := print [Lit "📊 Metadata:"] in
  let* m_seed := get_default metadata "seed" (VStr "N/A") in
  let* _ := print [Lit "   - Seed: "; Obj m_seed] in
  let* m_model := get_default metadata "model_version" (VStr "N/A") in
  let* _ := print [Lit "   - Model: "; Obj m_model] in
  let* m_prompt := get_default metadata "prompt" (VStr "N/A") in
  let* _ := print [Lit "   - Prompt: "; Obj m_prompt] in
  let* m_width := get_default metadata "width" (VStr "N/A") in
  let* m_height := get_default metadata "height" (VStr "N/A") in
  print [Lit "   - Dimensions: "; Obj m_width; Lit "x"; Obj m_height].

(** The handling of an [output] object, lines 206-224 in the polling
    branch and, with the same text, lines 274-292 for a direct answer. *)
Definition handle_output (output : value) (output_image_path : string) : M unit :=
  let* success := get output "success" in
  if truthy success then
    let* _ := print [Lit "✅ API call successful!"] in
    let* has_image := has "image" output in
    if has_image then
      let* img := item output "image" in
      let* _ := base64_to_image img output_image_path in
      print_metadata output
    else print [Lit "❌ No image in response"]
  else
    let* err := get_default output "error" (VStr "Unknown error") in
    print [Lit "❌ API returned error: "; Obj err].

(** The variables of the polling loop.  [generation_start_time] holds
    the poll at which [time.time()] was read; a clock reading is never
    [0.0], so the variable is truthy exactly when it was set. *)
Record loop_state := {
  poll_count : nat;
  generation_start_time : option nat;
  in_progress_detected : bool;
}.

Inductive step :=
| Continue (st : loop_state)
| Break.

(** The hints printed for a failed job, lines 238-243. *)
Definition failure_hint (error_msg : value) : M unit :=
  let* no_space := has "No space left on device" error_msg in
  if no_space then print [Lit "💡 Solution: Increase RunPod storage to 300GB+"]
  else
    let* no_model := has "Model not found" error_msg in
    if no_model then print [Lit "💡 Solution: Ensure models are downloaded during startup"]
    else
      let* forbidden := has "403" error_msg in
      let* access :=
        (if forbidden then ret true
         else let* low := lower error_msg in ret (contains "access" low)) in
      if access
      then print [Lit "💡 Solution: Request access to FLUX.1-dev model on HuggingFace"]
      else ret tt.

(** One turn of the loop body, lines 174-257. *)
Definition poll_once (w : world) (status_url : string) (job_id : value)
    (token output_image_path : string) (st : loop_state) : M step :=
  let* _ := emit EvSleep in
  let count := S (poll_count st) in
  let* _ := emit (EvHttpGet status_url job_id token) in
  let* status_response := lift (poll w count) in
  if (status_code status_response =? 200)%Z then
    let* status_result :=
      (match json status_response with
       | Some v => ret v
       | None => raise JSONDecodeError
       end) in
    let* current_status := get status_result "status" in
    let starts := eq_str current_status "IN_PROGRESS" && negb (in_progress_detected st) in
    let* _ :=
      (if starts then print [Lit "🔄 Generation started - tracking time..."] else ret tt) in
    let started := if starts then Some count else generation_start_time st in
    let detected := if starts then true else in_progress_detected st in
    if eq_str current_status "COMPLETED" then
      let* _ :=
        (match started with
         | Some _ =>
             print [Lit "✅ Job completed - Generation time: "; Seconds; Lit " seconds"]
         | None =>
             print [Lit "✅ Job completed after "; HalfSeconds count;
                    Lit " seconds including queue time"]
         end) in
      let* has_output := has "output" status_result in
      let* _ :=
        (if has_output then
           let* output := item status_result "output" in
           handle_output output output_image_path
         else print [Lit "❌ No output in completed job: "; Obj status_result]) in
      ret Break
    else if eq_str current_status "FAILED" then
      let* error_msg := get_default status_result "error" (VStr "Unknown error") in
      let* _ :=
        (match started with
         | Some _ =>
             print [Lit "❌ Job failed after "; Seconds; Lit "s of generation: ";
                    Obj error_msg]
         | None => print [Lit "❌ Job failed: "; Obj error_msg]
         end) in
      let* _ := failure_hint error_msg in
      ret Break
    else
      let* _ :=
        (match eq_str current_status "IN_PROGRESS", started with
         | true, Some _ =>
             print [Lit "⏳ Job status: "; Obj current_status;
                    Lit " (generation time: "; Seconds; Lit "s)"]
         | _, _ =>
             print [Lit "⏳ Job status: "; Obj current_status;
                    Lit " (elapsed: "; HalfSeconds count; Lit "s)"]
         end) in
      ret (Continue {| poll_count := count;
                       generation_start_time := started;
                       in_progress_detected := detected |})
  else
    let* _ := print [Lit "❌ Failed to check job status: ";
                     Int (status_code status_response)] in
    let* _ := print [Lit "Response: "; Str (text status_response)] in
    ret Break.

(** The [else] clause of the [while], lines 259-268. *)
Definition timed_out (st : loop_state) : M unit :=
  let* _ :=
    (match generation_start_time st with
     | Some _ => print [Lit "❌ Job timed out after "; Seconds; Lit "s of generation"]
     | None => print [Lit "❌ Job timed out after ~16.7 minutes"]
     end) in
  let* _ := print [Lit "💡 Possible issues:"] in
  let* _ := print [Lit "   - Models still downloading (check RunPod logs)"] in
  let* _ := print [Lit "   - Insufficient storage (increase to 300GB+)"] in
  let* _ := print [Lit "   - Missing model access (request FLUX.1-dev access)"] in
  print [Lit "   - Complex generation taking longer than expected"].

(** [while poll_count < max_polls: ... else: ...], lines 173-268.  The
    loop is given [fuel] turns; [poll_loop_bounded] below shows that
    [S max_polls] is never used up. *)
Fixpoint poll_loop (fuel : nat) (w : world) (status_url : string) (job_id : value)
    (token output_image_path : string) (st : loop_state) : M unit :=
  match fuel with
  | O => ([], OutOfFuel)
  | S fuel' =>
      if poll_count st <? max_polls then
        let* r := poll_once w status_url job_id token output_image_path st in
        match r with
        | Continue st' => poll_loop fuel' w status_url job_id token output_image_path st'
        | Break => ret tt
        end
      else timed_out st
  end.

Definition initial_state : loop_state :=
  {| poll_count := 0; generation_start_time := None; in_progress_detected := false |}.

(** The request body, lines 105-129. *)
Definition payload (id_image_base64 prompt : string) (random_seed : Z) : value :=
  VDict (list_to_map
    [("id", VStr "test-job");
     ("input", VDict (list_to_map
        [("id_image", VStr id_image_base64);
         ("prompt", VStr prompt);
         ("infu_source_img_token", VStr "man");
         ("model_version", VStr "aes_stage2");
         ("enable_realism", VBool true);
         ("enable_anti_blur", VBool true);
         ("enable_face_realism", VBool true);
         ("enable_realism_one", VBool false);
         ("enable_realism_two", VBool false);
         ("realism_weight", VFloat 1%float);
         ("anti_blur_weight", VFloat 1%float);
         ("face_realism_weight", VFloat 1%float);
         ("realism_one_weight", VFloat 1%float);
         ("realism_two_weight", VFloat 1%float);
         ("flux_model", VStr "flux-schnell");
         ("seed", VInt random_seed);
         ("guidance_scale", VInt 5);
         ("num_steps", VInt 5);
         ("width", VInt 1024);
         ("height", VInt 1024)]))]).

(** The [except] clauses of lines 300-305. *)
Definition report (e : exn) : M unit :=
  match e with
  | RequestsTimeout => print [Lit "❌ Request timed out (12.5 minutes)"]
  | RequestsException | HTTPError _ | JSONDecodeError =>
      print [Lit "❌ Request failed: "; Exc e]
  | _ => print [Lit "❌ Unexpected error: "; Exc e]
  end.

(** The body of the [try], lines 144-298. *)
Definition submit_and_wait (w : world) (runpod_url status_url token
    output_image_path : string) (body : value) : M unit :=
  let* _ := emit (EvHttpPost runpod_url token body) in
  let* response := lift (post w) in
  let* _ := print [Lit "⏱️  Request completed in: "; Seconds; Lit " seconds"] in
  if (status_code response =? 200)%Z then
    let* result :=
      (match json response with
       | Some v => ret v
       | None => raise JSONDecodeError
       end) in
    let* status := get result "status" in
    if eq_str status "IN_QUEUE" || eq_str status "IN_PROGRESS" then
      let* job_id := get result "id" in
      let* status_again := get result "status" in
      let* low := lower status_again in
      let* _ := print [Lit "⏳ Job "; Obj job_id; Lit " is "; Str low;
                       Lit ". Polling for completion..."] in
      poll_loop (S max_polls) w status_url job_id token output_image_path initial_state
    else
      let* has_output := has "output" result in
      if has_output then
        let* output := item result "output" in
        handle_output output output_image_path
      else print [Lit "❌ Unexpected response format: "; Obj result]
  else
    let* _ := print [Lit "❌ HTTP Error: "; Int (status_code response)] in
    print [Lit "Response: "; Str (text response)].

(** [test_infiniteyou_api], lines 36-305.  [status_url] is [None] exactly
    when [runpod_url] is, and a run then stops at the first check. *)
Definition test_infiniteyou_api (w : world) : M unit :=
  let runpod_url := env w !! "RUNPOD_INFU_URL" in
  let runpod_api_key := env w !! "RUNPOD_API_KEY" in
  let* status_url :=
    (match runpod_url with
     | Some url =>
         if truthy_str runpod_url && contains "/v2/" url then
           let* after := index (split url "/v2/") 1 in
           let* endpoint_id := index (split after "/") 0 in
           ret (Some ("https://api.runpod.ai/v2/" +:+ endpoint_id +:+ "/status"))
         else ret runpod_url
     | None => ret runpod_url
     end) in
  if negb (truthy_str runpod_url) then
    print [Lit "❌ Error: RUNPOD_URL environment variable not set"]
  else if negb (truthy_str runpod_api_key) then
    print [Lit "❌ Error: RUNPOD_API_KEY environment variable not set"]
  else
    let url := default EmptyString runpod_url in
    let status := default EmptyString status_url in
    let token := default EmptyString runpod_api_key in
    let input_image_path := env w !! "INFINITE_INPUT_FACE_IMAGE_PATH" in
    if negb (truthy_str input_image_path) then
      raise (ValueError "INFINITE_INPUT_FACE_IMAGE_PATH must be set")
    else
      let input_path := default EmptyString input_image_path in
      let* _ := print [Lit "input_image_path: "; Str input_path] in
      let output_image_path := env w !! "INFINITE_OUTPUT_IMAGE_PATH" in
      if negb (truthy_str output_image_path) then
        raise (ValueError "INFINITE_OUTPUT_IMAGE_PATH must be set")
      else
        let output_path := default EmptyString output_image_path in
        let prompt := env w !! "INFINITE_PERSON_PROMPT" in
        if negb (truthy_str prompt) then
          raise (ValueError "INFINITE_PERSON_PROMPT must be set")
        else
          let prompt_text := default EmptyString prompt in
          let* _ := emit (EvMkdirParent output_path) in
          let* _ := (if mkdir_ok w output_path then ret tt else raise OSError) in
          if negb (bool_decide (is_Some (fs w !! input_path))) then
            let* _ := print [Lit "❌ Error: Input image not found at "; Str input_path] in
            print [Lit "Please set INFINITE_INPUT_FACE_IMAGE_PATH in your .env file"]
          else
            let* _ := print [Lit "🔄 Converting identity image to base64: ";
                             Str input_path] in
            let* id_image_base64 := image_to_base64 w input_path in
            let body := payload id_image_base64 prompt_text (seed w) in
            let* _ := print [Lit "🚀 Sending request to: "; Str url] in
            let* _ := print [Lit "📝 Prompt: "; Str prompt_text] in
            try_except
              (submit_and_wait w url status token output_path body)
              report.

End Client.

(** The "not yet" turns of the loop: the lines printed by its last
    [else] branch (lines 247-253). *)
Definition is_not_yet (e : event) : bool :=
  match e with
  | EvPrint (Lit s :: _) => String.eqb s "⏳ Job status: "
  | _ => false
  end.

Definition not_yet_turns (t : list event) : nat := length (List.filter is_not_yet t).

Definition settled (e : event) : bool := negb (is_not_yet e).

Definition no_get (e : event) : bool := negb (is_get e).

(** A status answer that lets the loop go on: HTTP 200 and a JSON object
    whose status is neither COMPLETED nor FAILED. *)
Definition goes_on (a : Py.exn + response) : bool :=
  match a with
  | inr r =>
      (status_code r =? 200)%Z
      && match json r with
         | Some (VDict d) =>
             negb (eq_str (default VNone (d !! "status")) "COMPLETED")
             && negb (eq_str (default VNone (d !! "status")) "FAILED")
         | _ => false
         end
  | inl _ => false
  end.

(** A status answer that says IN_QUEUE. *)
Definition in_queue (a : Py.exn + response) : bool :=
  match a with
  | inr r =>
      (status_code r =? 200)%Z
      && match json r with
         | Some (VDict d) => eq_str (default VNone (d !! "status")) "IN_QUEUE"
         | _ => false
         end
  | inl _ => false
  end.

(** No terminal state is seen in any of the [max_polls] polls. *)
Definition never_settles (w : world) : Prop :=
  forall k, 1 <= k <= max_polls -> goes_on (poll w k) = true.

(** The line that reports the timeout, lines 259-263. *)
Definition is_timeout_report (e : event) : bool :=
  match e with
  | EvPrint (Lit s :: _) => String.prefix "❌ Job timed out after" s
  | _ => false
  end.

(** No timeout is reported in [t]. *)
Definition calm (t : list event) : Prop :=
  forallb (fun e => negb (is_timeout_report e)) t = true.

(** What is left of a run once the [try] block has ended: an exception
    is reported, and the client returns. *)
Definition tail (r : outcome unit) : list event :=
  match r with
  | Raised e => trace (report e)
  | _ => []
  end.

Definition final (r : outcome unit) : outcome unit :=
  match r with
  | OutOfFuel => OutOfFuel
  | _ => Done tt
  end.

(** A run that gets as far as the polling loop: the five values are set,
    the output directory can be made, the input image is a file, and the
    submission is answered with HTTP 200 and a job that is queued or in
    progress. *)
Definition starts_polling (w : world) : Prop :=
  truthy_str (env w !! "RUNPOD_INFU_URL") = true
  /\ truthy_str (env w !! "RUNPOD_API_KEY") = true
  /\ truthy_str (env w !! "INFINITE_OUTPUT_IMAGE_PATH") = true
  /\ truthy_str (env w !! "INFINITE_PERSON_PROMPT") = true
  /\ (exists input data,
        env w !! "INFINITE_INPUT_FACE_IMAGE_PATH" = Some input
        /\ input <> EmptyString
        /\ fs w !! input = Some (File data))
  /\ mkdir_ok w (default EmptyString (env w !! "INFINITE_OUTPUT_IMAGE_PATH")) = true
  /\ (exists r d,
        post w = inr r
        /\ status_code r = 200%Z
        /\ json r = Some (VDict d)
        /\ (d !! "status" = Some (VStr "IN_QUEUE")
            \/ d !! "status" = Some (VStr "IN_PROGRESS"))).

(** The status requests of a run. *)
Definition polls (t : list event) : nat := length (List.filter is_get t).

(** A status answer that says COMPLETED and carries an output object
    with a truthy [success] and an [image] from which [base64_to_image]
    gets the bytes [data] to write at [path]. *)
Definition completes_with (P : pil) (a : Py.exn + response) (path : string)
    (data : list byte) : Prop :=
  exists text d o img,
    a = inr {| status_code := 200; text := text; json := Some (VDict d) |}
    /\ d !! "status" = Some (VStr "COMPLETED")
    /\ d !! "output" = Some (VDict o)
    /\ truthy (default VNone (o !! "success")) = true
    /\ o !! "image" = Some img
    /\ image_bytes P img path = ([], Done data).

(** The text [s] carries the bytes [raw] the way [base64_to_image]
    reads them: it is their base64 text, bare or after the header of a
    data URL (a text that starts with "data:image" and has its only
    comma at its end). *)
Definition carries (s : string) (raw : list byte) : Prop :=
  s = Base64.b64encode raw
  \/ exists pre,
       startswith pre "data:image" = true
       /\ contains "," pre = false
       /\ s = (pre +:+ ",") +:+ Base64.b64encode raw.

(** A status answer that says COMPLETED and carries an output object
    with a truthy [success] and an [image] that carries the bytes [raw]. *)
Definition completed_with_image (a : Py.exn + response) (raw : list byte) : Prop :=
  exists text d o s,
    a = inr {| status_code := 200; text := text; json := Some (VDict d) |}
    /\ d !! "status" = Some (VStr "COMPLETED")
    /\ d !! "output" = Some (VDict o)
    /\ truthy (default VNone (o !! "success")) = true
    /\ o !! "image" = Some (VStr s)
    /\ carries s raw.

(** A status answer that says COMPLETED and carries [output]. *)
Definition completed_answer (a : Py.exn + response) (output : value) : Prop :=
  exists text d,
    a = inr {| status_code := 200; text := text; json := Some (VDict d) |}
    /\ d !! "status" = Some (VStr "COMPLETED")
    /\ d !! "output" = Some output.

(** An answer to the submission that is not queued and carries [output]
    (the job completed at once). *)
Definition direct_answer (a : Py.exn + response) (output : value) : Prop :=
  exists text d,
    a = inr {| status_code := 200; text := text; json := Some (VDict d) |}
    /\ eq_str (default VNone (d !! "status")) "IN_QUEUE" = false
    /\ eq_str (default VNone (d !! "status")) "IN_PROGRESS" = false
    /\ d !! "output" = Some output.

(** The output object has a truthy [success] and an [image] key. *)
Definition has_success_and_image (output : value) : bool :=
  match output with
  | VDict o =>
      truthy (default VNone (o !! "success")) && bool_decide (is_Some (o !! "image"))
  | _ => false
  end.

(** What is saved for an output object: the bytes that [image_bytes]
    gets from the [image] of an object with a truthy [success]; nothing
    when a key is missing, [success] is falsy or the image does not
    decode. *)
Definition saved_data (P : pil) (output : value) (path : string) : option (list byte) :=
  match output with
  | VDict o =>
      if truthy (default VNone (o !! "success")) then
        match o !! "image" with
        | Some img =>
            match result (image_bytes P img path) with
            | Done data => Some data
            | _ => None
            end
        | None => None
        end
      else None
  | _ => None
  end.

(** ** A scripted service *)

(** The eight bytes every PNG file starts with. *)
Definition png_signature : list byte := [x89; x50; x4e; x47; x0d; x0a; x1a; x0a].

Fixpoint starts_with (prefix data : list byte) : bool :=
  match prefix, data with
  | [], _ => true
  | p :: prefix', d :: data' => Byte.eqb p d && starts_with prefix' data'
  | _ :: _, [] => false
  end.

(** An image library for the examples: data that starts with the PNG
    signature is an image, saved as it is. *)
Definition plain_pil : pil :=
  {| image := list byte;
     image_open := fun data => if starts_with png_signature data then Some data else None;
     image_save := fun img _ => inr img |}.

Definition example_env : gmap string string :=
  list_to_map
    [("RUNPOD_INFU_URL", "https://api.runpod.ai/v2/k0nmfiw7iqu5t0/run");
     ("RUNPOD_API_KEY", "secret");
     ("INFINITE_INPUT_FACE_IMAGE_PATH", "face.png");
     ("INFINITE_OUTPUT_IMAGE_PATH", "out/person.png");
     ("INFINITE_PERSON_PROMPT", "a portrait")].

(** A PNG file of one gray pixel: the signature, the header chunk, the
    data chunk and the end chunk. *)
Definition example_pixels : list byte :=
  [x89; x50; x4e; x47; x0d; x0a; x1a; x0a;
   x00; x00; x00; x0d; x49; x48; x44; x52; x00; x00; x00; x01; x00; x00; x00; x01;
   x08; x00; x00; x00; x00; x3a; x7e; x9b; x55;
   x00; x00; x00; x0a; x49; x44; x41; x54; x78; xda; x63; x68; x00; x00; x00; x82;
   x00; x81; xda; x45; x08; x3b;
   x00; x00; x00; x00; x49; x45; x4e; x44; xae; x42; x60; x82].

Definition ok_response (body : value) : Py.exn + response :=
  inr {| status_code := 200; text := EmptyString; json := Some body |}.

Definition queued : value :=
  VDict (list_to_map [("id", VStr "job-1"); ("status", VStr "IN_QUEUE")]).

Definition completed (output : value) : value :=
  VDict (list_to_map [("status", VStr "COMPLETED"); ("output", output)]).

Definition good_output : value :=
  VDict (list_to_map
    [("success", VBool true);
     ("image", VStr ("data:image/png;base64," +:+ Base64.b64encode example_pixels))]).

(** The service of the polling scenario: IN_QUEUE for the first three
    polls, COMPLETED from the fourth on. *)
Definition scripted_world : world :=
  {| env := example_env;
     fs := {[ "face.png" := File example_pixels ]};
     mkdir_ok := fun _ => true;
     seed := 42;
     post := ok_response queued;
     poll := fun k => if k <=? 3 then ok_response queued
                      else ok_response (completed good_output) |}.

(** The environment without the address of the service. *)
Definition no_url_world : world :=
  {| env := delete "RUNPOD_INFU_URL" example_env;
     fs := {[ "face.png" := File example_pixels ]};
     mkdir_ok := fun _ => true;
     seed := 42;
     post := ok_response queued;
     poll := fun _ => ok_response queued |}.

(** An output object that says success but carries no image data, and
    a service that answers the submission with it at once. *)
Definition null_image_output : value :=
  VDict (list_to_map [("success", VBool true); ("image", VNone)]).

Definition null_image_world : world :=
  {| env := example_env;
     fs := {[ "face.png" := File example_pixels ]};
     mkdir_ok := fun _ => true;
     seed := 42;
     post := ok_response (VDict (list_to_map [("output", null_image_output)]));
     poll := fun _ => ok_response queued |}.

(** A service that answers the submission at once with a good output. *)
Definition direct_world : world :=
  {| env := example_env;
     fs := {[ "face.png" := File example_pixels ]};
     mkdir_ok := fun _ => true;
     seed := 42;
     post := ok_response (VDict (list_to_map [("output", good_output)]));
     poll := fun _ => ok_response queued |}.

(** A service whose job stays queued for ever. *)
Definition stuck_world : world :=
  {| env := example_env;
     fs := {[ "face.png" := File example_pixels ]};
     mkdir_ok := fun _ => true;
     seed := 42;
     post := ok_response queued;
     poll := fun _ => ok_response queued |}.

(** ** The script *)

Section Script.
Context (P : pil).

(** The lines printed after the test, lines 313-318; [os.getenv] with a
    default gives the default only for a variable that is not set. *)
Definition summary (w : world) : M unit :=
  let* _ := print [Lit (String "010" (repeat_string "=" 40))] in
  let* _ := print [Lit "🏁 Test completed!"] in
  let* _ := print [Lit "📊 Test Summary:"] in
  let* _ := print [Lit "   - Identity Image: ";
                   Str (default "Not set" (env w !! "INFINITE_INPUT_FACE_IMAGE_PATH"))] in
  print [Lit "   - Output Image: ";
         Str (default "Not set" (env w !! "INFINITE_OUTPUT_IMAGE_PATH"))].

(** The [__main__] block, lines 307-318. *)
Definition script (w : world) : M unit :=
  let* _ := print [Lit "🧪 InfiniteYou RunPod API Test"] in
  let* _ := print [Lit (repeat_string "=" 40)] in
  let* _ := test_infiniteyou_api P w in
  summary w.

End Script.

(** ** What a run can be seen to do *)

(** An event of the set-up, before the job is submitted. *)
Definition local_event (e : event) : bool :=
  match e with
  | EvPrint _ | EvMkdirParent _ | EvReadFile _ => true
  | _ => false
  end.

(** The exceptions of the set-up: a value that is not set, or a failure
    of the file system. *)
Definition setup_error (e : exn) : Prop :=
  e = ValueError "INFINITE_INPUT_FACE_IMAGE_PATH must be set"
  \/ e = ValueError "INFINITE_OUTPUT_IMAGE_PATH must be set"
  \/ e = ValueError "INFINITE_PERSON_PROMPT must be set"
  \/ e = OSError.

(** An event of the polling loop: a pause, a status request for the job,
    a printed line, or the image written at [path]. *)
Definition loop_event (status_url : string) (job_id : value) (token path : string)
    (e : event) : Prop :=
  e = EvSleep
  \/ e = EvHttpGet status_url job_id token
  \/ is_print e = true
  \/ exists data, e = EvWriteFile path data.

(** At most one file is written, and it is [path]. *)
Definition one_write (path : string) (t : list event) : Prop :=
  writes t = [] \/ exists data, writes t = [EvWriteFile path data].

(** A status answer that says FAILED, with the text [msg] as its error
    ("Unknown error" when it gives none). *)
Definition failed_answer (a : Py.exn + response) (msg : string) : Prop :=
  exists text d,
    a = inr {| status_code := 200; text := text; json := Some (VDict d) |}
    /\ d !! "status" = Some (VStr "FAILED")
    /\ default (VStr "Unknown error") (d !! "error") = VStr msg.

(** What is seen of a run from the submission on: pauses, status
    requests for one job at [status_url], printed lines and at most one
    file written, at [path]; as many pauses as status requests, and at
    most [max_polls] of them. *)
Definition polling_trace (status_url token path : string) (t : list event) : Prop :=
  exists job_id,
    Forall (loop_event status_url job_id token path) t
    /\ sleeps t = polls t
    /\ polls t <= max_polls
    /\ one_write path t.

(** How the loop ends after a turn that leaves it. *)
Definition leave (r : outcome step) : outcome unit :=
  match r with
  | Done _ => Done tt
  | Raised e => Raised e
  | OutOfFuel => OutOfFuel
  end.

(** A run that gets as far as the submission: the five values are set,
    the output directory can be made and the input image is a file. *)
Definition ready (w : world) : Prop :=
  truthy_str (env w !! "RUNPOD_INFU_URL") = true
  /\ truthy_str (env w !! "RUNPOD_API_KEY") = true
  /\ truthy_str (env w !! "INFINITE_INPUT_FACE_IMAGE_PATH") = true
  /\ truthy_str (env w !! "INFINITE_OUTPUT_IMAGE_PATH") = true
  /\ truthy_str (env w !! "INFINITE_PERSON_PROMPT") = true
  /\ mkdir_ok w (default EmptyString (env w !! "INFINITE_OUTPUT_IMAGE_PATH")) = true
  /\ exists data,
       fs w !! default EmptyString (env w !! "INFINITE_INPUT_FACE_IMAGE_PATH")
       = Some (File data).

(** Services and file systems for the examples: the input path is a
    directory; the job fails at the third poll; the third status request
    is answered with 502; the third status request times out; the
    submission is refused. *)
Definition directory_world : world :=
  {| env := example_env;
     fs := {[ "face.png" := Dir ]};
     mkdir_ok := fun _ => true;
     seed := 42;
     post := ok_response queued;
     poll := fun _ => ok_response queued |}.

Definition failed : value :=
  VDict (list_to_map [("status", VStr "FAILED"); ("error", VStr "No space left on device")]).

Definition failing_world : world :=
  {| env := example_env;
     fs := {[ "face.png" := File example_pixels ]};
     mkdir_ok := fun _ => true;
     seed := 42;
     post := ok_response queued;
     poll := fun k => if k <=? 2 then ok_response queued else ok_response failed |}.

Definition bad_gateway : response :=
  {| status_code := 502; text := "Bad Gateway"; json := None |}.

Definition bad_gateway_world : world :=
  {| env := example_env;
     fs := {[ "face.png" := File example_pixels ]};
     mkdir_ok := fun _ => true;
     seed := 42;
     post := ok_response queued;
     poll := fun k => if k <=? 2 then ok_response queued else inr bad_gateway |}.

Definition timeout_world : world :=
  {| env := example_env;
     fs := {[ "face.png" := File example_pixels ]};
     mkdir_ok := fun _ => true;
     seed := 42;
     post := ok_response queued;
     poll := fun k => if k <=? 2 then ok_response queued else inl RequestsTimeout |}.

Definition refused_world : world :=
  {| env := example_env;
     fs := {[ "face.png" := File example_pixels ]};
     mkdir_ok := fun _ => true;
     seed := 42;
     post := inl RequestsException;
     poll := fun _ => ok_response queued |}.

(** An output object whose image is good and whose metadata is [null]. *)
Definition null_metadata_fields : gmap string value :=
  list_to_map
    [("success", VBool true);
     ("image", VStr ("data:image/png;base64," +:+ Base64.b64encode example_pixels));
     ("metadata", VNone)].

(** An environment in which the key is set to the empty text. *)
Definition empty_key_world : world :=
  {| env := <[ "RUNPOD_API_KEY" := EmptyString ]> example_env;
     fs := {[ "face.png" := File example_pixels ]};
     mkdir_ok := fun _ => true;
     seed := 42;
     post := ok_response queued;
     poll := fun _ => ok_response queued |}.

(** Every status request of a run goes to [status_url]. *)
Definition status_request (status_url : string) (e : event) : Prop :=
  match e with
  | EvHttpGet url _ _ => url = status_url
  | _ => True
  end.

End InfiniteYou.

(* ===================================================================== *)
(** * The text-to-image clients *)
(* ===================================================================== *)

Module HFClient.
Import Py Eff PyOps.

(** The world of a text-to-image run: [post i] answers the [i]-th
    request, [now i] is [datetime.now()] formatted at the [i]-th prompt,
    [script_dir] is [Path(__file__).parent]; [mkdir_ok] and [open_ok] say
    whether a directory can be made and a file opened for writing. *)
Record world := {
  env : gmap string string;
  post : nat -> Py.exn + response;
  now : nat -> string;
  script_dir : string;
  mkdir_ok : string -> bool;
  open_ok : string -> bool;
}.

(** What [generate_image] hands back: bytes, or the JSON object itself
    when it is not text. *)
Inductive image_data :=
| Bytes (data : list byte)
| Object (v : value).

(** [response.raise_for_status()]. *)
Definition raise_for_status (r : response) : M unit :=
  if ((400 <=? status_code r) && (status_code r <? 600))%Z
  then raise (HTTPError (status_code r))
  else ret tt.

(** [generate_image], the same text in [stable_diffusion_image_gen.py]
    (lines 14-39) and [newPersonImageGen.py] (lines 18-43); [i] numbers
    the request. *)
Definition generate_image (w : world) (i : nat) (prompt api_key endpoint : string)
  : M image_data :=
  let* _ := emit (EvHttpPost endpoint api_key (VDict {[ "inputs" := VStr prompt ]})) in
  let* response := lift (post w i) in
  let* _ := raise_for_status response in
  let* result :=
    (match json response with
     | Some v => ret v
     | None => raise JSONDecodeError
     end) in
  let image_data :=
    match result with
    | VDict d => match d !! "image" with Some x => x | None => result end
    | _ => result
    end in
  match image_data with
  | VStr s =>
      let* s1 := (if contains "," s then index (split s ",") 1 else ret s) in
      let* data := lift (Base64.b64decode s1) in
      ret (Bytes data)
  | _ => ret (Object image_data)
  end.

(** The [i]-th request is answered with status 200 and the JSON string
    [header ++ b64encode data]. *)
Definition answers_data_url (w : world) (i : nat) (header : string) (data : list byte)
  : Prop :=
  exists text, post w i =
    inr {| status_code := 200; text := text;
           json := Some (VStr (header +:+ Base64.b64encode data)) |}.

(** A service that answers every request with the data URL of four
    bytes, and an environment with every value set. *)
Definition example_data : list byte := [x89; x50; x4e; x47].

Definition data_url_world : world :=
  {| env := list_to_map [("HUGGINGFACE_API_KEY", "hf_key");
                         ("HUGGINGFACE_ENDPOINT", "https://endpoint.example/sd");
                         ("NEW_PERSON_OUTPUT_IMAGE_PATH", "out/new.png")];
     post := fun _ =>
       inr {| status_code := 200; text := EmptyString;
              json := Some (VStr (("data:image/png;base64" +:+ ",")
                                  +:+ Base64.b64encode example_data)) |};
     now := fun _ => "20260101_120000";
     script_dir := "/srv/app";
     mkdir_ok := fun _ => true;
     open_ok := fun _ => true |}.

(** No value is set. *)
Definition unset_world : world :=
  {| env := ∅;
     post := fun _ => inl RequestsException;
     now := fun _ => EmptyString;
     script_dir := EmptyString;
     mkdir_ok := fun _ => true;
     open_ok := fun _ => true |}.

(** A service that answers every request with status 503, and one that
    answers with a JSON object that holds no image, for an output path
    that is not written the way [Path] writes it. *)
Definition unavailable : response :=
  {| status_code := 503; text := "Service Unavailable"; json := None |}.

Definition unavailable_world : world :=
  {| env := list_to_map [("HUGGINGFACE_API_KEY", "hf_key");
                         ("HUGGINGFACE_ENDPOINT", "https://endpoint.example/sd");
                         ("NEW_PERSON_OUTPUT_IMAGE_PATH", "out/new.png")];
     post := fun _ => inr unavailable;
     now := fun _ => "20260101_120000";
     script_dir := "/srv/app";
     mkdir_ok := fun _ => true;
     open_ok := fun _ => true |}.

Definition loading : gmap string value := {[ "estimated_time" := VInt 20 ]}.

Definition loading_world : world :=
  {| env := list_to_map [("HUGGINGFACE_API_KEY", "hf_key");
                         ("HUGGINGFACE_ENDPOINT", "https://endpoint.example/sd");
                         ("NEW_PERSON_OUTPUT_IMAGE_PATH", "./out//new.png")];
     post := fun _ =>
       inr {| status_code := 200; text := EmptyString; json := Some (VDict loading) |};
     now := fun _ => "20260101_120000";
     script_dir := "/srv/app";
     mkdir_ok := fun _ => true;
     open_ok := fun _ => true |}.

(** A service that answers with the bare base64 text of four bytes. *)
Definition bare_world : world :=
  {| env := list_to_map [("HUGGINGFACE_API_KEY", "hf_key");
                         ("HUGGINGFACE_ENDPOINT", "https://endpoint.example/sd");
                         ("NEW_PERSON_OUTPUT_IMAGE_PATH", "out/new.png")];
     post := fun _ =>
       inr {| status_code := 200; text := EmptyString;
              json := Some (VStr (Base64.b64encode example_data)) |};
     now := fun _ => "20260101_120000";
     script_dir := "/srv/app";
     mkdir_ok := fun _ => true;
     open_ok := fun _ => true |}.

(** The prompt is set, to the empty text, and the service is not
    available. *)
Definition empty_prompt_world : world :=
  {| env := list_to_map [("HUGGINGFACE_API_KEY", "hf_key");
                         ("HUGGINGFACE_ENDPOINT", "https://endpoint.example/sd");
                         ("NEW_PERSON_OUTPUT_IMAGE_PATH", "out/new.png");
                         ("NEW_PERSON_PROMPT", EmptyString)];
     post := fun _ => inr unavailable;
     now := fun _ => "20260101_120000";
     script_dir := "/srv/app";
     mkdir_ok := fun _ => true;
     open_ok := fun _ => true |}.

(** Every value is set, to the empty text. *)
Definition blank_world : world :=
  {| env := list_to_map [("HUGGINGFACE_API_KEY", EmptyString);
                         ("HUGGINGFACE_ENDPOINT", EmptyString);
                         ("NEW_PERSON_OUTPUT_IMAGE_PATH", EmptyString)];
     post := fun _ => inl RequestsException;
     now := fun _ => EmptyString;
     script_dir := EmptyString;
     mkdir_ok := fun _ => true;
     open_ok := fun _ => true |}.

(** [with open(filepath, 'wb') as f: f.write(image_bytes)]: opening
    truncates the file, and writing anything but bytes is a [TypeError]. *)
Definition write_file (w : world) (filepath : string) (d : image_data) : M unit :=
  if open_ok w filepath then
    match d with
    | Bytes data => emit (EvWriteFile filepath data)
    | Object _ => let* _ := emit (EvWriteFile filepath []) in raise TypeError
    end
  else raise OSError.

(** [for i, prompt in enumerate(prompts, 1): body]. *)
Fixpoint for_each (i : nat) (prompts : list string) (body : nat -> string -> M unit)
  : M unit :=
  match prompts with
  | [] => ret tt
  | prompt :: rest => let* _ := body i prompt in for_each (S i) rest body
  end.

End HFClient.

(** [stable_diffusion_image_gen.py]. *)
Module StableDiffusion.
Import Py Eff PyOps HFClient.

Definition prompts : list string :=
  ["A street sign that says 'STOP' in bold letters";
   "A billboard displaying 'Welcome to the City' with text";
   "A book cover with title 'Machine Learning' written on it";
   "A blackboard with '2 + 2 = 4' written in chalk";
   "A menu board showing 'Coffee $3.50' in large text";
   "A license plate with 'ABC123' on it";
   "A neon sign glowing 'OPEN' in red letters";
   "A newspaper headline 'BREAKING NEWS' in bold";
   "A price tag showing '$99.99' clearly visible";
   "A street name sign 'MAIN STREET' on a pole"].

Definition required : list string := ["HUGGINGFACE_API_KEY"; "HUGGINGFACE_ENDPOINT"].

(** The path of the [i]-th image, lines 73-75. *)
Definition filepath (w : world) (i : nat) : string :=
  script_dir w +:+ "/output_HF_images/" +:+ now w i +:+ "_" +:+ pretty i +:+ ".png".

(** [main], lines 42-84. *)
Definition main (w : world) : M unit :=
  let api_key := env w !! "HUGGINGFACE_API_KEY" in
  let endpoint := env w !! "HUGGINGFACE_ENDPOINT" in
  if negb (truthy_str api_key) || negb (truthy_str endpoint) then
    raise (ValueError "HUGGINGFACE_API_KEY and HUGGINGFACE_ENDPOINT must be set")
  else
    let key := default EmptyString api_key in
    let url := default EmptyString endpoint in
    let output_dir := script_dir w +:+ "/output_HF_images" in
    let* _ := emit (EvMkdir output_dir) in
    let* _ := (if mkdir_ok w output_dir then ret tt else raise OSError) in
    let* _ := print [Lit "Generating "; Int (Z.of_nat (length prompts)); Lit " images..."] in
    let* _ :=
      for_each 1 prompts (fun i prompt =>
        let* _ := print [Lit "["; Int (Z.of_nat i); Lit "/";
                         Int (Z.of_nat (length prompts)); Lit "] "; Str prompt] in
        try_except
          (let* image_bytes := generate_image w i prompt key url in
           let* _ := write_file w (filepath w i) image_bytes in
           print [Lit "  Saved: "; Str (filepath w i)])
          (fun e => print [Lit "  Error: "; Exc e])) in
    print [Lit (String "010" "Done! Images saved to: "); Str output_dir].

End StableDiffusion.

(** [newPersonImageGen.py]. *)
Module NewPerson.
Import Py Eff PyOps HFClient.

Definition required : list string :=
  ["HUGGINGFACE_API_KEY"; "HUGGINGFACE_ENDPOINT"; "NEW_PERSON_OUTPUT_IMAGE_PATH"].

Definition default_prompt : string :=
  "A crowd of people with three happy people and one sad person ".

(** [main], lines 46-78.  [filepath] is a [Path]: the file is opened and
    printed under the text [str] gives of it. *)
Definition main (w : world) : M unit :=
  let api_key := env w !! "HUGGINGFACE_API_KEY" in
  let endpoint := env w !! "HUGGINGFACE_ENDPOINT" in
  if negb (truthy_str api_key) || negb (truthy_str endpoint) then
    raise (ValueError "HUGGINGFACE_API_KEY and HUGGINGFACE_ENDPOINT must be set")
  else
    let key := default EmptyString api_key in
    let url := default EmptyString endpoint in
    let output_image_path := env w !! "NEW_PERSON_OUTPUT_IMAGE_PATH" in
    if negb (truthy_str output_image_path) then
      raise (ValueError "NEW_PERSON_OUTPUT_IMAGE_PATH must be set")
    else
      let output_path := default EmptyString output_image_path in
      let filepath := path_str output_path in
      let* _ := emit (EvMkdirParent output_path) in
      let* _ := (if mkdir_ok w output_path then ret tt else raise OSError) in
      let prompt := default default_prompt (env w !! "NEW_PERSON_PROMPT") in
      let prompts := [prompt] in
      let* _ := print [Lit "Generating "; Int (Z.of_nat (length prompts)); Lit " images..."] in
      let* _ :=
        for_each 1 prompts (fun i prompt =>
          let* _ := print [Lit "["; Int (Z.of_nat i); Lit "/";
                           Int (Z.of_nat (length prompts)); Lit "] "; Str prompt] in
          try_except
            (let* image_bytes := generate_image w i prompt key url in
             let* _ := write_file w filepath image_bytes in
             print [Lit "  Saved: "; Str filepath])
            (fun e => print [Lit "  Error: "; Exc e])) in
      print [Lit (String "010" "Done! Image saved to: "); Str filepath].

End NewPerson.

(* ===================================================================== *)
(** * compare_faces.py: the face comparator *)
(* ===================================================================== *)

Module CompareFaces.
Import Py Eff PyOps.

(** The computer-vision library (OpenCV) as the script uses it.  The
    calls are kept abstract: images, histograms and scores are the
    library's own, and so is the arithmetic on scores.  A call that can
    raise [cv2.error] gives the text of the error or its result;
    [haarcascades] is [cv2.data.haarcascades], the directory of the
    classifier files, and [crop g (x, y, w, h)] is the slice
    [g[y:y+h, x:x+w]]. *)
Record cv := {
  image : Type;
  gray : Type;
  hist : Type;
  score : Type;
  rect : Type;
  cascade : Type;
  haarcascades : string;
  imdecode : list byte -> option image;
  cvtColor : image -> string + gray;
  CascadeClassifier : string -> string + cascade;
  detectMultiScale : cascade -> gray -> string + list rect;
  crop : gray -> rect -> gray;
  resize : gray -> string + gray;
  calcHist : gray -> string + hist;
  normalize : hist -> string + hist;
  compareHist : hist -> hist -> string + score;
  matchTemplate : gray -> gray -> string + score;
  mean2 : score -> score -> score;
  format4 : score -> string;
  percent2 : score -> string;
  format6 : score -> string;
}.

(** One run sees the environment after [load_dotenv()], the files, and
    whether [comparisons.csv] can be opened for appending. *)
Record world := {
  env : gmap string string;
  fs : gmap string node;
  csv_open_ok : bool;
}.

Definition required : list string :=
  ["DEFAULT_PERSON_FACE_IMAGE"; "INFINITE_PERSON_FACE_IMAGE"].

Definition csv_path : string := "comparisons.csv".

Definition header : list string :=
  ["DEFAULT_PERSON_FACE_IMAGE"; "INFINITE_PERSON_FACE_IMAGE"; "Face_ID_Similarity"].

(** [str(e)] of the exceptions this script formats. *)
Definition exn_str (e : exn) : string :=
  match e with
  | ValueError msg => msg
  | FileNotFoundError msg => msg
  | CvError msg => msg
  | _ => EmptyString
  end.

(** A call into the library: its result, or [cv2.error]. *)
Definition cv_call {A} (r : string + A) : M A :=
  match r with
  | inl msg => raise (CvError msg)
  | inr a => ret a
  end.

Section Comparator.
Context (C : cv).

(** [cv2.imread]: [None] when the file is missing or is no image. *)
Definition imread (w : world) (image_path : string) : option (image C) :=
  match fs w !! image_path with
  | Some (File data) => imdecode C data
  | _ => None
  end.

(** The classifier file of line 26. *)
Definition cascade_file : string :=
  haarcascades C +:+ "haarcascade_frontalface_default.xml".

(** [detect_face], lines 15-43. *)
Definition detect_face (w : world) (image_path : string) : M (gray C) :=
  let* _ := emit (EvImread image_path) in
  match imread w image_path with
  | None => raise (ValueError ("Could not load image: " +:+ image_path))
  | Some img =>
      let* g := cv_call (cvtColor C img) in
      let* _ := emit (EvLoadCascade cascade_file) in
      let* face_cascade := cv_call (CascadeClassifier C cascade_file) in
      let* _ := emit (EvDetect image_path) in
      let* faces := cv_call (detectMultiScale C face_cascade g) in
      match faces with
      | [] => raise (ValueError ("No face detected in image: " +:+ image_path))
      | first :: _ =>
          let* _ :=
            (if 1 <? length faces
             then print [Lit "⚠️  Warning: Multiple faces detected in "; Str image_path;
                         Lit ", using first face"]
             else ret tt) in
          cv_call (resize C (crop C g first))
      end
  end.

(** [compute_face_similarity], lines 46-78. *)
Definition compute_face_similarity (w : world) (img1_path img2_path : string)
  : M (score C) :=
  try_except
    (let* face1 := detect_face w img1_path in
     let* face2 := detect_face w img2_path in
     let* hist1 := cv_call (calcHist C face1) in
     let* hist2 := cv_call (calcHist C face2) in
     let* hist1 := cv_call (normalize C hist1) in
     let* hist2 := cv_call (normalize C hist2) in
     let* similarity := cv_call (compareHist C hist1 hist2) in
     let* face1_resized := cv_call (resize C face1) in
     let* face2_resized := cv_call (resize C face2) in
     let* template_similarity := cv_call (matchTemplate C face1_resized face2_resized) in
     ret (mean2 C similarity template_similarity))
    (fun e => raise (ValueError ("Error comparing faces: " +:+ exn_str e))).

(** The data row of a comparison, line 119. *)
Definition data_row (left right : string) (similarity : score C) : list string :=
  [left; right; format6 C similarity].

(** [main], lines 81-121.  The content of [comparisons.csv] is the list
    of the rows written to it ([None]: no such file); a finished run
    gives the content it leaves. *)
Definition main (w : world) (csv : option (list (list string)))
  : M (option (list (list string))) :=
  let default_image_path := env w !! "DEFAULT_PERSON_FACE_IMAGE" in
  let infinite_image_path := env w !! "INFINITE_PERSON_FACE_IMAGE" in
  if negb (truthy_str default_image_path) then
    raise (ValueError "DEFAULT_PERSON_FACE_IMAGE environment variable must be set")
  else if negb (truthy_str infinite_image_path) then
    raise (ValueError "INFINITE_PERSON_FACE_IMAGE environment variable must be set")
  else
    let left := default EmptyString default_image_path in
    let right := default EmptyString infinite_image_path in
    if negb (bool_decide (is_Some (fs w !! left))) then
      raise (FileNotFoundError ("Image not found: " +:+ left))
    else if negb (bool_decide (is_Some (fs w !! right))) then
      raise (FileNotFoundError ("Image not found: " +:+ right))
    else
      let* _ := print [Lit "📸 Comparing faces..."] in
      let* _ := print [Lit "   Default: "; Str left] in
      let* _ := print [Lit "   Infinite: "; Str right] in
      let* similarity := compute_face_similarity w left right in
      let* _ := print [Lit (String "010" "✅ Face Similarity: ");
                       Str (format4 C similarity);
                       Lit " ("; Str (percent2 C similarity); Lit "%)"] in
      let file_exists := bool_decide (is_Some csv) in
      if csv_open_ok w then
        let rows := default [] csv in
        let* _ :=
          (if negb file_exists then emit (EvCsvRow csv_path header) else ret tt) in
        let rows1 := if negb file_exists then rows ++ [header] else rows in
        let row := data_row left right similarity in
        let* _ := emit (EvCsvRow csv_path row) in
        let* _ := print [Lit "💾 Results saved to: "; Str csv_path] in
        ret (Some (rows1 ++ [row]))
      else raise OSError.

(** Successive runs, each starting from the file the one before left. *)
Fixpoint runs (ws : list world) (csv : option (list (list string)))
  : M (option (list (list string))) :=
  match ws with
  | [] => ret csv
  | w :: rest => let* csv' := main w csv in runs rest csv'
  end.

(** The detector is run on the image at [path] and finds [faces] in its
    grayscale [g]: the image loads, and the conversion, the classifier
    and the detection raise nothing. *)
Definition detects (w : world) (path : string) (g : gray C) (faces : list (rect C))
  : Prop :=
  exists img face_cascade,
    imread w path = Some img
    /\ cvtColor C img = inr g
    /\ CascadeClassifier C cascade_file = inr face_cascade
    /\ detectMultiScale C face_cascade g = inr faces.

(** [face] is the face region [detect_face] cuts out of the image at
    [path], lines 37-41: the first face found, resized. *)
Definition face_of (w : world) (path : string) (face : gray C) : Prop :=
  exists g first more,
    detects w path g (first :: more)
    /\ resize C (crop C g first) = inr face.

(** The two things compared of a face region, lines 54-67: its
    normalized histogram [h] and the region resized again, [template]. *)
Definition described (face : gray C) (h : hist C) (template : gray C) : Prop :=
  exists h0,
    calcHist C face = inr h0
    /\ normalize C h0 = inr h
    /\ resize C face = inr template.

End Comparator.

(** ** The text of the file *)

Definition dquote : ascii := ascii_of_nat 34.
Definition CR : ascii := ascii_of_nat 13.
Definition LF : ascii := ascii_of_nat 10.

Definition special (c : ascii) : bool :=
  Ascii.eqb c ","%char || Ascii.eqb c dquote || Ascii.eqb c CR || Ascii.eqb c LF.

Fixpoint needs_quotes (s : string) : bool :=
  match s with
  | EmptyString => false
  | String c s' => special c || needs_quotes s'
  end.

Fixpoint double_quotes (s : string) : string :=
  match s with
  | EmptyString => EmptyString
  | String c s' =>
      if Ascii.eqb c dquote
      then String dquote (String dquote (double_quotes s'))
      else String c (double_quotes s')
  end.

(** A field as [csv.writer] writes it with the default dialect: quoted
    when it holds a comma, a quote or a line break, quotes doubled. *)
Definition csv_field (s : string) : string :=
  if needs_quotes s
  then String dquote (double_quotes s +:+ String dquote EmptyString)
  else s.

Fixpoint join_fields (fields : list string) : string :=
  match fields with
  | [] => EmptyString
  | [f] => csv_field f
  | f :: rest => csv_field f +:+ "," +:+ join_fields rest
  end.

(** [writer.writerow(fields)]: the fields, then the line terminator. *)
Definition csv_line (fields : list string) : string :=
  join_fields fields +:+ String CR (String LF EmptyString).

Fixpoint csv_text (rows : list (list string)) : string :=
  match rows with
  | [] => EmptyString
  | r :: rest => csv_line r +:+ csv_text rest
  end.

(** The number of lines of a text: its line feeds. *)
Fixpoint count_lines (s : string) : nat :=
  match s with
  | EmptyString => 0
  | String c s' => (if Ascii.eqb c LF then 1 else 0) + count_lines s'
  end.

Fixpoint plain (s : string) : bool :=
  match s with
  | EmptyString => true
  | String c s' => negb (Ascii.eqb c CR) && negb (Ascii.eqb c LF) && plain s'
  end.

(** The rows a run hands to [writer.writerow], in order. *)
Fixpoint rows_written (t : list event) : list (list string) :=
  match t with
  | [] => []
  | EvCsvRow _ row :: t' => row :: rows_written t'
  | _ :: t' => rows_written t'
  end.

(** [row] is the data row of a comparison made in the world [w]. *)
Definition row_of (C : cv) (w : world) (row : list string) : Prop :=
  exists similarity,
    row = data_row C (default EmptyString (env w !! "DEFAULT_PERSON_FACE_IMAGE"))
            (default EmptyString (env w !! "INFINITE_PERSON_FACE_IMAGE")) similarity.

(** Every field of every row is free of line breaks. *)
Definition plain_rows (rows : list (list string)) : Prop :=
  Forall (Forall (fun field => plain field = true)) rows.

(** ** A small library for the examples *)

Fixpoint forallb2 {A} (f : A -> A -> bool) (l1 l2 : list A) : bool :=
  match l1, l2 with
  | [], [] => true
  | x :: l1', y :: l2' => f x y && forallb2 f l1' l2'
  | _, _ => false
  end.

(** Images are their bytes and no call raises; the detector finds as
    many faces as the first byte of the image says, the face [i] being
    the image without its first [i] bytes; two regions score 100 when
    they are equal and 0 when they are not. *)
Definition plain_cv : cv :=
  {| image := list byte;
     gray := list byte;
     hist := list byte;
     score := nat;
     rect := nat;
     cascade := unit;
     haarcascades := "/usr/lib/python3/dist-packages/cv2/data/";
     imdecode := fun data : list byte =>
       match data with [] => None | _ => Some data end;
     cvtColor := fun img : list byte => inr img;
     CascadeClassifier := fun _ : string => inr tt;
     detectMultiScale := fun (_ : unit) (g : list byte) =>
       inr match g with
           | [] => []
           | b :: _ => seq 0 (Byte.to_nat b)
           end;
     crop := fun (g : list byte) (i : nat) => drop i g;
     resize := fun g : list byte => inr g;
     calcHist := fun g : list byte => inr g;
     normalize := fun h : list byte => inr h;
     compareHist := fun h1 h2 : list byte =>
       inr (if forallb2 Byte.eqb h1 h2 then 100 else 0);
     matchTemplate := fun g1 g2 : list byte =>
       inr (if forallb2 Byte.eqb g1 g2 then 100 else 0);
     mean2 := fun a b : nat => (a + b) / 2;
     format4 := fun s : nat => pretty s;
     percent2 := fun s : nat => pretty s;
     format6 := fun s : nat => pretty s |}.

(** The library [C] with another detector. *)
Definition with_detector (C : cv)
    (detect : cascade C -> gray C -> string + list (rect C)) : cv :=
  {| image := image C;
     gray := gray C;
     hist := hist C;
     score := score C;
     rect := rect C;
     cascade := cascade C;
     haarcascades := haarcascades C;
     imdecode := imdecode C;
     cvtColor := cvtColor C;
     CascadeClassifier := CascadeClassifier C;
     detectMultiScale := detect;
     crop := crop C;
     resize := resize C;
     calcHist := calcHist C;
     normalize := normalize C;
     compareHist := compareHist C;
     matchTemplate := matchTemplate C;
     mean2 := mean2 C;
     format4 := format4 C;
     percent2 := percent2 C;
     format6 := format6 C |}.

(** The library [C] with a detector that reports only the first of the
    faces it finds. *)
Definition first_face_only (C : cv) : cv :=
  with_detector C (fun face_cascade g =>
    match detectMultiScale C face_cascade g with
    | inl msg => inl msg
    | inr faces => inr (take 1 faces)
    end).

(** The library of the examples when the classifier file could not be
    read: the classifier is empty, and a search with it raises. *)
Definition empty_classifier : string :=
  "(-215:Assertion failed) !empty() in function 'detectMultiScale'".

Definition unloaded_cv : cv :=
  with_detector plain_cv (fun _ _ => inl empty_classifier).

(** Two images in which the detector finds a face. *)
Definition faces_world : world :=
  {| env := list_to_map [("DEFAULT_PERSON_FACE_IMAGE", "a.jpg");
                         ("INFINITE_PERSON_FACE_IMAGE", "b.jpg")];
     fs := list_to_map [("a.jpg", File [x01; x02]); ("b.jpg", File [x01; x03])];
     csv_open_ok := true |}.

(** Two images in neither of which it finds one. *)
Definition no_faces_world : world :=
  {| env := list_to_map [("DEFAULT_PERSON_FACE_IMAGE", "a.jpg");
                         ("INFINITE_PERSON_FACE_IMAGE", "b.jpg")];
     fs := list_to_map [("a.jpg", File [x00; x02]); ("b.jpg", File [x00; x03])];
     csv_open_ok := true |}.

(** No image path is set. *)
Definition unset_world : world :=
  {| env := ∅; fs := ∅; csv_open_ok := true |}.

(** The second image has no face; the first image is no image; no file
    is there. *)
Definition second_faceless_world : world :=
  {| env := list_to_map [("DEFAULT_PERSON_FACE_IMAGE", "a.jpg");
                         ("INFINITE_PERSON_FACE_IMAGE", "b.jpg")];
     fs := list_to_map [("a.jpg", File [x01; x02]); ("b.jpg", File [x00; x03])];
     csv_open_ok := true |}.

Definition garbled_world : world :=
  {| env := list_to_map [("DEFAULT_PERSON_FACE_IMAGE", "a.jpg");
                         ("INFINITE_PERSON_FACE_IMAGE", "b.jpg")];
     fs := list_to_map [("a.jpg", File []); ("b.jpg", File [x01; x03])];
     csv_open_ok := true |}.

Definition no_files_world : world :=
  {| env := list_to_map [("DEFAULT_PERSON_FACE_IMAGE", "a.jpg");
                         ("INFINITE_PERSON_FACE_IMAGE", "b.jpg")];
     fs := ∅;
     csv_open_ok := true |}.

(** The warning of line 34. *)
Definition warning (image_path : string) : event :=
  EvPrint [Lit "⚠️  Warning: Multiple faces detected in "; Str image_path;
           Lit ", using first face"].

(** Both image paths are set, to the empty text. *)
Definition blank_world : world :=
  {| env := list_to_map [("DEFAULT_PERSON_FACE_IMAGE", EmptyString);
                         ("INFINITE_PERSON_FACE_IMAGE", EmptyString)];
     fs := ∅;
     csv_open_ok := true |}.

(** Two faces are found in the first image and one in the second. *)
Definition crowd_world : world :=
  {| env := list_to_map [("DEFAULT_PERSON_FACE_IMAGE", "a.jpg");
                         ("INFINITE_PERSON_FACE_IMAGE", "b.jpg")];
     fs := list_to_map [("a.jpg", File [x02; x07; x09]); ("b.jpg", File [x01; x03])];
     csv_open_ok := true |}.

(** The name of the first image holds a line feed. *)
Definition broken_name : string := String "a" (String LF ".jpg").

Definition line_break_world : world :=
  {| env := list_to_map [("DEFAULT_PERSON_FACE_IMAGE", broken_name);
                         ("INFINITE_PERSON_FACE_IMAGE", "b.jpg")];
     fs := list_to_map [(broken_name, File [x01; x02]); ("b.jpg", File [x01; x03])];
     csv_open_ok := true |}.

End CompareFaces.

(* ===================================================================== *)
(** * Facts on effects *)
(* ===================================================================== *)

Module EffFacts.
Import Py Eff.

Lemma bind_done {A B} (m : M A) (k : A -> M B) t a :
  m = (t, Done a) -> bind m k = (t ++ trace (k a), result (k a)).
Proof. intros ->. unfold bind, trace, result. now destruct (k a). Qed.

Lemma bind_raised {A B} (m : M A) (k : A -> M B) t e :
  m = (t, Raised e) -> bind m k = (t, Raised e).
Proof. now intros ->. Qed.

Lemma surjective_run {A} (m : M A) : m = (trace m, result m).
Proof. now destruct m. Qed.

Lemma truthy_str_some v :
  truthy_str v = true -> exists s, v = Some s /\ String.eqb s EmptyString = false.
Proof.
  destruct v as [s|]; cbn; [|discriminate].
  intros H. exists s. split; [reflexivity|]. now apply negb_true_iff.
Qed.

Lemma truthy_str_false v :
  truthy_str v = false -> v = None \/ v = Some EmptyString.
Proof.
  destruct v as [s|]; cbn; [|now left].
  intros H. apply negb_false_iff, String.eqb_eq in H. right. now subst.
Qed.

Lemma writes_app t1 t2 : writes (t1 ++ t2) = writes t1 ++ writes t2.
Proof. apply List.filter_app. Qed.

Lemma network_calls_app t1 t2 :
  network_calls (t1 ++ t2) = network_calls t1 + network_calls t2.
Proof. unfold network_calls. now rewrite List.filter_app, length_app. Qed.

Section Quiet.
Context (Q : event -> bool).

Lemma all_ret {A} (a : A) : all_events Q (ret a).
Proof. reflexivity. Qed.

Lemma all_raise {A} e : all_events Q (@raise A e).
Proof. reflexivity. Qed.

Lemma all_lift {A} (r : exn + A) : all_events Q (lift r).
Proof. destruct r; reflexivity. Qed.

Lemma all_emit e : Q e = true -> all_events Q (emit e).
Proof. unfold all_events. cbn. now intros ->. Qed.

Lemma all_print m : Q (EvPrint m) = true -> all_events Q (print m).
Proof. apply all_emit. Qed.

Lemma all_bind {A B} (m : M A) (k : A -> M B) :
  all_events Q m -> (forall a, all_events Q (k a)) -> all_events Q (bind m k).
Proof.
  unfold all_events, trace. intros Hm Hk. destruct m as [t [a| |]]; cbn in *; try assumption.
  specialize (Hk a). destruct (k a) as [t' r]. cbn in *.
  rewrite forallb_app. now rewrite Hm, Hk.
Qed.

Lemma all_try {A} (m : M A) (h : exn -> M A) :
  all_events Q m -> (forall e, all_events Q (h e)) -> all_events Q (try_except m h).
Proof.
  unfold all_events, trace. intros Hm Hh. destruct m as [t [a|e|]]; cbn in *; try assumption.
  specialize (Hh e). destruct (h e) as [t' r]. cbn in *.
  rewrite forallb_app. now rewrite Hm, Hh.
Qed.

Lemma all_get_default v key d : all_events Q (PyOps.get_default v key d).
Proof. destruct v; reflexivity. Qed.

Lemma all_get v key : all_events Q (PyOps.get v key).
Proof. apply all_get_default. Qed.

Lemma all_has key v : all_events Q (PyOps.has key v).
Proof. destruct v; reflexivity. Qed.

Lemma all_item v key : all_events Q (PyOps.item v key).
Proof. destruct v as [| | | | | |d]; try reflexivity. cbn. now destruct (d !! key). Qed.

Lemma all_lower v : all_events Q (PyOps.lower v).
Proof. destruct v; reflexivity. Qed.

Lemma all_index l i : all_events Q (PyOps.index l i).
Proof. unfold PyOps.index. now destruct (l !! i). Qed.

End Quiet.

Lemma bind_emit {A} e (k : unit -> M A) :
  bind (emit e) k = (e :: trace (k tt), result (k tt)).
Proof. unfold bind, emit, trace, result. now destruct (k tt). Qed.

Lemma bind_ret_l {A B} (a : A) (k : A -> M B) : bind (ret a) k = k a.
Proof. unfold bind, ret. now destruct (k a). Qed.

Lemma fin_ret {A} (a : A) : finishes (ret a).
Proof. discriminate. Qed.

Lemma fin_raise {A} e : finishes (@raise A e).
Proof. discriminate. Qed.

Lemma fin_lift {A} (r : exn + A) : finishes (lift r).
Proof. destruct r; discriminate. Qed.

Lemma fin_emit e : finishes (emit e).
Proof. discriminate. Qed.

Lemma fin_bind {A B} (m : M A) (k : A -> M B) :
  finishes m -> (forall a, finishes (k a)) -> finishes (bind m k).
Proof.
  unfold finishes, result. intros Hm Hk. destruct m as [t [a|e|]]; cbn in *;
    try discriminate; try congruence.
  specialize (Hk a). now destruct (k a).
Qed.

Lemma fin_try {A} (m : M A) (h : exn -> M A) :
  finishes m -> (forall e, finishes (h e)) -> finishes (try_except m h).
Proof.
  unfold finishes, result. intros Hm Hh. destruct m as [t [a|e|]]; cbn in *;
    try discriminate; try congruence.
  specialize (Hh e). now destruct (h e).
Qed.

Lemma fin_get_default v key d : finishes (PyOps.get_default v key d).
Proof. destruct v; discriminate. Qed.

Lemma fin_has key v : finishes (PyOps.has key v).
Proof. destruct v; discriminate. Qed.

Lemma fin_item v key : finishes (PyOps.item v key).
Proof. destruct v as [| | | | | |d]; try discriminate. cbn. destruct (d !! key); discriminate. Qed.

Lemma fin_lower v : finishes (PyOps.lower v).
Proof. destruct v; discriminate. Qed.

Lemma fin_index l i : finishes (PyOps.index l i).
Proof. unfold PyOps.index. destruct (l !! i); discriminate. Qed.

Lemma ens_ret {A} (R : A -> Prop) a : R a -> ensures R (ret a).
Proof. intros H b [= <-]. exact H. Qed.

Lemma ens_raise {A} (R : A -> Prop) e : ensures R (raise e).
Proof. intros b [=]. Qed.

Lemma ens_bind {A B} (R : B -> Prop) (m : M A) (k : A -> M B) :
  (forall a, ensures R (k a)) -> ensures R (bind m k).
Proof.
  unfold ensures, result. intros Hk b. destruct m as [t [a|e|]]; cbn; try discriminate.
  specialize (Hk a b). now destruct (k a).
Qed.

Lemma all_filter_nil (Q : event -> bool) (t : list event) :
  forallb Q t = true -> List.filter (fun e => negb (Q e)) t = [].
Proof.
  induction t as [|e t IH]; cbn; [reflexivity|].
  intros H. apply andb_true_iff in H as [-> H]. cbn. auto.
Qed.

Lemma no_http_calls {A} (m : M A) : all_events no_http m -> network_calls (trace m) = 0.
Proof.
  unfold all_events, network_calls. intros H.
  rewrite (List.filter_ext is_http (fun e => negb (no_http e))).
  - now rewrite all_filter_nil.
  - intros e. unfold no_http. now rewrite negb_involutive.
Qed.

Lemma no_write_writes {A} (m : M A) : all_events no_write m -> writes (trace m) = [].
Proof.
  unfold all_events, writes. intros H.
  rewrite (List.filter_ext is_write (fun e => negb (no_write e))).
  - now rewrite all_filter_nil.
  - intros e. unfold no_write. now rewrite negb_involutive.
Qed.

End EffFacts.

(** The events of [l] that come before its tail [t]. *)
Ltac front l t :=
  lazymatch l with
  | t => constr:(@nil Eff.event)
  | ?x :: ?l' => let r := front l' t in constr:(x :: r)
  end.

(** One step in showing that a run ends. *)
Ltac ends_step :=
  first
    [ apply EffFacts.fin_ret
    | apply EffFacts.fin_raise
    | apply EffFacts.fin_lift
    | apply EffFacts.fin_emit
    | apply EffFacts.fin_get_default
    | apply EffFacts.fin_has
    | apply EffFacts.fin_item
    | apply EffFacts.fin_lower
    | apply EffFacts.fin_index
    | apply EffFacts.fin_bind; [| intros ?]
    | apply EffFacts.fin_try; [| intros ?]
    | match goal with
      | |- Eff.finishes (if ?b then _ else _) => destruct b
      | |- Eff.finishes (match ?x with _ => _ end) => destruct x
      end ].

(** Breaks a run into its steps, to show that it ends. *)
Ltac ends := repeat ends_step.

(** Breaks a run into its steps, for a property of what it hands back. *)
Ltac hands_back :=
  repeat first
    [ apply EffFacts.ens_raise
    | apply EffFacts.ens_bind; intros ?
    | match goal with
      | |- Eff.ensures _ (if ?b then _ else _) => destruct b
      | |- Eff.ensures _ (match ?x with _ => _ end) => destruct x
      end ].

(** Breaks a run into its steps, for a property of all its events. *)
Ltac quiet :=
  repeat first
    [ apply EffFacts.all_ret
    | apply EffFacts.all_raise
    | apply EffFacts.all_lift
    | apply EffFacts.all_get_default
    | apply EffFacts.all_get
    | apply EffFacts.all_has
    | apply EffFacts.all_item
    | apply EffFacts.all_lower
    | apply EffFacts.all_index
    | apply EffFacts.all_print; reflexivity
    | apply EffFacts.all_emit; reflexivity
    | apply EffFacts.all_bind; [| intros ?]
    | apply EffFacts.all_try; [| intros ?]
    | match goal with
      | |- Eff.all_events _ (if ?b then _ else _) => destruct b
      | |- Eff.all_events _ (match ?x with _ => _ end) => destruct x
      end ].

(* ===================================================================== *)
(** * Facts on strings *)
(* ===================================================================== *)

Module PyFacts.
Import Py.

Lemma contains_comma_cons c s :
  contains "," (String c s) = Ascii.eqb c ","%char || contains "," s.
Proof.
  cbn [contains String.prefix].
  destruct (ascii_dec "," c) as [<-|Hne].
  - destruct s; reflexivity.
  - destruct (Ascii.eqb_spec c ","%char) as [->|_]; [congruence | reflexivity].
Qed.

Lemma append_cons c (s1 s2 : string) : String c s1 +:+ s2 = String c (s1 +:+ s2).
Proof. reflexivity. Qed.

Lemma append_assoc (s1 s2 s3 : string) : (s1 +:+ s2) +:+ s3 = s1 +:+ (s2 +:+ s3).
Proof.
  induction s1 as [|c s1 IH]; [reflexivity|].
  rewrite !append_cons, IH. reflexivity.
Qed.

Lemma append_empty_r (s : string) : s +:+ EmptyString = s.
Proof.
  induction s as [|c s IH]; [reflexivity|]. rewrite append_cons, IH. reflexivity.
Qed.

Lemma contains_comma_app s1 s2 :
  contains "," (s1 +:+ s2) = contains "," s1 || contains "," s2.
Proof.
  induction s1 as [|c s1 IH].
  - reflexivity.
  - rewrite append_cons, !contains_comma_cons, IH, orb_assoc. reflexivity.
Qed.

(** Splitting at commas a text without any gives the text back. *)
Lemma split_go_plain cur s :
  contains "," s = false -> split_go "," 0 cur s = [cur +:+ s].
Proof.
  revert cur. induction s as [|c s IH]; intros cur H.
  - cbn. now rewrite append_empty_r.
  - rewrite contains_comma_cons in H. apply orb_false_iff in H as [Hc Hs].
    cbn [split_go String.prefix].
    destruct (ascii_dec "," c) as [<-|_]; [discriminate|].
    rewrite IH by assumption. rewrite append_assoc. reflexivity.
Qed.

(** Splitting stops at the first comma and starts again after it. *)
Lemma split_go_comma cur pre rest :
  contains "," pre = false ->
  split_go "," 0 cur (pre +:+ String "," rest)
  = (cur +:+ pre) :: split_go "," 0 EmptyString rest.
Proof.
  revert cur. induction pre as [|c pre IH]; intros cur H.
  - change (EmptyString +:+ String "," rest) with (String "," rest).
    rewrite append_empty_r. cbn [split_go String.prefix].
    destruct (ascii_dec "," ","); [|congruence]. destruct rest; reflexivity.
  - rewrite contains_comma_cons in H. apply orb_false_iff in H as [Hc Hs].
    rewrite append_cons. cbn [split_go String.prefix].
    destruct (ascii_dec "," c) as [<-|_]; [discriminate|].
    rewrite IH by assumption. now rewrite append_assoc.
Qed.

(** [(pre + "," + body).split(",") == [pre, body]] when neither holds a
    comma. *)
Lemma split_data_url pre body :
  contains "," pre = false -> contains "," body = false ->
  split (pre +:+ String "," body) "," = [pre; body].
Proof.
  intros Hpre Hbody. unfold split.
  rewrite split_go_comma by assumption.
  rewrite split_go_plain by assumption. reflexivity.
Qed.

(** [split] never gives an empty list. *)
Lemma split_go_first sep s : forall skip cur,
  exists x l, split_go sep skip cur s = x :: l.
Proof.
  induction s as [|c s IH]; intros skip cur; cbn [split_go].
  - eauto.
  - destruct skip as [|k]; [|apply IH].
    destruct (String.prefix sep (String c s)); [eauto | apply IH].
Qed.

(** [sep in s] gives [s.split(sep)] at least two pieces. *)
Lemma split_go_second a sep s : forall cur,
  contains (String a sep) s = true ->
  exists x y l, split_go (String a sep) 0 cur s = x :: y :: l.
Proof.
  induction s as [|c s IH]; intros cur H.
  - discriminate.
  - cbn [contains] in H. cbn [split_go].
    destruct (String.prefix (String a sep) (String c s)).
    + destruct (split_go_first (String a sep) s (String.length (String a sep) - 1)
                  EmptyString) as (y & l & ->).
      eauto.
    + apply IH. exact H.
Qed.

Lemma index_split_0 s sep : exists x, PyOps.index (split s sep) 0 = Eff.ret x.
Proof.
  unfold split. destruct (split_go_first sep s 0 EmptyString) as (x & l & ->).
  exists x. reflexivity.
Qed.

Lemma index_split_1 s a sep :
  contains (String a sep) s = true ->
  exists y, PyOps.index (split s (String a sep)) 1 = Eff.ret y.
Proof.
  intros H. unfold split.
  destruct (split_go_second a sep s EmptyString H) as (x & y & l & ->).
  exists y. reflexivity.
Qed.

End PyFacts.
Module Base64Facts.
Import Base64.

Lemma all_bytes_nth (b : byte) :
  nth_error all_bytes (N.to_nat (Byte.to_N b)) = Some b.
Proof. destruct b; reflexivity. Qed.

Lemma forall_byte (P : byte -> bool) :
  forallb P all_bytes = true -> forall b, P b = true.
Proof.
  intros H b. rewrite forallb_forall in H. apply H.
  eapply nth_error_In, all_bytes_nth.
Qed.

Lemma forall_byte2 (P : byte -> byte -> bool) :
  forallb (fun a => forallb (P a) all_bytes) all_bytes = true ->
  forall a b, P a b = true.
Proof.
  intros H a b.
  apply (forall_byte (P a)). apply (forall_byte (fun a => forallb (P a) all_bytes) H).
Qed.

Lemma stands_for_spec c n :
  stands_for c n = true ->
  Ascii.eqb c pad = false /\ Ascii.eqb c ","%char = false
  /\ (N_of_ascii c <? 128)%N = true /\ table_a2b c = Some n.
Proof.
  unfold stands_for. rewrite !andb_true_iff, !negb_true_iff.
  intros [[[H1 H2] H3] H4]. repeat split; try assumption.
  destruct (table_a2b c); [|discriminate]. apply N.eqb_eq in H4. congruence.
Qed.

Lemma char1 b : stands_for (table_b2a (sextet1 b)) (sextet1 b) = true.
Proof. revert b. apply forall_byte. vm_compute. reflexivity. Qed.

Lemma char2 b1 b2 : stands_for (table_b2a (sextet2 b1 b2)) (sextet2 b1 b2) = true.
Proof. revert b1 b2. apply forall_byte2. vm_compute. reflexivity. Qed.

Lemma char3 b2 b3 : stands_for (table_b2a (sextet3 b2 b3)) (sextet3 b2 b3) = true.
Proof. revert b2 b3. apply forall_byte2. vm_compute. reflexivity. Qed.

Lemma char4 b : stands_for (table_b2a (sextet4 b)) (sextet4 b) = true.
Proof. revert b. apply forall_byte. vm_compute. reflexivity. Qed.


Lemma out1_ok b1 b2 : out1 b1 b2 = b1.
Proof.
  apply byte_dec_bl. revert b1 b2. apply forall_byte2. vm_compute. reflexivity.
Qed.

Lemma left2 b1 b2 : N.land (sextet2 b1 b2) 15 = N.land (sextet2 x00 b2) 15.
Proof.
  apply N.eqb_eq. revert b1 b2. apply forall_byte2. vm_compute. reflexivity.
Qed.

Lemma right3 b2 b3 : N.shiftr (sextet3 b2 b3) 2 = N.shiftr (sextet3 b2 x00) 2.
Proof.
  apply N.eqb_eq. revert b2 b3. apply forall_byte2. vm_compute. reflexivity.
Qed.

Lemma out2_ok b1 b2 b3 : out2 b1 b2 b3 = b2.
Proof.
  unfold out2. rewrite left2, right3.
  apply byte_dec_bl. revert b2. apply forall_byte. vm_compute. reflexivity.
Qed.

Lemma out3_ok b2 b3 : out3 b2 b3 = b3.
Proof.
  apply byte_dec_bl. revert b2 b3. apply forall_byte2. vm_compute. reflexivity.
Qed.

(** One data character moves the decoder one place in its group. *)
Lemma a2b_go_data c n s quad_pos leftchar pads :
  stands_for c n = true ->
  a2b_go (String c s) quad_pos leftchar pads =
  match quad_pos with
  | 0 => a2b_go s 1 n 0
  | 1 => cons (byte_trunc (N.lor (N.shiftl leftchar 2) (N.shiftr n 4)))
           <$> a2b_go s 2 (N.land n 15) 0
  | 2 => cons (byte_trunc (N.lor (N.shiftl leftchar 4) (N.shiftr n 2)))
           <$> a2b_go s 3 (N.land n 3) 0
  | _ => cons (byte_trunc (N.lor (N.shiftl leftchar 6) n)) <$> a2b_go s 0 0%N 0
  end.
Proof.
  intros H. apply stands_for_spec in H as (Hpad & _ & _ & Htab).
  cbn [a2b_go]. rewrite Hpad, Htab. reflexivity.
Qed.

Lemma a2b_go_group b1 b2 b3 s leftchar pads :
  a2b_go (String (table_b2a (sextet1 b1))
            (String (table_b2a (sextet2 b1 b2))
               (String (table_b2a (sextet3 b2 b3))
                  (String (table_b2a (sextet4 b3)) s)))) 0 leftchar pads
  = (fun l => b1 :: b2 :: b3 :: l) <$> a2b_go s 0 0%N 0.
Proof.
  rewrite (a2b_go_data _ _ _ _ _ _ (char1 b1)).
  rewrite (a2b_go_data _ _ _ _ _ _ (char2 b1 b2)).
  rewrite (a2b_go_data _ _ _ _ _ _ (char3 b2 b3)).
  rewrite (a2b_go_data _ _ _ _ _ _ (char4 b3)).
  fold (out1 b1 b2) (out2 b1 b2 b3) (out3 b2 b3).
  rewrite out1_ok, out2_ok, out3_ok.
  destruct (a2b_go s 0 0%N 0); reflexivity.
Qed.

Lemma list_ind3 {A} (P : list A -> Prop) :
  P [] -> (forall a, P [a]) -> (forall a b, P [a; b]) ->
  (forall a b c l, P l -> P (a :: b :: c :: l)) ->
  forall l, P l.
Proof.
  intros H0 H1 H2 H3.
  fix IH 1. intros [|a [|b [|c l]]].
  - exact H0.
  - apply H1.
  - apply H2.
  - apply H3, IH.
Qed.

(** Decoding undoes encoding, from any state at the start of a group. *)
Lemma a2b_go_encode bs leftchar pads :
  a2b_go (b64encode bs) 0 leftchar pads = Some bs.
Proof.
  revert leftchar pads. induction bs as [|b1|b1 b2|b1 b2 b3 l IH] using list_ind3;
    intros leftchar pads.
  - reflexivity.
  - cbn [b64encode].
    rewrite (a2b_go_data _ _ _ _ _ _ (char1 b1)).
    rewrite (a2b_go_data _ _ _ _ _ _ (char2 b1 x00)).
    fold (out1 b1 x00). rewrite out1_ok. reflexivity.
  - cbn [b64encode].
    rewrite (a2b_go_data _ _ _ _ _ _ (char1 b1)).
    rewrite (a2b_go_data _ _ _ _ _ _ (char2 b1 b2)).
    rewrite (a2b_go_data _ _ _ _ _ _ (char3 b2 x00)).
    fold (out1 b1 b2) (out2 b1 b2 x00). rewrite out1_ok, out2_ok. reflexivity.
  - cbn [b64encode]. rewrite a2b_go_group, IH. reflexivity.
Qed.

Lemma is_ascii_encode bs : is_ascii (b64encode bs) = true.
Proof.
  induction bs as [|b1|b1 b2|b1 b2 b3 l IH] using list_ind3; cbn [b64encode is_ascii].
  - reflexivity.
  - destruct (stands_for_spec _ _ (char1 b1)) as (_ & _ & -> & _).
    destruct (stands_for_spec _ _ (char2 b1 x00)) as (_ & _ & -> & _). reflexivity.
  - destruct (stands_for_spec _ _ (char1 b1)) as (_ & _ & -> & _).
    destruct (stands_for_spec _ _ (char2 b1 b2)) as (_ & _ & -> & _).
    destruct (stands_for_spec _ _ (char3 b2 x00)) as (_ & _ & -> & _). reflexivity.
  - destruct (stands_for_spec _ _ (char1 b1)) as (_ & _ & -> & _).
    destruct (stands_for_spec _ _ (char2 b1 b2)) as (_ & _ & -> & _).
    destruct (stands_for_spec _ _ (char3 b2 b3)) as (_ & _ & -> & _).
    destruct (stands_for_spec _ _ (char4 b3)) as (_ & _ & -> & _).
    rewrite IH. reflexivity.
Qed.

(** [b64decode(b64encode(bs)) == bs]. *)
Lemma b64decode_b64encode bs : b64decode (b64encode bs) = inr bs.
Proof.
  unfold b64decode, a2b_base64. rewrite is_ascii_encode, a2b_go_encode. reflexivity.
Qed.

End Base64Facts.

(* ===================================================================== *)
(** * The text-to-image clients: what is written is what was encoded *)
(* ===================================================================== *)

Module HFFacts.
Import Py Eff PyOps HFClient.

Lemma encode_comma_free bs : contains "," (Base64.b64encode bs) = false.
Proof.
  induction bs as [|b1|b1 b2|b1 b2 b3 l IH] using Base64Facts.list_ind3;
    cbn [Base64.b64encode]; rewrite ?PyFacts.contains_comma_cons.
  - reflexivity.
  - destruct (Base64Facts.stands_for_spec _ _ (Base64Facts.char1 b1)) as (_ & -> & _).
    destruct (Base64Facts.stands_for_spec _ _ (Base64Facts.char2 b1 x00)) as (_ & -> & _).
    reflexivity.
  - destruct (Base64Facts.stands_for_spec _ _ (Base64Facts.char1 b1)) as (_ & -> & _).
    destruct (Base64Facts.stands_for_spec _ _ (Base64Facts.char2 b1 b2)) as (_ & -> & _).
    destruct (Base64Facts.stands_for_spec _ _ (Base64Facts.char3 b2 x00)) as (_ & -> & _).
    reflexivity.
  - destruct (Base64Facts.stands_for_spec _ _ (Base64Facts.char1 b1)) as (_ & -> & _).
    destruct (Base64Facts.stands_for_spec _ _ (Base64Facts.char2 b1 b2)) as (_ & -> & _).
    destruct (Base64Facts.stands_for_spec _ _ (Base64Facts.char3 b2 b3)) as (_ & -> & _).
    destruct (Base64Facts.stands_for_spec _ _ (Base64Facts.char4 b3)) as (_ & -> & _).
    rewrite IH. reflexivity.
Qed.

(** A text that starts with "data:image" has a colon as its fifth
    character. *)
Lemma data_url_colon c1 c2 c3 c4 s :
  startswith (String c1 (String c2 (String c3 (String c4 s)))) "data:image" = true ->
  exists s', s = String ":" s'.
Proof.
  unfold startswith. cbn [String.prefix].
  destruct (ascii_dec "d" c1); [|discriminate].
  destruct (ascii_dec "a" c2); [|discriminate].
  destruct (ascii_dec "t" c3); [|discriminate].
  destruct (ascii_dec "a" c4); [|discriminate].
  destruct s as [|c5 s']; [discriminate|]. cbn [String.prefix].
  destruct (ascii_dec ":" c5) as [<-|]; [eauto | discriminate].
Qed.

Lemma first_char_no_colon b :
  negb (Ascii.eqb (Base64.table_b2a (Base64.sextet1 b)) ":") = true.
Proof. revert b. apply Base64Facts.forall_byte. vm_compute. reflexivity. Qed.

(** The base64 text of any bytes does not start like a data URL. *)
Lemma encode_not_data_url bs : startswith (Base64.b64encode bs) "data:image" = false.
Proof.
  destruct (startswith (Base64.b64encode bs) "data:image") eqn:H; [|reflexivity].
  exfalso.
  destruct bs as [|b1 [|b2 [|b3 rest]]]; cbn [Base64.b64encode] in H;
    try discriminate H;
    apply data_url_colon in H as (s' & H); try discriminate H.
  pose proof (first_char_no_colon) as Hc.
  destruct rest as [|b4 [|b5 [|b6 rest]]]; cbn [Base64.b64encode] in H;
    try discriminate H; injection H as H _;
    specialize (Hc b4); rewrite H in Hc; discriminate Hc.
Qed.

(** Stripping the header of a data URL and decoding gives the bytes. *)
Lemma strip_and_decode pre data :
  contains "," pre = false ->
  let s := (pre +:+ ",") +:+ Base64.b64encode data in
  contains "," s = true
  /\ split s "," !! 1 = Some (Base64.b64encode data)
  /\ Base64.b64decode (Base64.b64encode data) = inr data.
Proof.
  intros Hpre s. subst s. rewrite PyFacts.append_assoc.
  change ("," +:+ Base64.b64encode data) with (String "," (Base64.b64encode data)).
  split; [|split].
  - rewrite PyFacts.contains_comma_app, PyFacts.contains_comma_cons.
    cbn. now rewrite orb_true_r.
  - rewrite PyFacts.split_data_url by (assumption || apply encode_comma_free).
    reflexivity.
  - apply Base64Facts.b64decode_b64encode.
Qed.

Lemma generate_image_data_url w i prompt key url pre data :
  contains "," pre = false ->
  answers_data_url w i (pre +:+ ",") data ->
  generate_image w i prompt key url
  = ([EvHttpPost url key (VDict {[ "inputs" := VStr prompt ]})], Done (Bytes data)).
Proof.
  intros Hpre [text Hpost].
  destruct (strip_and_decode pre data Hpre) as (Hin & Hsplit & Hdec).
  unfold generate_image. rewrite Hpost. cbn [lift bind emit ret raise_for_status status_code json].
  cbn [Z.leb Z.ltb Z.compare Pos.compare Pos.compare_cont andb].
  cbn [bind ret]. rewrite Hin. unfold index. rewrite Hsplit. cbn [bind ret].
  rewrite Hdec. reflexivity.
Qed.

End HFFacts.

Module HFMainFacts.
Import Py Eff PyOps HFClient.

(** One turn of the loop over the prompts when the request is answered
    with a data URL: the request, then the decoded bytes written. *)
Lemma turn_data_url w i prompt key url path pre data (line saved : message) :
  contains "," pre = false ->
  answers_data_url w i (pre +:+ ",") data ->
  open_ok w path = true ->
  (let* _ := print line in
   try_except
     (let* image_bytes := generate_image w i prompt key url in
      let* _ := write_file w path image_bytes in
      print saved)
     (fun e => print [Lit "  Error: "; Exc e]))
  = ([EvPrint line; EvHttpPost url key (VDict {[ "inputs" := VStr prompt ]});
      EvWriteFile path data; EvPrint saved], Done tt).
Proof.
  intros Hpre Hans Hopen.
  rewrite (HFFacts.generate_image_data_url w i prompt key url pre data Hpre Hans).
  unfold write_file. rewrite Hopen. reflexivity.
Qed.

(** A loop whose every turn ends normally and writes one file. *)
Lemma for_each_writes (body : nat -> string -> M unit) (f : nat -> event) prompts :
  forall i,
  (forall k prompt, i <= k < i + length prompts ->
     result (body k prompt) = Done tt /\ writes (trace (body k prompt)) = [f k]) ->
  result (for_each i prompts body) = Done tt
  /\ writes (trace (for_each i prompts body)) = map f (seq i (length prompts)).
Proof.
  induction prompts as [|p ps IH]; intros i H.
  - split; reflexivity.
  - cbn [for_each length seq map].
    destruct (H i p) as [Hr Hw]; [cbn; lia|].
    destruct (IH (S i)) as [Hr' Hw'].
    { intros k q Hk. apply H. cbn. lia. }
    rewrite (EffFacts.bind_done _ _ (trace (body i p)) tt).
    2:{ rewrite <- Hr. apply EffFacts.surjective_run. }
    unfold trace, result in *. cbn [fst snd].
    split; [exact Hr'|].
    rewrite EffFacts.writes_app, Hw, Hw'. reflexivity.
Qed.

Lemma stable_diffusion_writes w pre data :
  contains "," pre = false ->
  (forall i, answers_data_url w i (pre +:+ ",") data) ->
  (forall p, open_ok w p = true) ->
  (forall p, mkdir_ok w p = true) ->
  truthy_str (env w !! "HUGGINGFACE_API_KEY") = true ->
  truthy_str (env w !! "HUGGINGFACE_ENDPOINT") = true ->
  result (StableDiffusion.main w) = Done tt
  /\ writes (trace (StableDiffusion.main w))
     = map (fun i => EvWriteFile (StableDiffusion.filepath w i) data) (seq 1 10).
Proof.
  intros Hpre Hans Hopen Hmk Hkey Hurl.
  unfold StableDiffusion.main. rewrite Hkey, Hurl, Hmk. cbn [negb orb].
  set (body := fun (i : nat) (prompt : string) => _).
  destruct (for_each_writes body
              (fun i => EvWriteFile (StableDiffusion.filepath w i) data)
              StableDiffusion.prompts 1) as [Hr Hw].
  { intros k prompt _. unfold body.
    rewrite (turn_data_url w k prompt _ _ _ pre data) by auto.
    split; reflexivity. }
  cbn [bind emit ret print].
  rewrite (EffFacts.bind_done _ _ (trace (for_each 1 StableDiffusion.prompts body)) tt).
  2:{ rewrite <- Hr. apply EffFacts.surjective_run. }
  cbn [print emit trace result fst snd app].
  split; [reflexivity|].
  match goal with
  | |- writes (?a :: ?b :: ?x ++ ?c) = ?r => change (writes ([a; b] ++ x ++ c) = r)
  end.
  rewrite !EffFacts.writes_app, Hw. reflexivity.
Qed.

Lemma new_person_writes w pre data p :
  contains "," pre = false ->
  answers_data_url w 1 (pre +:+ ",") data ->
  open_ok w (path_str p) = true ->
  mkdir_ok w p = true ->
  truthy_str (env w !! "HUGGINGFACE_API_KEY") = true ->
  truthy_str (env w !! "HUGGINGFACE_ENDPOINT") = true ->
  env w !! "NEW_PERSON_OUTPUT_IMAGE_PATH" = Some p -> p <> EmptyString ->
  result (NewPerson.main w) = Done tt
  /\ writes (trace (NewPerson.main w)) = [EvWriteFile (path_str p) data].
Proof.
  intros Hpre Hans Hopen Hmk Hkey Hurl Hp Hne.
  unfold NewPerson.main. rewrite Hkey, Hurl, Hp. cbn [negb orb truthy_str default from_option id].
  apply String.eqb_neq in Hne. rewrite Hne, Hmk. cbn [negb for_each].
  rewrite (turn_data_url w 1 _ _ _ (path_str p) pre data) by auto.
  split; reflexivity.
Qed.

End HFMainFacts.

(* ===================================================================== *)
(** * The face-personalization client *)
(* ===================================================================== *)

Module InfiniteYouFacts.
Import Py Eff PyOps InfiniteYou.

Section Client.
Context (P : pil).

Lemma image_bytes_silent (Q : event -> bool) v path : all_events Q (image_bytes P v path).
Proof. unfold image_bytes. quiet. Qed.

Lemma handle_output_no_http output path : all_events no_http (handle_output P output path).
Proof. unfold handle_output, base64_to_image, print_metadata. quiet; apply image_bytes_silent. Qed.

Lemma handle_output_ends output path : finishes (handle_output P output path).
Proof.
  unfold handle_output, base64_to_image, print_metadata, image_bytes, print. ends.
Qed.

Lemma no_get_polls {A} (m : M A) : all_events no_get m -> polls (trace m) = 0.
Proof.
  unfold all_events, polls. intros H.
  rewrite (List.filter_ext is_get (fun e => negb (no_get e))).
  - now rewrite EffFacts.all_filter_nil.
  - intros e. unfold no_get. now rewrite negb_involutive.
Qed.

Section Loop.
Context (w : world) (status_url : string) (job_id : value) (token path : string).

(** A turn of the loop sends one status request. *)
Lemma poll_once_polls st :
  polls (trace (poll_once P w status_url job_id token path st)) = 1.
Proof.
  unfold poll_once. rewrite !EffFacts.bind_emit. cbn [trace fst].
  match goal with
  | |- polls (_ :: _ :: trace ?m) = 1 =>
      change (S (polls (trace m)) = 1); rewrite (no_get_polls m); [reflexivity|]
  end.
  unfold handle_output, base64_to_image, print_metadata, failure_hint.
  quiet; apply image_bytes_silent.
Qed.

Lemma poll_once_ends st : finishes (poll_once P w status_url job_id token path st).
Proof.
  unfold poll_once, handle_output, base64_to_image, print_metadata, failure_hint,
    image_bytes, print.
  ends.
Qed.

(** A turn that goes on has counted one more poll. *)
Lemma poll_once_counts st :
  ensures (fun r => match r with
                    | Continue st' => poll_count st' = S (poll_count st)
                    | Break => True
                    end)
    (poll_once P w status_url job_id token path st).
Proof.
  unfold poll_once. hands_back; apply EffFacts.ens_ret; cbn; auto.
Qed.

Lemma polls_app t1 t2 : polls (t1 ++ t2) = polls t1 + polls t2.
Proof. unfold polls. now rewrite List.filter_app, length_app. Qed.

Lemma timed_out_run st :
  exists line, timed_out st =
    ([EvPrint line;
      EvPrint [Lit "💡 Possible issues:"];
      EvPrint [Lit "   - Models still downloading (check RunPod logs)"];
      EvPrint [Lit "   - Insufficient storage (increase to 300GB+)"];
      EvPrint [Lit "   - Missing model access (request FLUX.1-dev access)"];
      EvPrint [Lit "   - Complex generation taking longer than expected"]], Done tt)
    /\ (line = [Lit "❌ Job timed out after ~16.7 minutes"]
        \/ line = [Lit "❌ Job timed out after "; Seconds; Lit "s of generation"]).
Proof.
  unfold timed_out. destruct (generation_start_time st); eexists; split; eauto.
Qed.

(** The loop ends within the polls that are left, whatever the service
    answers. *)
Lemma poll_loop_bounded fuel : forall st,
  max_polls - poll_count st < fuel ->
  finishes (poll_loop P fuel w status_url job_id token path st)
  /\ polls (trace (poll_loop P fuel w status_url job_id token path st))
     <= max_polls - poll_count st.
Proof.
  induction fuel as [|fuel IH]; intros st Hfuel; [lia|].
  cbn [poll_loop]. destruct (poll_count st <? max_polls) eqn:Hlt.
  - apply Nat.ltb_lt in Hlt.
    pose proof (poll_once_polls st) as Hone.
    pose proof (poll_once_ends st) as Hends.
    pose proof (poll_once_counts st) as Hcount.
    destruct (poll_once P w status_url job_id token path st) as [t1 [[st'|]|e|]] eqn:Hturn;
      unfold finishes, ensures, trace, result in *; cbn [fst snd bind ret] in *.
    + specialize (Hcount _ eq_refl). cbv beta iota in Hcount.
      destruct (IH st') as [Hfin Hpolls]; [lia|].
      destruct (poll_loop P fuel w status_url job_id token path st') as [t2 r2].
      cbn [fst snd] in *. split; [assumption|]. rewrite polls_app. lia.
    + split; [discriminate|]. rewrite polls_app, Hone. change (polls []) with 0. lia.
    + split; [discriminate|]. lia.
    + congruence.
  - destruct (timed_out_run st) as (line & -> & _).
    split; [discriminate|]. unfold polls. cbn [trace fst List.filter is_get length]. lia.
Qed.

Lemma not_yet_app t1 t2 : not_yet_turns (t1 ++ t2) = not_yet_turns t1 + not_yet_turns t2.
Proof. unfold not_yet_turns. now rewrite List.filter_app, length_app. Qed.

(** A turn on an answer that lets the loop go on: one request, one
    "not yet" line, nothing written, and the loop continues. *)
Lemma poll_once_goes_on st :
  goes_on (poll w (S (poll_count st))) = true ->
  exists t st',
    poll_once P w status_url job_id token path st = (t, Done (Continue st'))
    /\ poll_count st' = S (poll_count st)
    /\ polls t = 1 /\ not_yet_turns t = 1 /\ writes t = []
    /\ forallb (fun e => negb (is_timeout_report e)) t = true.
Proof.
  intros Hgo. unfold goes_on in Hgo.
  destruct (poll w (S (poll_count st))) as [e|[code text j]] eqn:Hpoll; [discriminate|].
  cbn [status_code json] in Hgo.
  apply andb_true_iff in Hgo as [Hcode Hgo].
  destruct j as [[| | | | | |d]|]; try discriminate.
  apply andb_true_iff in Hgo as [Hc Hf].
  apply negb_true_iff in Hc, Hf.
  unfold poll_once. rewrite Hpoll.
  cbn [lift bind emit ret status_code json get get_default].
  rewrite Hcode. cbn [bind ret].
  change (match d !! "status" with Some x => x | None => VNone end)
    with (default VNone (d !! "status")).
  rewrite Hc, Hf.
  destruct (eq_str (default VNone (d !! "status")) "IN_PROGRESS"),
    (in_progress_detected st), (generation_start_time st);
    cbn; eexists _, _; repeat split; reflexivity.
Qed.

(** [n] answers that let the loop go on are [n] turns, after which the
    loop carries on from the state reached. *)
Lemma poll_loop_not_yet n : forall st fuel,
  (forall k, poll_count st < k <= poll_count st + n -> goes_on (poll w k) = true) ->
  poll_count st + n <= max_polls ->
  n <= fuel ->
  exists t st',
    poll_loop P fuel w status_url job_id token path st
    = (t ++ trace (poll_loop P (fuel - n) w status_url job_id token path st'),
       result (poll_loop P (fuel - n) w status_url job_id token path st'))
    /\ poll_count st' = poll_count st + n
    /\ polls t = n /\ not_yet_turns t = n /\ writes t = [] /\ calm t.
Proof.
  induction n as [|n IH]; intros st fuel Hgo Hmax Hfuel.
  - exists [], st. rewrite Nat.sub_0_r, Nat.add_0_r.
    repeat split. cbn [app]. apply EffFacts.surjective_run.
  - destruct fuel as [|fuel]; [lia|].
    cbn [poll_loop Nat.sub].
    assert ((poll_count st <? max_polls) = true) as -> by (apply Nat.ltb_lt; lia).
    destruct (poll_once_goes_on st) as (t1 & st1 & Hturn & Hcount & Hp1 & Hn1 & Hw1 & Hc1).
    { apply Hgo. lia. }
    rewrite Hturn.
    destruct (IH st1 fuel) as (t2 & st' & Hloop & Hcount' & Hp2 & Hn2 & Hw2 & Hc2).
    { intros k Hk. apply Hgo. lia. }
    { lia. }
    { lia. }
    exists (t1 ++ t2), st'. cbn [bind]. rewrite Hloop.
    rewrite polls_app, not_yet_app, EffFacts.writes_app, Hp1, Hp2, Hn1, Hn2, Hw1, Hw2.
    unfold calm in *. rewrite forallb_app, Hc1, Hc2.
    repeat split; try lia. now rewrite <- app_assoc.
Qed.

End Loop.
(** With the address set, the status address is always found. *)
Lemma status_url_found url :
  exists status,
    (if truthy_str (Some url) && contains "/v2/" url then
       let* after := index (split url "/v2/") 1 in
       let* endpoint_id := index (split after "/") 0 in
       ret (Some ("https://api.runpod.ai/v2/" +:+ endpoint_id +:+ "/status"))
     else ret (Some url))
    = ret (Some status).
Proof.
  destruct (truthy_str (Some url)); cbn [andb]; [|eauto].
  destruct (contains "/v2/" url) eqn:Hin; [|eauto].
  destruct (PyFacts.index_split_1 url _ _ Hin) as (after & ->).
  destruct (PyFacts.index_split_0 after "/") as (endpoint_id & Hid).
  cbn [bind ret]. rewrite Hid. cbn [bind ret]. eauto.
Qed.

Lemma report_run e : exists line, report e = ([EvPrint (Lit line :: [] ++ match e with RequestsTimeout => [] | _ => [Exc e] end)], Done tt).
Proof. destruct e; eexists; reflexivity. Qed.

(** ** The five required values *)

Lemma missing_url w :
  truthy_str (env w !! "RUNPOD_INFU_URL") = false ->
  test_infiniteyou_api P w
  = ([EvPrint [Lit "❌ Error: RUNPOD_URL environment variable not set"]], Done tt).
Proof.
  intros H. unfold test_infiniteyou_api.
  destruct (EffFacts.truthy_str_false _ H) as [-> | ->]; reflexivity.
Qed.

Lemma missing_key w :
  truthy_str (env w !! "RUNPOD_INFU_URL") = true ->
  truthy_str (env w !! "RUNPOD_API_KEY") = false ->
  test_infiniteyou_api P w
  = ([EvPrint [Lit "❌ Error: RUNPOD_API_KEY environment variable not set"]], Done tt).
Proof.
  intros Hurl Hkey. unfold test_infiniteyou_api.
  destruct (EffFacts.truthy_str_some _ Hurl) as (url & Eurl & _).
  rewrite Eurl in *. destruct (status_url_found url) as (status & ->).
  rewrite EffFacts.bind_ret_l, Hurl, Hkey. reflexivity.
Qed.

Lemma missing_input w :
  truthy_str (env w !! "RUNPOD_INFU_URL") = true ->
  truthy_str (env w !! "RUNPOD_API_KEY") = true ->
  truthy_str (env w !! "INFINITE_INPUT_FACE_IMAGE_PATH") = false ->
  test_infiniteyou_api P w
  = ([], Raised (ValueError "INFINITE_INPUT_FACE_IMAGE_PATH must be set")).
Proof.
  intros Hurl Hkey Hin. unfold test_infiniteyou_api.
  destruct (EffFacts.truthy_str_some _ Hurl) as (url & Eurl & _).
  rewrite Eurl in *. destruct (status_url_found url) as (status & ->).
  rewrite EffFacts.bind_ret_l, Hurl, Hkey, Hin. reflexivity.
Qed.

Lemma missing_output w :
  truthy_str (env w !! "RUNPOD_INFU_URL") = true ->
  truthy_str (env w !! "RUNPOD_API_KEY") = true ->
  truthy_str (env w !! "INFINITE_INPUT_FACE_IMAGE_PATH") = true ->
  truthy_str (env w !! "INFINITE_OUTPUT_IMAGE_PATH") = false ->
  test_infiniteyou_api P w
  = ([EvPrint [Lit "input_image_path: ";
               Str (default EmptyString (env w !! "INFINITE_INPUT_FACE_IMAGE_PATH"))]],
     Raised (ValueError "INFINITE_OUTPUT_IMAGE_PATH must be set")).
Proof.
  intros Hurl Hkey Hin Hout. unfold test_infiniteyou_api.
  destruct (EffFacts.truthy_str_some _ Hurl) as (url & Eurl & _).
  rewrite Eurl in *. destruct (status_url_found url) as (status & ->).
  rewrite EffFacts.bind_ret_l, Hurl, Hkey, Hin, Hout. reflexivity.
Qed.

Lemma missing_prompt w :
  truthy_str (env w !! "RUNPOD_INFU_URL") = true ->
  truthy_str (env w !! "RUNPOD_API_KEY") = true ->
  truthy_str (env w !! "INFINITE_INPUT_FACE_IMAGE_PATH") = true ->
  truthy_str (env w !! "INFINITE_OUTPUT_IMAGE_PATH") = true ->
  truthy_str (env w !! "INFINITE_PERSON_PROMPT") = false ->
  test_infiniteyou_api P w
  = ([EvPrint [Lit "input_image_path: ";
               Str (default EmptyString (env w !! "INFINITE_INPUT_FACE_IMAGE_PATH"))]],
     Raised (ValueError "INFINITE_PERSON_PROMPT must be set")).
Proof.
  intros Hurl Hkey Hin Hout Hprompt. unfold test_infiniteyou_api.
  destruct (EffFacts.truthy_str_some _ Hurl) as (url & Eurl & _).
  rewrite Eurl in *. destruct (status_url_found url) as (status & ->).
  rewrite EffFacts.bind_ret_l, Hurl, Hkey, Hin, Hout, Hprompt. reflexivity.
Qed.

(** A run that lacks one of the five values stops before any request. *)
Lemma missing_value_stops w v :
  In v required -> truthy_str (env w !! v) = false ->
  stops_unconfigured (test_infiniteyou_api P w).
Proof.
  intros Hv Hmissing. unfold stops_unconfigured.
  destruct (truthy_str (env w !! "RUNPOD_INFU_URL")) eqn:Hurl.
  2:{ rewrite (missing_url w Hurl). split; [reflexivity|]. right. eauto. }
  destruct (truthy_str (env w !! "RUNPOD_API_KEY")) eqn:Hkey.
  2:{ rewrite (missing_key w Hurl Hkey). split; [reflexivity|]. right. eauto. }
  destruct (truthy_str (env w !! "INFINITE_INPUT_FACE_IMAGE_PATH")) eqn:Hin.
  2:{ rewrite (missing_input w Hurl Hkey Hin). split; [reflexivity|]. left. eauto. }
  destruct (truthy_str (env w !! "INFINITE_OUTPUT_IMAGE_PATH")) eqn:Hout.
  2:{ rewrite (missing_output w Hurl Hkey Hin Hout). split; [reflexivity|]. left. eauto. }
  destruct (truthy_str (env w !! "INFINITE_PERSON_PROMPT")) eqn:Hprompt.
  2:{ rewrite (missing_prompt w Hurl Hkey Hin Hout Hprompt).
      split; [reflexivity|]. left. eauto. }
  cbn [In required] in Hv.
  destruct Hv as [<- | [<- | [<- | [<- | [<- | []]]]]]; congruence.
Qed.

(** C2.  With the address of the service missing (and whatever else is
    set), the client prints an error line and returns; the line names
    RUNPOD_URL, which is not the variable the client reads
    (RUNPOD_INFU_URL): the text of the line does not hold that name. *)
Theorem missing_url_names_another_variable (w : world) :
  truthy_str (env w !! "RUNPOD_INFU_URL") = false ->
  test_infiniteyou_api P w
  = ([EvPrint [Lit "❌ Error: RUNPOD_URL environment variable not set"]], Done tt)
  /\ contains "RUNPOD_INFU_URL" "❌ Error: RUNPOD_URL environment variable not set" = false.
Proof.
  intros H. split; [apply missing_url, H | reflexivity].
Qed.

(** The reports of the other four values do hold the name of the
    variable that is missing. *)
Lemma other_values_named :
  contains "RUNPOD_API_KEY" "❌ Error: RUNPOD_API_KEY environment variable not set" = true
  /\ contains "INFINITE_INPUT_FACE_IMAGE_PATH"
       "INFINITE_INPUT_FACE_IMAGE_PATH must be set" = true
  /\ contains "INFINITE_OUTPUT_IMAGE_PATH" "INFINITE_OUTPUT_IMAGE_PATH must be set" = true
  /\ contains "INFINITE_PERSON_PROMPT" "INFINITE_PERSON_PROMPT must be set" = true.
Proof. repeat split; reflexivity. Qed.

(** A run that gets as far as the loop is the loop's run, between what
    comes before and the report of an exception. *)
Lemma reaches_loop w :
  starts_polling w ->
  exists before status_url job_id token,
    polls before = 0 /\ not_yet_turns before = 0 /\ writes before = [] /\ calm before
    /\ forall t r,
        poll_loop P (S max_polls) w status_url job_id token
          (default EmptyString (env w !! "INFINITE_OUTPUT_IMAGE_PATH")) initial_state
        = (t, r) ->
        test_infiniteyou_api P w = (before ++ t ++ tail r, final r).
Proof.
  intros (Hurl & Hkey & Hout & Hprompt & (input & data & Hin & Hne & Hfile) & Hmk
          & (r & d & Hpost & Hcode & Hjson & Hstatus)).
  unfold test_infiniteyou_api.
  destruct (EffFacts.truthy_str_some _ Hurl) as (url & Eurl & _).
  rewrite Eurl in *. destruct (status_url_found url) as (status & ->).
  cbn [bind ret app]. rewrite Hurl, Hkey, Hin, Hout, Hprompt.
  cbn [negb truthy_str default from_option id].
  apply String.eqb_neq in Hne. rewrite Hne. cbn [negb].
  rewrite Hmk, Hfile.
  rewrite bool_decide_eq_true_2 by eauto. cbn [negb].
  unfold image_to_base64, submit_and_wait. rewrite Hfile, Hpost.
  destruct r as [code text j]. cbn [status_code json] in *. subst code j.
  generalize (S max_polls). intros fuel.
  destruct Hstatus as [Hs|Hs].
  - eexists _, status, _, _.
    split; [|split; [|split; [|split]]]; cycle 4.
    + intros t r Hloop.
      cbn [bind ret emit print lift get get_default lower Z.eqb Pos.eqb app
           status_code json].
      rewrite Hs. cbn [eq_str].
      change ("IN_QUEUE" =? "IN_QUEUE")%string with true.
      cbn [orb bind ret emit print lift get get_default lower Z.eqb Pos.eqb app
           status_code json].
      rewrite Hloop. unfold try_except.
      destruct r as [[]|e|]; cbn [tail final].
      * match goal with
        | |- (?l, _) = (?E ++ _ ++ _, _) => let pre := front l t in unify E pre
        end.
        rewrite app_nil_r. reflexivity.
      * destruct (report_run e) as (line & ->). reflexivity.
      * rewrite app_nil_r. reflexivity.
    + reflexivity.
    + reflexivity.
    + reflexivity.
    + reflexivity.
  - eexists _, status, _, _.
    split; [|split; [|split; [|split]]]; cycle 4.
    + intros t r Hloop.
      cbn [bind ret emit print lift get get_default lower Z.eqb Pos.eqb app
           status_code json].
      rewrite Hs. cbn [eq_str].
      change ("IN_PROGRESS" =? "IN_QUEUE")%string with false.
      change ("IN_PROGRESS" =? "IN_PROGRESS")%string with true.
      cbn [orb bind ret emit print lift get get_default lower Z.eqb Pos.eqb app
           status_code json].
      rewrite Hloop. unfold try_except.
      destruct r as [[]|e|]; cbn [tail final].
      * match goal with
        | |- (?l, _) = (?E ++ _ ++ _, _) => let pre := front l t in unify E pre
        end.
        rewrite app_nil_r. reflexivity.
      * destruct (report_run e) as (line & ->). reflexivity.
      * rewrite app_nil_r. reflexivity.
    + reflexivity.
    + reflexivity.
    + reflexivity.
    + reflexivity.
Qed.

(** A loop that never sees a terminal state polls [max_polls] times
    and reports the timeout. *)
Lemma poll_loop_times_out w status_url job_id token path :
  never_settles w ->
  exists t line more,
    poll_loop P (S max_polls) w status_url job_id token path initial_state
    = (t ++ EvPrint (Lit line :: more)
         :: [EvPrint [Lit "💡 Possible issues:"];
             EvPrint [Lit "   - Models still downloading (check RunPod logs)"];
             EvPrint [Lit "   - Insufficient storage (increase to 300GB+)"];
             EvPrint [Lit "   - Missing model access (request FLUX.1-dev access)"];
             EvPrint [Lit "   - Complex generation taking longer than expected"]],
       Done tt)
    /\ polls t = max_polls /\ not_yet_turns t = max_polls /\ writes t = []
    /\ String.prefix "❌ Job timed out after" line = true.
Proof.
  intros Hnever.
  destruct (poll_loop_not_yet w status_url job_id token path max_polls initial_state
              (S max_polls)) as (t & st' & Hloop & Hcount & Hp & Hn & Hw & _).
  { intros k Hk. apply Hnever. cbn [poll_count initial_state] in Hk. lia. }
  { cbn [poll_count initial_state]. lia. }
  { lia. }
  cbn [poll_count initial_state Nat.add] in Hcount.
  assert (poll_loop P (S max_polls - max_polls) w status_url job_id token path st'
          = timed_out st') as Hrest.
  { replace (S max_polls - max_polls) with 1 by lia. cbn [poll_loop].
    assert ((poll_count st' <? max_polls) = false) as -> by (apply Nat.ltb_ge; lia).
    reflexivity. }
  rewrite Hrest in Hloop. rewrite Hloop. unfold timed_out.
  destruct (generation_start_time st'); (eexists t, _, _; split; [reflexivity|]);
    repeat split; assumption || reflexivity.
Qed.

Lemma in_queue_goes_on a : in_queue a = true -> goes_on a = true.
Proof.
  unfold in_queue, goes_on. destruct a as [e|r]; [discriminate|].
  destruct (status_code r =? 200)%Z; [|discriminate].
  destruct (json r) as [[| | | | | |d]|]; try discriminate.
  cbn [andb]. unfold eq_str.
  destruct (default VNone (d !! "status")); try discriminate.
  intros H. apply String.eqb_eq in H. subst. reflexivity.
Qed.

Lemma print_metadata_quiet o :
  polls (trace (print_metadata (VDict o))) = 0
  /\ not_yet_turns (trace (print_metadata (VDict o))) = 0
  /\ writes (trace (print_metadata (VDict o))) = []
  /\ (result (print_metadata (VDict o)) = Done tt
      \/ exists e, result (print_metadata (VDict o)) = Raised e).
Proof.
  unfold print_metadata. cbn [get_default bind ret].
  destruct (match o !! "metadata" with Some x => x | None => VDict ∅ end);
    cbn; repeat split; eauto.
Qed.

(** The turn that sees COMPLETED with a good output: one request, the
    image written, and the loop left. *)
Lemma poll_once_completed w status_url job_id token path st data :
  completes_with P (poll w (S (poll_count st))) path data ->
  exists t1 t2 r,
    poll_once P w status_url job_id token path st = (t1 ++ EvWriteFile path data :: t2, r)
    /\ polls t1 = 1 /\ not_yet_turns t1 = 0 /\ writes t1 = []
    /\ polls t2 = 0 /\ not_yet_turns t2 = 0 /\ writes t2 = []
    /\ (r = Done Break \/ exists e, r = Raised e).
Proof.
  intros (text & d & o & img & Hpoll & Hstatus & Houtput & Hsuccess & Himage & Hbytes).
  destruct (print_metadata_quiet o) as (Hp & Hn & Hw & Hr).
  unfold poll_once. rewrite Hpoll.
  cbn [lift bind emit ret status_code json get get_default Z.eqb Pos.eqb].
  rewrite Hstatus. cbn [eq_str].
  change ("COMPLETED" =? "IN_PROGRESS")%string with false.
  change ("COMPLETED" =? "COMPLETED")%string with true.
  cbn [andb has item]. rewrite Houtput.
  rewrite bool_decide_eq_true_2 by eauto.
  unfold handle_output, base64_to_image.
  cbn [get get_default has item bind ret].
  change (match o !! "success" with Some x => x | None => VNone end)
    with (default VNone (o !! "success")).
  rewrite Hsuccess, Himage.
  rewrite bool_decide_eq_true_2 by eauto.
  cbn [bind ret emit print app]. rewrite Hbytes.
  destruct (print_metadata (VDict o)) as [tm rm]. cbn [trace result fst snd] in *.
  destruct (generation_start_time st);
    destruct Hr as [-> | [e ->]];
    cbn [bind ret emit print app]; rewrite ?app_nil_r;
    (eexists [_; _; _; _], _, _; split; [reflexivity|]);
    repeat split; try reflexivity; try assumption; eauto.
Qed.

Lemma tail_quiet r : polls (tail r) = 0 /\ writes (tail r) = [] /\ not_yet_turns (tail r) = 0.
Proof.
  destruct r as [a|e|]; cbn [tail]; try (repeat split; reflexivity).
  destruct e; repeat split; reflexivity.
Qed.

Lemma startswith_app (s t p : string) :
  startswith s p = true -> startswith (s +:+ t) p = true.
Proof.
  unfold startswith. revert s. induction p as [|a p IH]; intros s H.
  - destruct (s +:+ t); reflexivity.
  - destruct s as [|b s]; [discriminate H|].
    rewrite PyFacts.append_cons. cbn [String.prefix] in *.
    destruct (ascii_dec a b); [apply IH; exact H | discriminate H].
Qed.

(** From a text that carries [raw], [base64_to_image] gets what the
    image library makes of [raw]: the bytes are decoded as they were
    encoded, opened, and saved for the output path. *)
Lemma image_bytes_carried s raw path :
  carries s raw ->
  image_bytes P (VStr s) path
  = match image_open P raw with
    | None => raise UnidentifiedImageError
    | Some img => lift (image_save P img path)
    end.
Proof.
  intros [-> | (pre & Hstart & Hpre & ->)]; unfold image_bytes.
  - rewrite HFFacts.encode_not_data_url. cbn [bind ret].
    rewrite Base64Facts.b64decode_b64encode. cbn [lift bind ret].
    destruct (image_open P raw) as [img|]; [|reflexivity].
    destruct (image_save P img path); reflexivity.
  - destruct (HFFacts.strip_and_decode pre raw Hpre) as (_ & Hsplit & Hdec).
    rewrite (startswith_app _ _ _ (startswith_app _ _ _ Hstart)).
    unfold index. rewrite Hsplit. cbn [bind ret]. rewrite Hdec. cbn [lift bind ret].
    destruct (image_open P raw) as [img|]; [|reflexivity].
    destruct (image_save P img path); reflexivity.
Qed.

(** C1.  When the status service answers IN_QUEUE to the first three
    polls and COMPLETED to the fourth, with an output whose image is
    the base64 text (bare or as a data URL) of bytes [raw] that the
    image library opens as an image: the client goes through exactly
    three "not yet" turns and four status requests, then decodes the
    text back to [raw] and writes, at the output path, what the library
    saves of that image; nothing else is written, no further request is
    sent, and the client returns. *)
Theorem three_not_yet_turns_then_saved (w : world) (raw data : list byte)
    (img : image P) :
  starts_polling w ->
  (forall k, 1 <= k <= 3 -> in_queue (poll w k) = true) ->
  completed_with_image (poll w 4) raw ->
  image_open P raw = Some img ->
  image_save P img (default EmptyString (env w !! "INFINITE_OUTPUT_IMAGE_PATH"))
  = inr data ->
  exists t1 t2,
    trace (test_infiniteyou_api P w)
    = t1 ++ EvWriteFile (default EmptyString (env w !! "INFINITE_OUTPUT_IMAGE_PATH")) data
         :: t2
    /\ not_yet_turns t1 = 3 /\ polls t1 = 4 /\ writes t1 = []
    /\ not_yet_turns t2 = 0 /\ polls t2 = 0 /\ writes t2 = []
    /\ result (test_infiniteyou_api P w) = Done tt.
Proof.
  intros Hstart Hqueue Hanswer Hopen Hsave.
  set (path := default EmptyString (env w !! "INFINITE_OUTPUT_IMAGE_PATH")) in *.
  assert (completes_with P (poll w 4) path data) as Hdone.
  { destruct Hanswer as (text & d & o & s & Hpoll & Hstatus & Houtput & Hsuccess
                         & Himage & Hcarries).
    exists text, d, o, (VStr s).
    split; [exact Hpoll|]. split; [exact Hstatus|]. split; [exact Houtput|].
    split; [exact Hsuccess|]. split; [exact Himage|].
    rewrite (image_bytes_carried s raw path Hcarries), Hopen, Hsave. reflexivity. }
  destruct (reaches_loop w Hstart)
    as (before & status_url & job_id & token & Hbp & Hbn & Hbw & _ & Hrun).
  fold path in Hrun.
  destruct (poll_loop_not_yet w status_url job_id token path 3 initial_state
              (S max_polls)) as (t3 & st' & Hloop & Hcount & Hp3 & Hn3 & Hw3 & _).
  { intros k Hk. apply in_queue_goes_on, Hqueue.
    cbn [poll_count initial_state] in Hk. lia. }
  { cbn [poll_count initial_state]. unfold max_polls. lia. }
  { unfold max_polls. lia. }
  cbn [poll_count initial_state Nat.add] in Hcount.
  destruct (poll_once_completed w status_url job_id token path st' data)
    as (u1 & u2 & r & Hturn & Hp1 & Hn1 & Hw1 & Hp2 & Hn2 & Hw2 & Hr).
  { rewrite Hcount. exact Hdone. }
  assert (exists r',
    poll_loop P (S max_polls - 3) w status_url job_id token path st'
    = (u1 ++ EvWriteFile path data :: u2, r')
    /\ (r' = Done tt \/ exists e, r' = Raised e)) as (r' & Hrest & Hr').
  { replace (S max_polls - 3) with (S (max_polls - 3)) by (unfold max_polls; lia).
    cbn [poll_loop].
    assert ((poll_count st' <? max_polls) = true) as ->
      by (apply Nat.ltb_lt; rewrite Hcount; unfold max_polls; lia).
    rewrite Hturn. destruct Hr as [-> | [e ->]]; cbn [bind ret].
    - rewrite app_nil_r. eauto.
    - eauto. }
  rewrite Hrest in Hloop. cbn [trace result fst snd] in Hloop.
  rewrite (Hrun _ _ Hloop). cbn [trace result fst snd].
  exists (before ++ t3 ++ u1), (u2 ++ tail r').
  destruct (tail_quiet r') as (Htp & Htw & Htn).
  rewrite !polls_app, !not_yet_app, !EffFacts.writes_app.
  rewrite Hbp, Hbn, Hbw, Hp3, Hn3, Hw3, Hp1, Hn1, Hw1, Hp2, Hn2, Hw2, Htp, Htw, Htn.
  repeat split; try reflexivity.
  - rewrite <- !app_assoc. reflexivity.
  - destruct Hr' as [-> | [e ->]]; reflexivity.
Qed.

(** The client ends on every input: in no world does the run of
    [test_infiniteyou_api] use up the turns given to its loop. *)
Lemma client_always_ends w : finishes (test_infiniteyou_api P w).
Proof.
  unfold test_infiniteyou_api, submit_and_wait, image_to_base64, report, print.
  repeat first
    [ apply poll_loop_bounded; cbn [poll_count initial_state]; lia
    | apply handle_output_ends
    | ends_step ].
Qed.

(** C8.  The polling loop always ends: it sends at most 2000 status
    requests whatever the service answers, a client that has started
    polling returns without an exception, and when none of the 2000
    polls shows a terminal state (COMPLETED, FAILED or a status other
    than 200) the client has polled 2000 times, reports the timeout,
    saves nothing and returns normally. *)
Theorem polling_always_terminates (w : world) :
  (forall status_url job_id token path,
     finishes (poll_loop P (S max_polls) w status_url job_id token path initial_state)
     /\ polls (trace (poll_loop P (S max_polls) w status_url job_id token path
                        initial_state)) <= 2000)
  /\ (starts_polling w ->
      result (test_infiniteyou_api P w) = Done tt
      /\ polls (trace (test_infiniteyou_api P w)) <= 2000)
  /\ (starts_polling w -> never_settles w ->
      result (test_infiniteyou_api P w) = Done tt
      /\ polls (trace (test_infiniteyou_api P w)) = 2000
      /\ existsb is_timeout_report (trace (test_infiniteyou_api P w)) = true
      /\ writes (trace (test_infiniteyou_api P w)) = []).
Proof.
  change 2000 with max_polls.
  assert (forall status_url job_id token path,
     finishes (poll_loop P (S max_polls) w status_url job_id token path initial_state)
     /\ polls (trace (poll_loop P (S max_polls) w status_url job_id token path
                        initial_state)) <= max_polls) as Hbound.
  { intros status_url job_id token path.
    destruct (poll_loop_bounded w status_url job_id token path (S max_polls)
                initial_state) as [Hfin Hpolls].
    - cbn [poll_count initial_state]. lia.
    - split; [exact Hfin|]. cbn [poll_count initial_state] in Hpolls. lia. }
  split; [exact Hbound|]. split.
  - intros Hstart.
    destruct (reaches_loop w Hstart)
      as (before & status_url & job_id & token & Hb & _ & _ & _ & Hrun).
    destruct (Hbound status_url job_id token
                (default EmptyString (env w !! "INFINITE_OUTPUT_IMAGE_PATH")))
      as [Hfin Hpolls].
    destruct (poll_loop P (S max_polls) w status_url job_id token
                (default EmptyString (env w !! "INFINITE_OUTPUT_IMAGE_PATH"))
                initial_state) as [t r] eqn:Hloop.
    rewrite (Hrun t r eq_refl).
    unfold finishes in Hfin. cbn [result trace fst snd] in *. split.
    + destruct r; [reflexivity | reflexivity | congruence].
    + rewrite !polls_app, Hb. destruct (tail_quiet r) as (-> & _). lia.
  - intros Hstart Hnever.
    destruct (reaches_loop w Hstart)
      as (before & status_url & job_id & token & Hb & _ & Hbw & _ & Hrun).
    destruct (poll_loop_times_out w status_url job_id token
                (default EmptyString (env w !! "INFINITE_OUTPUT_IMAGE_PATH")) Hnever)
      as (t & line & more & Hloop & Hp & _ & Hw & Hline).
    rewrite (Hrun _ _ Hloop). cbn [result trace fst snd tail final].
    rewrite app_nil_r, !polls_app, !EffFacts.writes_app, Hb, Hbw, Hp, Hw.
    rewrite !existsb_app. cbn [existsb is_timeout_report]. rewrite Hline.
    rewrite !orb_true_r. repeat split; reflexivity.
Qed.

Lemma image_bytes_trace v path : trace (image_bytes P v path) = [].
Proof.
  pose proof (image_bytes_silent (fun _ => false) v path) as H.
  unfold all_events in H. destruct (trace (image_bytes P v path)); [reflexivity | discriminate].
Qed.

(** What [handle_output] writes is what [saved_data] says. *)
Lemma handle_output_writes output path :
  writes (trace (handle_output P output path))
  = match saved_data P output path with
    | Some data => [EvWriteFile path data]
    | None => []
    end.
Proof.
  destruct output as [| | | | | |o]; try reflexivity.
  unfold handle_output, saved_data, get, get_default, has, item.
  rewrite EffFacts.bind_ret_l.
  change (match o !! "success" with Some x => x | None => VNone end)
    with (default VNone (o !! "success")).
  destruct (truthy (default VNone (o !! "success"))).
  - unfold print at 1. rewrite EffFacts.bind_emit, EffFacts.bind_ret_l.
    cbn [trace fst].
    destruct (o !! "image") as [img|] eqn:Himg.
    + rewrite bool_decide_eq_true_2 by eauto.
      rewrite EffFacts.bind_ret_l. unfold base64_to_image.
      pose proof (image_bytes_trace img path) as Ht.
      destruct (image_bytes P img path) as [t [data|e|]]; cbn [trace result fst snd] in *;
        subst t; try reflexivity.
      destruct (print_metadata_quiet o) as (_ & _ & Hw & _).
      destruct (print_metadata (VDict o)) as [tm rm]. cbn [trace fst] in Hw.
      cbn [bind ret emit print app trace fst].
      match goal with
      | |- writes (?a :: ?b :: ?c :: ?l) = _ => change (writes ([a; b; c] ++ l) = [b])
      end.
      rewrite EffFacts.writes_app, Hw. reflexivity.
    + rewrite bool_decide_eq_false_2 by (intros [x Hx]; discriminate). reflexivity.
  - rewrite EffFacts.bind_ret_l. reflexivity.
Qed.

(** With a falsy [success] nothing is saved and nothing is raised. *)
Lemma handle_output_failure o path :
  truthy (default VNone (o !! "success")) = false ->
  writes (trace (handle_output P (VDict o) path)) = []
  /\ result (handle_output P (VDict o) path) = Done tt.
Proof.
  intros H. unfold handle_output. cbn [get get_default bind ret].
  change (match o !! "success" with Some x => x | None => VNone end)
    with (default VNone (o !! "success")).
  rewrite H. split; reflexivity.
Qed.

(** The COMPLETED branch of the loop hands the output object to
    [handle_output]. *)
Lemma poll_once_completed_writes w status_url job_id token path st output :
  completed_answer (poll w (S (poll_count st))) output ->
  writes (trace (poll_once P w status_url job_id token path st))
  = writes (trace (handle_output P output path)).
Proof.
  intros (text & d & Hpoll & Hstatus & Houtput).
  unfold poll_once. rewrite Hpoll.
  cbn [lift bind emit ret status_code json get get_default Z.eqb Pos.eqb].
  rewrite Hstatus. cbn [eq_str].
  change ("COMPLETED" =? "IN_PROGRESS")%string with false.
  change ("COMPLETED" =? "COMPLETED")%string with true.
  cbn [andb has item]. rewrite Houtput.
  rewrite bool_decide_eq_true_2 by eauto.
  cbn [bind ret].
  destruct (handle_output P output path) as [t r]. cbn [trace fst].
  destruct (generation_start_time st); destruct r as [[]|e|];
    cbn [bind ret emit print app trace fst writes List.filter is_write];
    rewrite ?app_nil_r; reflexivity.
Qed.

(** So does the path for a job that completed at once. *)
Lemma submit_direct_writes w url status_url token path body output :
  direct_answer (post w) output ->
  writes (trace (submit_and_wait P w url status_url token path body))
  = writes (trace (handle_output P output path)).
Proof.
  intros (text & d & Hpost & Hq & Hp & Houtput).
  unfold submit_and_wait. rewrite Hpost.
  cbn [lift bind emit ret status_code json get get_default Z.eqb Pos.eqb].
  change (match d !! "status" with Some x => x | None => VNone end)
    with (default VNone (d !! "status")).
  rewrite Hq, Hp. cbn [orb has item]. rewrite Houtput.
  rewrite bool_decide_eq_true_2 by eauto.
  cbn [bind ret].
  destruct (handle_output P output path) as [t r]. cbn [trace fst].
  destruct r as [[]|e|];
    cbn [bind ret emit print app trace fst writes List.filter is_write];
    rewrite ?app_nil_r; reflexivity.
Qed.

(** Whatever the [try] block raises is reported, not raised again. *)
Lemma try_report_result (m : M unit) :
  result (try_except m report) = final (result m).
Proof.
  destruct m as [t [[]|e|]]; try reflexivity.
  unfold try_except. destruct (report_run e) as (line & ->). reflexivity.
Qed.

(** C9, as amended.  In the COMPLETED branch of the loop and on the path
    for a job that completed at once, the image is saved exactly when
    the output object has a truthy [success], holds an [image] key and
    that image decodes: what is written is the one file [saved_data]
    gives, and nothing otherwise.  With a falsy [success] nothing is
    saved and nothing is raised, whatever [image] holds; and no
    exception leaves the [try] block. *)
Theorem image_saved_iff_decodes (w : world) (url status_url token path : string)
    (job_id body output : value) (st : loop_state) :
  (completed_answer (poll w (S (poll_count st))) output ->
     writes (trace (poll_once P w status_url job_id token path st))
     = match saved_data P output path with
       | Some data => [EvWriteFile path data]
       | None => []
       end)
  /\ (direct_answer (post w) output ->
      writes (trace (submit_and_wait P w url status_url token path body))
      = match saved_data P output path with
        | Some data => [EvWriteFile path data]
        | None => []
        end)
  /\ (saved_data P output path <> None -> has_success_and_image output = true)
  /\ (forall o, output = VDict o ->
        truthy (default VNone (o !! "success")) = false ->
        saved_data P output path = None
        /\ result (handle_output P output path) = Done tt)
  /\ (forall e,
        result (try_except (submit_and_wait P w url status_url token path body) report)
        <> Raised e).
Proof.
  split; [|split; [|split; [|split]]].
  - intros H. rewrite (poll_once_completed_writes _ _ _ _ _ _ _ H).
    apply handle_output_writes.
  - intros H. rewrite (submit_direct_writes _ _ _ _ _ _ _ H).
    apply handle_output_writes.
  - destruct output as [| | | | | |o]; cbn [saved_data has_success_and_image];
      try congruence.
    destruct (truthy (default VNone (o !! "success"))); [|congruence].
    destruct (o !! "image"); [|congruence].
    intros _. rewrite bool_decide_eq_true_2 by eauto. reflexivity.
  - intros o -> Hs. split.
    + cbn [saved_data]. now rewrite Hs.
    + apply handle_output_failure. exact Hs.
  - intros e. rewrite try_report_result.
    destruct (result (submit_and_wait P w url status_url token path body));
      discriminate.
Qed.

End Client.

(** C2 on the environment without RUNPOD_INFU_URL. *)
Lemma missing_url_names_another_variable_witness :
  env no_url_world !! "RUNPOD_INFU_URL" = None
  /\ test_infiniteyou_api plain_pil no_url_world
     = ([EvPrint [Lit "❌ Error: RUNPOD_URL environment variable not set"]], Done tt).
Proof.
  split; [reflexivity|].
  apply (missing_url_names_another_variable plain_pil no_url_world). reflexivity.
Defined.

(** C9 as stated fails: an output object with a truthy [success] and an
    [image] key whose value is [null] is not saved. *)
Lemma success_and_image_key_not_enough :
  ~ (writes (trace (test_infiniteyou_api plain_pil null_image_world)) <> []
     <-> has_success_and_image null_image_output = true).
Proof.
  intros [_ H]. apply H; reflexivity.
Qed.

(** C9 on a job that completed at once with a good output. *)
Lemma image_saved_iff_decodes_witness :
  direct_answer (post direct_world) good_output
  /\ writes (trace (submit_and_wait plain_pil direct_world "u" "s" "secret"
                      "out/person.png" VNone))
     = [EvWriteFile "out/person.png" example_pixels].
Proof.
  assert (direct_answer (post direct_world) good_output) as H.
  { eexists _, _. repeat split; reflexivity. }
  split; [exact H|].
  destruct (image_saved_iff_decodes plain_pil direct_world "u" "s" "secret"
              "out/person.png" VNone VNone good_output initial_state) as (_ & Hd & _).
  rewrite (Hd H). reflexivity.
Defined.

(** C1 on the scripted service: three IN_QUEUE answers, then COMPLETED
    with the data URL of a PNG file. *)
Lemma three_not_yet_turns_then_saved_witness :
  starts_polling scripted_world
  /\ (forall k, 1 <= k <= 3 -> in_queue (poll scripted_world k) = true)
  /\ completed_with_image (poll scripted_world 4) example_pixels
  /\ exists t1 t2,
      trace (test_infiniteyou_api plain_pil scripted_world)
      = t1 ++ EvWriteFile "out/person.png" example_pixels :: t2
      /\ not_yet_turns t1 = 3 /\ polls t1 = 4 /\ writes t1 = []
      /\ not_yet_turns t2 = 0 /\ polls t2 = 0 /\ writes t2 = []
      /\ result (test_infiniteyou_api plain_pil scripted_world) = Done tt.
Proof.
  assert (starts_polling scripted_world) as Hstart.
  { unfold starts_polling. repeat split; try reflexivity.
    - exists "face.png"%string, example_pixels. repeat split; try reflexivity. discriminate.
    - eexists _, _. repeat split; try reflexivity. left. reflexivity. }
  assert (forall k, 1 <= k <= 3 -> in_queue (poll scripted_world k) = true) as Hqueue.
  { intros k Hk. cbn [poll scripted_world].
    assert ((k <=? 3) = true) as -> by (apply Nat.leb_le; lia). reflexivity. }
  assert (completed_with_image (poll scripted_world 4) example_pixels) as Hanswer.
  { eexists _, _, _, _.
    split; [reflexivity|]. split; [reflexivity|]. split; [reflexivity|].
    split; [reflexivity|]. split; [reflexivity|].
    right. exists "data:image/png;base64"%string.
    split; [reflexivity|]. split; reflexivity. }
  split; [exact Hstart|]. split; [exact Hqueue|]. split; [exact Hanswer|].
  exact (three_not_yet_turns_then_saved plain_pil scripted_world example_pixels
           example_pixels example_pixels Hstart Hqueue Hanswer eq_refl eq_refl).
Defined.

(** C8 on a service whose job stays queued for ever. *)
Lemma polling_always_terminates_witness :
  starts_polling stuck_world /\ never_settles stuck_world
  /\ result (test_infiniteyou_api plain_pil stuck_world) = Done tt
  /\ polls (trace (test_infiniteyou_api plain_pil stuck_world)) = 2000.
Proof.
  assert (starts_polling stuck_world) as Hstart.
  { unfold starts_polling. repeat split; try reflexivity.
    - exists "face.png"%string, example_pixels. repeat split; try reflexivity. discriminate.
    - eexists _, _. repeat split; try reflexivity. left. reflexivity. }
  assert (never_settles stuck_world) as Hnever.
  { intros k _. reflexivity. }
  split; [exact Hstart|]. split; [exact Hnever|].
  destruct (polling_always_terminates plain_pil stuck_world) as (_ & _ & H).
  destruct (H Hstart Hnever) as (Hr & Hp & _).
  split; assumption.
Defined.

End InfiniteYouFacts.

(* ===================================================================== *)
(** * The face comparator *)
(* ===================================================================== *)

Module CompareFacesFacts.
Import Py Eff PyOps CompareFaces.

Lemma bind_done_inv {A B} (m : M A) (k : A -> M B) b :
  result (bind m k) = Done b ->
  exists a, result m = Done a /\ result (k a) = Done b
            /\ trace (bind m k) = trace m ++ trace (k a).
Proof.
  unfold bind, result, trace. destruct m as [t [a|e|]]; cbn; try discriminate.
  destruct (k a) as [t' r] eqn:Hk. cbn. intros ->. exists a. rewrite Hk. auto.
Qed.

Lemma rows_written_app t1 t2 : rows_written (t1 ++ t2) = rows_written t1 ++ rows_written t2.
Proof.
  induction t1 as [|e t1 IH]; [reflexivity|].
  destruct e; cbn; rewrite ?IH; reflexivity.
Qed.

(** A run none of whose events is a row handed to the writer. *)
Lemma no_rows_written (t : list event) :
  forallb (fun e => match e with EvCsvRow _ _ => false | _ => true end) t = true ->
  rows_written t = [].
Proof.
  induction t as [|e t IH]; [reflexivity|].
  cbn [forallb]. intros H. apply andb_true_iff in H as [He Ht].
  destruct e; cbn [rows_written]; try (apply IH; exact Ht). discriminate He.
Qed.

Section Comparator.
Context (C : cv).

(** A face detector that finds nothing stops the comparison at once. *)
Lemma detect_face_none w path g :
  detects C w path g [] ->
  detect_face C w path
  = ([EvImread path; EvLoadCascade (cascade_file C); EvDetect path],
     Raised (ValueError ("No face detected in image: " +:+ path))).
Proof.
  intros (img & face_cascade & Hread & Hgray & Hcascade & Hnone).
  unfold detect_face. rewrite Hread, Hgray.
  cbn [cv_call bind emit ret]. rewrite Hcascade.
  cbn [cv_call bind emit ret]. rewrite Hnone. reflexivity.
Qed.

(** [detect_face] on an image in which the detector finds a face. *)
Lemma detect_face_found w path g first more face :
  detects C w path g (first :: more) ->
  resize C (crop C g first) = inr face ->
  detect_face C w path
  = (EvImread path :: EvLoadCascade (cascade_file C) :: EvDetect path
     :: match more with [] => [] | _ => [warning path] end,
     Done face).
Proof.
  intros (img & face_cascade & Hread & Hgray & Hcascade & Hfaces) Hresize.
  unfold detect_face. rewrite Hread, Hgray.
  cbn [cv_call bind emit ret]. rewrite Hcascade.
  cbn [cv_call bind emit ret]. rewrite Hfaces.
  cbn [cv_call bind emit ret]. rewrite Hresize.
  destruct more; reflexivity.
Qed.

Lemma detect_face_region w path face :
  face_of C w path face -> result (detect_face C w path) = Done face.
Proof.
  intros (g & first & more & Hfaces & Hresize).
  now rewrite (detect_face_found w path g first more face Hfaces Hresize).
Qed.

Lemma compute_no_csv w p1 p2 :
  rows_written (trace (compute_face_similarity C w p1 p2)) = [].
Proof.
  apply no_rows_written.
  change (all_events (fun e => match e with EvCsvRow _ _ => false | _ => true end)
            (compute_face_similarity C w p1 p2)).
  unfold compute_face_similarity, detect_face, cv_call. quiet.
Qed.

(** The comparator sends no request at all. *)
Lemma main_no_http w csv : all_events no_http (main C w csv).
Proof.
  unfold main, compute_face_similarity, detect_face, cv_call. quiet.
Qed.

(** What a comparison hands back when a face region is cut out of both
    images and described: the mean of the two scores, or the error of
    the library in one of them. *)
Lemma compute_result w p1 p2 face1 face2 h1 h2 template1 template2 :
  face_of C w p1 face1 -> face_of C w p2 face2 ->
  described C face1 h1 template1 -> described C face2 h2 template2 ->
  result (compute_face_similarity C w p1 p2)
  = match compareHist C h1 h2 with
    | inl msg => Raised (ValueError ("Error comparing faces: " +:+ msg))
    | inr similarity =>
        match matchTemplate C template1 template2 with
        | inl msg => Raised (ValueError ("Error comparing faces: " +:+ msg))
        | inr template_similarity => Done (mean2 C similarity template_similarity)
        end
    end.
Proof.
  intros Hf1 Hf2 (h01 & Hc1 & Hn1 & Hr1) (h02 & Hc2 & Hn2 & Hr2).
  pose proof (detect_face_region w p1 face1 Hf1) as Hd1.
  pose proof (detect_face_region w p2 face2 Hf2) as Hd2.
  unfold compute_face_similarity.
  destruct (detect_face C w p1) as [t1 r1]. cbn [result snd] in Hd1. subst r1.
  destruct (detect_face C w p2) as [t2 r2]. cbn [result snd] in Hd2. subst r2.
  cbn [bind]. rewrite Hc1, Hc2. cbn [cv_call bind ret]. rewrite Hn1, Hn2.
  cbn [cv_call bind ret].
  destruct (compareHist C h1 h2) as [msg|similarity]; [reflexivity|].
  cbn [cv_call bind ret]. rewrite Hr1, Hr2. cbn [cv_call bind ret].
  destruct (matchTemplate C template1 template2); reflexivity.
Qed.

Lemma main_missing_default w csv :
  truthy_str (env w !! "DEFAULT_PERSON_FACE_IMAGE") = false ->
  main C w csv
  = ([], Raised (ValueError "DEFAULT_PERSON_FACE_IMAGE environment variable must be set")).
Proof. intros H. unfold main. rewrite H. reflexivity. Qed.

Lemma main_missing_infinite w csv :
  truthy_str (env w !! "DEFAULT_PERSON_FACE_IMAGE") = true ->
  truthy_str (env w !! "INFINITE_PERSON_FACE_IMAGE") = false ->
  main C w csv
  = ([], Raised (ValueError "INFINITE_PERSON_FACE_IMAGE environment variable must be set")).
Proof. intros H1 H2. unfold main. rewrite H1, H2. reflexivity. Qed.

Lemma missing_path_stops w csv v :
  In v required -> truthy_str (env w !! v) = false ->
  stops_unconfigured (main C w csv).
Proof.
  intros Hv Hmissing. unfold stops_unconfigured.
  destruct (truthy_str (env w !! "DEFAULT_PERSON_FACE_IMAGE")) eqn:H1.
  2:{ rewrite (main_missing_default w csv H1). split; [reflexivity|]. left. eauto. }
  destruct (truthy_str (env w !! "INFINITE_PERSON_FACE_IMAGE")) eqn:H2.
  2:{ rewrite (main_missing_infinite w csv H1 H2). split; [reflexivity|]. left. eauto. }
  cbn [In required] in Hv. destruct Hv as [<- | [<- | []]]; congruence.
Qed.

Lemma imread_exists w path img : imread C w path = Some img -> is_Some (fs w !! path).
Proof. unfold imread. destruct (fs w !! path); [eauto | discriminate]. Qed.

Lemma detects_exists w path g faces : detects C w path g faces -> is_Some (fs w !! path).
Proof. intros (img & _ & Hread & _). eapply imread_exists, Hread. Qed.

(** C7.  When the detector finds no face in either image, the error
    raised by the comparison names the first image: the first image is
    read and searched, the second is never touched, and a run of the
    script on these two paths ends with that error. *)
Theorem no_face_names_first_image (w : world) (p1 p2 : string)
    (g1 g2 : gray C) (csv : option (list (list string))) :
  detects C w p1 g1 [] ->
  detects C w p2 g2 [] ->
  compute_face_similarity C w p1 p2
  = ([EvImread p1; EvLoadCascade (cascade_file C); EvDetect p1],
     Raised (ValueError ("Error comparing faces: No face detected in image: " +:+ p1)))
  /\ (env w !! "DEFAULT_PERSON_FACE_IMAGE" = Some p1 -> p1 <> EmptyString ->
      env w !! "INFINITE_PERSON_FACE_IMAGE" = Some p2 -> p2 <> EmptyString ->
      result (main C w csv)
      = Raised (ValueError ("Error comparing faces: No face detected in image: " +:+ p1))).
Proof.
  intros Hnone1 Hnone2.
  assert (compute_face_similarity C w p1 p2
          = ([EvImread p1; EvLoadCascade (cascade_file C); EvDetect p1],
             Raised (ValueError ("Error comparing faces: No face detected in image: "
                                 +:+ p1)))) as Hcompute.
  { unfold compute_face_similarity.
    rewrite (detect_face_none w p1 g1 Hnone1). reflexivity. }
  split; [exact Hcompute|].
  intros E1 N1 E2 N2. unfold main. rewrite E1, E2.
  apply String.eqb_neq in N1, N2.
  cbn [truthy_str default from_option id]. rewrite N1, N2. cbn [negb].
  rewrite !bool_decide_eq_true_2 by (eapply detects_exists; eassumption).
  cbn [negb]. unfold print. rewrite !EffFacts.bind_emit. cbn [trace result fst snd].
  rewrite Hcompute. reflexivity.
Qed.

(** C5.  Comparing an image with itself: when the detector finds a face
    in the image, the two face regions that are compared are one and
    the same region, so each term of the score compares a thing with
    itself.  When the library gives such a comparison its maximum [one]
    in both terms (histogram correlation and template matching) and the
    mean of [one] and [one] is [one], the similarity is [one]. *)
Theorem same_image_scores_one (w : world) (p : string) (face template : gray C)
    (h : hist C) (one : score C) :
  face_of C w p face ->
  described C face h template ->
  compareHist C h h = inr one ->
  matchTemplate C template template = inr one ->
  mean2 C one one = one ->
  result (compute_face_similarity C w p p) = Done one.
Proof.
  intros Hface Hdescribed Hhist Htemplate Hmean.
  rewrite (compute_result w p p face face h h template template
             Hface Hface Hdescribed Hdescribed).
  now rewrite Hhist, Htemplate, Hmean.
Qed.


(** ** The file of results *)

(** A run that ends normally has appended its data row, after the header
    when there was no file. *)
Lemma main_done w csv csv' :
  result (main C w csv) = Done csv' ->
  exists row,
    row_of C w row
    /\ csv' = Some (match csv with Some rows => rows | None => [header] end ++ [row])
    /\ rows_written (trace (main C w csv))
       = match csv with Some _ => [] | None => [header] end ++ [row].
Proof.
  unfold main.
  destruct (negb (truthy_str (env w !! "DEFAULT_PERSON_FACE_IMAGE"))); [discriminate|].
  destruct (negb (truthy_str (env w !! "INFINITE_PERSON_FACE_IMAGE"))); [discriminate|].
  destruct (negb (bool_decide (is_Some (fs w !! default EmptyString
              (env w !! "DEFAULT_PERSON_FACE_IMAGE"))))); [discriminate|].
  destruct (negb (bool_decide (is_Some (fs w !! default EmptyString
              (env w !! "INFINITE_PERSON_FACE_IMAGE"))))); [discriminate|].
  unfold print. rewrite !EffFacts.bind_emit. cbn [trace result fst snd rows_written].
  set (left := default EmptyString (env w !! "DEFAULT_PERSON_FACE_IMAGE")).
  set (right := default EmptyString (env w !! "INFINITE_PERSON_FACE_IMAGE")).
  pose proof (compute_no_csv w left right) as Hquiet.
  destruct (compute_face_similarity C w left right) as [t [similarity|e|]];
    cbn [trace fst] in Hquiet; cbn [bind result snd]; try discriminate.
  destruct (csv_open_ok w); [|discriminate].
  destruct csv as [rows|];
    [ rewrite !bool_decide_eq_true_2 by eauto
    | rewrite !bool_decide_eq_false_2 by (intros [x Hx]; discriminate) ];
    cbn [negb emit ret bind app result trace fst snd default from_option id];
    intros [= <-]; exists (data_row C left right similarity);
    (split; [exists similarity; reflexivity|]);
    (split; [reflexivity|]);
    rewrite rows_written_app, Hquiet; reflexivity.
Qed.

(** Successive runs against an existing file append one row each. *)
Lemma runs_existing ws : forall rows csv',
  result (runs C ws (Some rows)) = Done csv' ->
  exists data,
    csv' = Some (rows ++ data) /\ Forall2 (row_of C) ws data
    /\ rows_written (trace (runs C ws (Some rows))) = data.
Proof.
  induction ws as [|w ws IH]; intros rows csv' H.
  - cbn in H. injection H as <-. exists []. rewrite app_nil_r. repeat split. constructor.
  - cbn [runs] in *.
    destruct (bind_done_inv _ _ _ H) as (csv1 & Hmain & Hrest & Htrace).
    destruct (main_done w (Some rows) csv1 Hmain) as (row & Hrow & -> & Hwritten).
    destruct (IH _ _ Hrest) as (data & -> & Hdata & Hwritten').
    exists (row :: data). rewrite <- app_assoc. repeat split.
    + constructor; assumption.
    + rewrite Htrace, rows_written_app, Hwritten, Hwritten'. reflexivity.
Qed.

Lemma count_lines_app s1 s2 : count_lines (s1 +:+ s2) = count_lines s1 + count_lines s2.
Proof.
  induction s1 as [|c s1 IH]; [reflexivity|].
  rewrite PyFacts.append_cons. cbn [count_lines]. rewrite IH. lia.
Qed.

Lemma plain_no_lines s : plain s = true -> count_lines s = 0.
Proof.
  induction s as [|c s IH]; [reflexivity|]. cbn [plain count_lines].
  rewrite !andb_true_iff, !negb_true_iff. intros [[_ ->] H]. now rewrite IH.
Qed.

Lemma double_quotes_lines s : count_lines (double_quotes s) = count_lines s.
Proof.
  induction s as [|c s IH]; [reflexivity|]. cbn [double_quotes].
  destruct (Ascii.eqb_spec c dquote) as [->|_]; cbn [count_lines]; rewrite IH; reflexivity.
Qed.

Lemma csv_field_lines s : count_lines (csv_field s) = count_lines s.
Proof.
  unfold csv_field. destruct (needs_quotes s); [|reflexivity].
  cbn [count_lines]. rewrite count_lines_app, double_quotes_lines.
  change (Ascii.eqb dquote LF) with false.
  change (count_lines (String dquote EmptyString)) with 0. cbv iota. lia.
Qed.

Lemma join_fields_lines fields :
  Forall (fun field => plain field = true) fields -> count_lines (join_fields fields) = 0.
Proof.
  induction 1 as [|f fields Hf Hrest IH]; [reflexivity|].
  cbn [join_fields]. destruct fields as [|g fields].
  - rewrite csv_field_lines. now apply plain_no_lines.
  - rewrite !count_lines_app, csv_field_lines, (plain_no_lines _ Hf), IH. reflexivity.
Qed.

(** A row without line breaks is one line of text. *)
Lemma csv_text_lines rows : plain_rows rows -> count_lines (csv_text rows) = length rows.
Proof.
  induction 1 as [|r rows Hr Hrest IH]; [reflexivity|].
  cbn [csv_text length]. unfold csv_line.
  rewrite !count_lines_app, (join_fields_lines _ Hr), IH. reflexivity.
Qed.

(** C4, as amended.  For N >= 1: after N runs that ended normally,
    starting without the file, the file holds the header followed by
    the N data rows of the runs, in order, N+1 rows in all, and the
    header was handed to the writer once; these rows are N+1 lines of
    text when no field holds a line break.  A run against an existing
    file appends its data row and writes no header. *)
Theorem csv_rows_after_runs (ws : list world) (csv' : option (list (list string))) :
  ws <> [] ->
  result (runs C ws None) = Done csv' ->
  (exists data,
     csv' = Some (header :: data)
     /\ Forall2 (row_of C) ws data
     /\ length (header :: data) = length ws + 1
     /\ rows_written (trace (runs C ws None)) = header :: data
     /\ (plain_rows data -> count_lines (csv_text (header :: data)) = length ws + 1))
  /\ (forall w rows after,
        result (main C w (Some rows)) = Done after ->
        exists row, row_of C w row /\ after = Some (rows ++ [row])
                    /\ rows_written (trace (main C w (Some rows))) = [row]).
Proof.
  intros Hne H. split.
  - destruct ws as [|w ws]; [congruence|]. cbn [runs] in *.
    destruct (bind_done_inv _ _ _ H) as (csv1 & Hmain & Hrest & Htrace).
    destruct (main_done w None csv1 Hmain) as (row & Hrow & -> & Hwritten).
    destruct (runs_existing ws _ _ Hrest) as (data & -> & Hdata & Hwritten').
    exists (row :: data). cbn [app].
    assert (length data = length ws) as Hlen
      by (symmetry; eapply Forall2_length; eassumption).
    repeat split.
    + constructor; assumption.
    + cbn [length]. lia.
    + rewrite Htrace, rows_written_app, Hwritten, Hwritten'. reflexivity.
    + intros Hplain. rewrite csv_text_lines.
      * cbn [length]. lia.
      * constructor; [|exact Hplain]. repeat constructor.
  - intros w rows after Hdone.
    destruct (main_done w (Some rows) after Hdone) as (row & Hrow & -> & Hwritten).
    exists row. repeat split; assumption.
Qed.

End Comparator.

(** C7 on two images without a face. *)
Lemma no_face_names_first_image_witness :
  detects plain_cv no_faces_world "a.jpg" [x00; x02] []
  /\ detects plain_cv no_faces_world "b.jpg" [x00; x03] []
  /\ compute_face_similarity plain_cv no_faces_world "a.jpg" "b.jpg"
     = ([EvImread "a.jpg"; EvLoadCascade (cascade_file plain_cv); EvDetect "a.jpg"],
        Raised (ValueError "Error comparing faces: No face detected in image: a.jpg")).
Proof.
  assert (detects plain_cv no_faces_world "a.jpg" [x00; x02] []) as H1.
  { exists [x00; x02], tt. split; [reflexivity|]. split; [reflexivity|].
    split; reflexivity. }
  assert (detects plain_cv no_faces_world "b.jpg" [x00; x03] []) as H2.
  { exists [x00; x03], tt. split; [reflexivity|]. split; [reflexivity|].
    split; reflexivity. }
  split; [exact H1|]. split; [exact H2|].
  exact (proj1 (no_face_names_first_image plain_cv no_faces_world "a.jpg" "b.jpg"
                  [x00; x02] [x00; x03] None H1 H2)).
Defined.

(** C5 on an image with one face, compared with itself. *)
Lemma same_image_scores_one_witness :
  face_of plain_cv faces_world "a.jpg" [x01; x02]
  /\ described plain_cv [x01; x02] [x01; x02] [x01; x02]
  /\ result (compute_face_similarity plain_cv faces_world "a.jpg" "a.jpg") = Done 100.
Proof.
  assert (face_of plain_cv faces_world "a.jpg" [x01; x02]) as Hface.
  { exists [x01; x02], 0, []. split; [|reflexivity].
    exists [x01; x02], tt. split; [reflexivity|]. split; [reflexivity|].
    split; reflexivity. }
  assert (described plain_cv [x01; x02] [x01; x02] [x01; x02]) as Hdescribed.
  { exists [x01; x02]. split; [reflexivity|]. split; reflexivity. }
  split; [exact Hface|]. split; [exact Hdescribed|].
  exact (same_image_scores_one plain_cv faces_world "a.jpg" [x01; x02] [x01; x02]
           [x01; x02] 100 Hface Hdescribed eq_refl eq_refl eq_refl).
Defined.


(** C4 as stated fails for N = 0: with no run made there is no file, so
    it does not hold one line. *)
Lemma no_run_no_file :
  ~ (exists rows, result (runs plain_cv [] None) = Done (Some rows)
                  /\ length rows = 0 + 1).
Proof. intros (rows & H & _). discriminate. Qed.

(** The rows of the file are lines of text only when no field holds a
    line break: with a line feed in the name of the first image, the
    header and the data row of one run are three lines. *)
Lemma line_break_adds_a_line :
  exists rows,
    result (runs plain_cv [line_break_world] None) = Done (Some rows)
    /\ length rows = 2
    /\ count_lines (csv_text rows) = 3.
Proof.
  eexists. split; [reflexivity|]. split; reflexivity.
Qed.

(** C4 on two runs. *)
Lemma csv_rows_after_runs_witness :
  [faces_world; faces_world] <> []
  /\ exists data,
       result (runs plain_cv [faces_world; faces_world] None) = Done (Some (header :: data))
       /\ length (header :: data) = 2 + 1.
Proof.
  assert ([faces_world; faces_world] <> []) as Hne by discriminate.
  split; [exact Hne|].
  destruct (csv_rows_after_runs plain_cv [faces_world; faces_world]
              (Some [header; ["a.jpg"; "b.jpg"; "0"]; ["a.jpg"; "b.jpg"; "0"]]) Hne)
    as [(data & Hcsv & _ & Hlen & _) _].
  - reflexivity.
  - exists data. split; [|exact Hlen].
    rewrite <- Hcsv. reflexivity.
Defined.

End CompareFacesFacts.

(* ===================================================================== *)
(** * The four scripts together *)
(* ===================================================================== *)

Module ScriptsFacts.
Import Py Eff PyOps.

Lemma unset_falsy (env : gmap string string) v : env !! v = None -> truthy_str (env !! v) = false.
Proof. now intros ->. Qed.

Lemma stable_diffusion_missing w v :
  In v StableDiffusion.required -> truthy_str (HFClient.env w !! v) = false ->
  stops_unconfigured (StableDiffusion.main w).
Proof.
  intros Hv H. unfold stops_unconfigured, StableDiffusion.main.
  cbn [In StableDiffusion.required] in Hv.
  destruct Hv as [<- | [<- | []]]; rewrite H; cbn [negb orb]; rewrite ?orb_true_r;
    (split; [reflexivity|]); left; eauto.
Qed.

Lemma new_person_missing w v :
  In v NewPerson.required -> truthy_str (HFClient.env w !! v) = false ->
  stops_unconfigured (NewPerson.main w).
Proof.
  intros Hv H. unfold stops_unconfigured, NewPerson.main.
  cbn [In NewPerson.required] in Hv.
  destruct Hv as [<- | [<- | [<- | []]]].
  - rewrite H. cbn [negb orb]. split; [reflexivity|]. left. eauto.
  - rewrite H. cbn [negb]. rewrite orb_true_r. split; [reflexivity|]. left. eauto.
  - destruct (negb (truthy_str (HFClient.env w !! "HUGGINGFACE_API_KEY"))
              || negb (truthy_str (HFClient.env w !! "HUGGINGFACE_ENDPOINT"))).
    + split; [reflexivity|]. left. eauto.
    + rewrite H. cbn [negb]. split; [reflexivity|]. left. eauto.
Qed.

(** C3.  For each of the four scripts and each environment variable it
    requires: when the variable is unset the script stops, by raising
    [ValueError] or by printing an error line and returning, and the
    number of network calls it has made is zero. *)
Theorem missing_variable_no_request :
  (forall P w v,
     In v InfiniteYou.required -> InfiniteYou.env w !! v = None ->
     stops_unconfigured (InfiniteYou.test_infiniteyou_api P w))
  /\ (forall w v,
        In v StableDiffusion.required -> HFClient.env w !! v = None ->
        stops_unconfigured (StableDiffusion.main w))
  /\ (forall w v,
        In v NewPerson.required -> HFClient.env w !! v = None ->
        stops_unconfigured (NewPerson.main w))
  /\ (forall C w csv v,
        In v CompareFaces.required -> CompareFaces.env w !! v = None ->
        stops_unconfigured (CompareFaces.main C w csv)).
Proof.
  split; [|split; [|split]].
  - intros P w v Hv H. eapply InfiniteYouFacts.missing_value_stops; eauto using unset_falsy.
  - intros w v Hv H. eapply stable_diffusion_missing; eauto using unset_falsy.
  - intros w v Hv H. eapply new_person_missing; eauto using unset_falsy.
  - intros C w csv v Hv H.
    eapply CompareFacesFacts.missing_path_stops; eauto using unset_falsy.
Qed.

(** C3 on environments that lack a variable. *)
Lemma missing_variable_no_request_witness :
  network_calls (trace (InfiniteYou.test_infiniteyou_api InfiniteYou.plain_pil
                          InfiniteYou.no_url_world)) = 0
  /\ network_calls (trace (StableDiffusion.main HFClient.unset_world)) = 0
  /\ network_calls (trace (NewPerson.main HFClient.unset_world)) = 0
  /\ network_calls (trace (CompareFaces.main CompareFaces.plain_cv
                             CompareFaces.unset_world None)) = 0.
Proof.
  destruct missing_variable_no_request as (H1 & H2 & H3 & H4).
  split; [|split; [|split]].
  - apply (H1 InfiniteYou.plain_pil InfiniteYou.no_url_world "RUNPOD_INFU_URL");
      [cbn; auto | reflexivity].
  - apply (H2 HFClient.unset_world "HUGGINGFACE_API_KEY"); [cbn; auto | reflexivity].
  - apply (H3 HFClient.unset_world "NEW_PERSON_OUTPUT_IMAGE_PATH");
      [cbn; auto | reflexivity].
  - apply (H4 CompareFaces.plain_cv CompareFaces.unset_world None
             "INFINITE_PERSON_FACE_IMAGE"); [cbn; auto | reflexivity].
Defined.

(** C6.  For every byte sequence [data] and every header [pre ++ ","]
    with no other comma: when the endpoint answers with the string
    [header ++ b64encode data], [generate_image] hands back [data], and
    the bytes written by both scripts to their output files are [data]
    (ten files for the batch script, one for the other, at the path the
    environment gives as [Path] writes it). *)
Theorem data_url_bytes_written (w : HFClient.world) (pre : string) (data : list byte) :
  contains "," pre = false ->
  (forall i, HFClient.answers_data_url w i (pre +:+ ",") data) ->
  (forall p, HFClient.open_ok w p = true) ->
  (forall p, HFClient.mkdir_ok w p = true) ->
  truthy_str (HFClient.env w !! "HUGGINGFACE_API_KEY") = true ->
  truthy_str (HFClient.env w !! "HUGGINGFACE_ENDPOINT") = true ->
  (forall i prompt key url,
     result (HFClient.generate_image w i prompt key url) = Done (HFClient.Bytes data))
  /\ writes (trace (StableDiffusion.main w))
     = map (fun i => EvWriteFile (StableDiffusion.filepath w i) data) (seq 1 10)
  /\ (forall p,
        HFClient.env w !! "NEW_PERSON_OUTPUT_IMAGE_PATH" = Some p -> p <> EmptyString ->
        writes (trace (NewPerson.main w)) = [EvWriteFile (path_str p) data]).
Proof.
  intros Hpre Hans Hopen Hmk Hkey Hurl. split; [|split].
  - intros i prompt key url.
    now rewrite (HFFacts.generate_image_data_url w i prompt key url pre data Hpre (Hans i)).
  - now apply (HFMainFacts.stable_diffusion_writes w pre data).
  - intros p Hp Hne.
    now apply (HFMainFacts.new_person_writes w pre data p).
Qed.

(** C6 on a service that sends the data URL of four bytes. *)
Lemma data_url_bytes_written_witness :
  contains "," "data:image/png;base64" = false
  /\ (forall i, HFClient.answers_data_url HFClient.data_url_world i
                  ("data:image/png;base64" +:+ ",") HFClient.example_data)
  /\ writes (trace (NewPerson.main HFClient.data_url_world))
     = [EvWriteFile "out/new.png" HFClient.example_data].
Proof.
  assert (forall i, HFClient.answers_data_url HFClient.data_url_world i
                      ("data:image/png;base64" +:+ ",") HFClient.example_data) as Hans.
  { intros i. eexists. reflexivity. }
  split; [reflexivity|]. split; [exact Hans|].
  destruct (data_url_bytes_written HFClient.data_url_world "data:image/png;base64"
              HFClient.example_data) as (_ & _ & H);
    [reflexivity | exact Hans | reflexivity | reflexivity | reflexivity | reflexivity |].
  apply (H "out/new.png"%string); [reflexivity | discriminate].
Defined.

End ScriptsFacts.

(* ===================================================================== *)
(** * The shape of a run of the face-personalization client *)
(* ===================================================================== *)

Module RunFacts.
Import Py Eff PyOps InfiniteYou.

Lemma trace_bind {A B} (m : M A) (k : A -> M B) :
  trace (bind m k)
  = trace m ++ match result m with Done a => trace (k a) | _ => [] end.
Proof.
  destruct m as [t [a|e|]]; cbn [bind trace result fst snd]; rewrite ?app_nil_r;
    try reflexivity.
  now destruct (k a).
Qed.

Lemma result_bind {A B} (m : M A) (k : A -> M B) :
  result (bind m k)
  = match result m with
    | Done a => result (k a)
    | Raised e => Raised e
    | OutOfFuel => OutOfFuel
    end.
Proof.
  destruct m as [t [a|e|]]; cbn [bind trace result fst snd]; try reflexivity.
  now destruct (k a).
Qed.

Lemma trace_try {A} (m : M A) (h : exn -> M A) :
  trace (try_except m h)
  = trace m ++ match result m with Raised e => trace (h e) | _ => [] end.
Proof.
  destruct m as [t [a|e|]]; cbn [try_except trace result fst snd]; rewrite ?app_nil_r;
    try reflexivity.
  now destruct (h e).
Qed.

Lemma result_try {A} (m : M A) (h : exn -> M A) :
  result (try_except m h)
  = match result m with Raised e => result (h e) | r => r end.
Proof.
  destruct m as [t [a|e|]]; cbn [try_except trace result fst snd]; try reflexivity.
  now destruct (h e).
Qed.

(** Events that pass [Q] are none of those that [R] picks. *)
Lemma filter_none (Q R : event -> bool) t :
  (forall e, Q e = true -> R e = false) -> forallb Q t = true -> List.filter R t = [].
Proof.
  intros H. induction t as [|e t IH]; [reflexivity|]. cbn [forallb List.filter].
  intros [He Ht]%andb_true_iff. rewrite (H e He). auto.
Qed.

Lemma forallb_weaken (Q R : event -> bool) t :
  (forall e, Q e = true -> R e = true) -> forallb Q t = true -> forallb R t = true.
Proof.
  intros H. induction t as [|e t IH]; [reflexivity|]. cbn [forallb].
  intros [He Ht]%andb_true_iff. rewrite (H e He). auto.
Qed.

Lemma prints_no_polls t : forallb is_print t = true -> polls t = 0.
Proof. intros H. unfold polls. rewrite (filter_none is_print); auto. now intros []. Qed.

Lemma prints_no_sleeps t : forallb is_print t = true -> sleeps t = 0.
Proof. intros H. unfold sleeps. rewrite (filter_none is_print); auto. now intros []. Qed.

Lemma prints_no_writes t : forallb is_print t = true -> writes t = [].
Proof. intros H. unfold writes. rewrite (filter_none is_print); auto. now intros []. Qed.

Lemma prints_no_posts t : forallb is_print t = true -> posts t = 0.
Proof. intros H. unfold posts. rewrite (filter_none is_print); auto. now intros []. Qed.

Lemma sleeps_app t1 t2 : sleeps (t1 ++ t2) = sleeps t1 + sleeps t2.
Proof. unfold sleeps. now rewrite List.filter_app, length_app. Qed.

Lemma posts_app t1 t2 : posts (t1 ++ t2) = posts t1 + posts t2.
Proof. unfold posts. now rewrite List.filter_app, length_app. Qed.

Lemma prints_loop_events status_url job_id token path t :
  forallb is_print t = true -> Forall (loop_event status_url job_id token path) t.
Proof.
  induction t as [|e t IH]; [constructor|]. cbn [forallb].
  intros [He Ht]%andb_true_iff. constructor; [|auto].
  right. right. left. exact He.
Qed.

(** ** Traces that keep a property when printed lines are added *)

Section Keeps.
Context (T : list event -> Prop).
Hypothesis T_left : forall t1 t2, forallb is_print t1 = true -> T t2 -> T (t1 ++ t2).
Hypothesis T_right : forall t1 t2, T t1 -> forallb is_print t2 = true -> T (t1 ++ t2).
Hypothesis T_nil : T [].

Lemma keeps_prints {A} (m : M A) : all_events is_print m -> keeps T m.
Proof.
  unfold keeps, all_events. intros H. rewrite <- (app_nil_r (trace m)). apply T_left; auto.
Qed.

Lemma keeps_bind {A B} (m : M A) (k : A -> M B) :
  all_events is_print m -> (forall a, keeps T (k a)) -> keeps T (bind m k).
Proof.
  unfold keeps, all_events. intros Hm Hk. rewrite trace_bind.
  apply T_left; [exact Hm|]. destruct (result m); auto.
Qed.

Lemma keeps_then {A B} (m : M A) (k : A -> M B) :
  keeps T m -> (forall a, all_events is_print (k a)) -> keeps T (bind m k).
Proof.
  unfold keeps, all_events. intros Hm Hk. rewrite trace_bind.
  apply T_right; [exact Hm|]. destruct (result m); auto.
Qed.

Lemma keeps_try {A} (m : M A) (h : exn -> M A) :
  keeps T m -> (forall e, all_events is_print (h e)) -> keeps T (try_except m h).
Proof.
  unfold keeps, all_events. intros Hm Hh. rewrite trace_try.
  apply T_right; [exact Hm|]. destruct (result m); auto.
Qed.

End Keeps.

Lemma one_write_left path t1 t2 :
  forallb is_print t1 = true -> one_write path t2 -> one_write path (t1 ++ t2).
Proof.
  unfold one_write. intros H1 H2. now rewrite EffFacts.writes_app, (prints_no_writes _ H1).
Qed.

Lemma one_write_right path t1 t2 :
  one_write path t1 -> forallb is_print t2 = true -> one_write path (t1 ++ t2).
Proof.
  unfold one_write. intros H1 H2.
  now rewrite EffFacts.writes_app, (prints_no_writes _ H2), app_nil_r.
Qed.

Lemma polling_trace_left status_url token path t1 t2 :
  forallb is_print t1 = true -> polling_trace status_url token path t2 ->
  polling_trace status_url token path (t1 ++ t2).
Proof.
  intros H1 (job_id & Hev & Hs & Hp & Hw). exists job_id.
  rewrite sleeps_app, InfiniteYouFacts.polls_app, (prints_no_sleeps _ H1),
    (prints_no_polls _ H1).
  repeat split; auto.
  - apply Forall_app. split; [now apply prints_loop_events | exact Hev].
  - now apply one_write_left.
Qed.

Lemma polling_trace_right status_url token path t1 t2 :
  polling_trace status_url token path t1 -> forallb is_print t2 = true ->
  polling_trace status_url token path (t1 ++ t2).
Proof.
  intros (job_id & Hev & Hs & Hp & Hw) H2. exists job_id.
  rewrite sleeps_app, InfiniteYouFacts.polls_app, (prints_no_sleeps _ H2),
    (prints_no_polls _ H2), !Nat.add_0_r.
  repeat split; auto.
  - apply Forall_app. split; [exact Hev | now apply prints_loop_events].
  - now apply one_write_right.
Qed.

Lemma polling_trace_nil status_url token path : polling_trace status_url token path [].
Proof.
  exists VNone. repeat split; [constructor | unfold polls; cbn; lia | now left].
Qed.

Section Client.
Context (P : pil).

Lemma print_metadata_prints output : all_events is_print (print_metadata output).
Proof. unfold print_metadata. quiet. Qed.

Lemma failure_hint_prints error_msg : all_events is_print (failure_hint error_msg).
Proof. unfold failure_hint. quiet. Qed.

(** [handle_output] prints, and writes at most once: the image, right
    after the line that says the call was successful. *)
Lemma handle_output_shape output path :
  forallb is_print (trace (handle_output P output path)) = true
  \/ exists data t2,
       trace (handle_output P output path)
       = EvPrint [Lit "✅ API call successful!"] :: EvWriteFile path data :: t2
       /\ forallb is_print t2 = true.
Proof.
  destruct output as [| | | | | |o]; try (left; reflexivity).
  unfold handle_output, get, get_default, has, item.
  rewrite EffFacts.bind_ret_l.
  destruct (truthy _).
  - unfold print at 1. rewrite EffFacts.bind_emit, EffFacts.bind_ret_l.
    cbn [trace fst].
    destruct (o !! "image") as [img|] eqn:Himg.
    + rewrite bool_decide_eq_true_2 by eauto.
      rewrite EffFacts.bind_ret_l. unfold base64_to_image.
      pose proof (InfiniteYouFacts.image_bytes_trace P img path) as Ht.
      destruct (image_bytes P img path) as [t [data|e|]]; cbn [trace result fst snd] in *;
        subst t; try (left; reflexivity).
      right. exists data.
      pose proof (print_metadata_prints (VDict o)) as Hm. unfold all_events in Hm.
      destruct (print_metadata (VDict o)) as [tm rm]. cbn [trace fst] in Hm.
      cbn [bind ret emit print app trace fst].
      eexists. split; [reflexivity|]. cbn [forallb is_print andb]. exact Hm.
    + rewrite bool_decide_eq_false_2 by (intros [x Hx]; discriminate). left. reflexivity.
  - rewrite EffFacts.bind_ret_l. left. reflexivity.
Qed.

Lemma handle_output_polling status_url token path output :
  keeps (polling_trace status_url token path) (handle_output P output path).
Proof.
  unfold keeps.
  destruct (handle_output_shape output path) as [H | (data & t2 & -> & H)].
  - rewrite <- (app_nil_r (trace _)).
    apply polling_trace_left; [exact H | apply polling_trace_nil].
  - exists VNone.
    change (EvPrint [Lit "✅ API call successful!"] :: EvWriteFile path data :: t2)
      with ([EvPrint [Lit "✅ API call successful!"]; EvWriteFile path data] ++ t2).
    rewrite sleeps_app, InfiniteYouFacts.polls_app, (prints_no_sleeps _ H),
      (prints_no_polls _ H).
    split; [|split; [|split]].
    + apply Forall_app. split; [|now apply prints_loop_events].
      constructor; [|constructor; [|constructor]].
      * right. right. left. reflexivity.
      * right. right. right. eauto.
    + reflexivity.
    + unfold polls. cbn. lia.
    + right. exists data.
      rewrite EffFacts.writes_app, (prints_no_writes _ H). reflexivity.
Qed.

Section Loop.
Context (w : world) (status_url : string) (job_id : value) (token path : string).

(** A turn of the loop: the pause, the status request, then printed
    lines; only a turn that leaves the loop hands the output on. *)
Lemma poll_once_shape st :
  exists t r,
    poll_once P w status_url job_id token path st
    = (EvSleep :: EvHttpGet status_url job_id token :: t, r)
    /\ (forallb is_print t = true
        \/ exists t1 output,
             t = t1 ++ trace (handle_output P output path)
             /\ forallb is_print t1 = true
             /\ forall st', r <> Done (Continue st')).
Proof.
  unfold poll_once. rewrite !EffFacts.bind_emit. cbn [trace result fst snd].
  eexists _, _. split; [reflexivity|].
  destruct (poll w (S (poll_count st))) as [e|resp]; [left; reflexivity|].
  cbn [lift]. rewrite EffFacts.bind_ret_l.
  destruct (status_code resp =? 200)%Z; [|left; reflexivity].
  destruct (json resp) as [v|]; [|left; reflexivity].
  rewrite EffFacts.bind_ret_l.
  destruct v as [| | | | | |d]; try (left; reflexivity).
  unfold get, get_default. rewrite EffFacts.bind_ret_l.
  set (cs := match d !! "status" with Some x => x | None => VNone end).
  cbv zeta.
  destruct (eq_str cs "COMPLETED") eqn:Hc.
  - right.
    destruct (eq_str cs "IN_PROGRESS" && negb (in_progress_detected st));
      destruct (generation_start_time st);
      cbn [bind print emit ret has item];
      (destruct (d !! "output") as [output|] eqn:Hout;
       [ rewrite bool_decide_eq_true_2 by eauto; cbn [bind ret];
         destruct (handle_output P output path) as [th rh] eqn:Hh;
         destruct rh as [[]|e|];
         cbn [bind print emit ret app trace result fst snd]; rewrite ?app_nil_r;
         match goal with
         | |- exists t1 o, ?l = _ /\ _ => let pre := front l th in exists pre, output
         end;
         rewrite Hh; (split; [reflexivity|]); (split; [reflexivity | discriminate])
       | rewrite bool_decide_eq_false_2 by (intros [x Hx]; discriminate);
         cbn [bind print emit ret app trace result fst snd];
         (eexists _, VNone; split; [symmetry; apply app_nil_r|]);
         (split; [reflexivity | discriminate]) ]).
  - left.
    match goal with
    | |- forallb is_print (trace ?m) = true => change (all_events is_print m)
    end.
    quiet; apply failure_hint_prints.
Qed.

(** What a turn adds to the trace. *)
Lemma poll_once_polling st :
  Forall (loop_event status_url job_id token path)
    (trace (poll_once P w status_url job_id token path st))
  /\ sleeps (trace (poll_once P w status_url job_id token path st)) = 1
  /\ one_write path (trace (poll_once P w status_url job_id token path st))
  /\ (forall st', result (poll_once P w status_url job_id token path st)
                  = Done (Continue st') ->
      writes (trace (poll_once P w status_url job_id token path st)) = []).
Proof.
  destruct (poll_once_shape st) as (t & r & -> & [Hprints | (t1 & output & -> & H1 & Hr)]);
    cbn [trace result fst snd].
  - change (EvSleep :: EvHttpGet status_url job_id token :: t)
      with ([EvSleep; EvHttpGet status_url job_id token] ++ t).
    rewrite sleeps_app, (prints_no_sleeps _ Hprints).
    unfold one_write. rewrite EffFacts.writes_app, (prints_no_writes _ Hprints).
    split; [|split; [|split]]; try reflexivity.
    + apply Forall_app. split; [|now apply prints_loop_events].
      constructor; [|constructor; [|constructor]].
      * left. reflexivity.
      * right. left. reflexivity.
    + left. reflexivity.
  - change (EvSleep :: EvHttpGet status_url job_id token :: t1
            ++ trace (handle_output P output path))
      with ([EvSleep; EvHttpGet status_url job_id token]
            ++ t1 ++ trace (handle_output P output path)).
    destruct (handle_output_polling status_url token path output)
      as (j & Hev & Hs & _ & Hw).
    rewrite !sleeps_app, (prints_no_sleeps _ H1), Hs.
    assert (polls (trace (handle_output P output path)) = 0) as ->.
    { apply InfiniteYouFacts.no_get_polls.
      generalize (InfiniteYouFacts.handle_output_no_http P output path).
      unfold all_events. apply forallb_weaken. now intros []. }
    split; [|split; [|split]]; try reflexivity.
    + apply Forall_app. split.
      { constructor; [|constructor; [|constructor]].
        - left. reflexivity.
        - right. left. reflexivity. }
      apply Forall_app. split; [now apply prints_loop_events|].
      destruct (handle_output_shape output path) as [Hh | (data & t2 & -> & Hh)].
      * now apply prints_loop_events.
      * constructor; [|constructor; [|now apply prints_loop_events]].
        -- right. right. left. reflexivity.
        -- right. right. right. eauto.
    + unfold one_write. rewrite !EffFacts.writes_app, (prints_no_writes _ H1). exact Hw.
    + intros st' Hst. destruct (Hr st' Hst).
Qed.

(** The trace of the loop, for any number of turns given to it. *)
Lemma poll_loop_polling fuel : forall st,
  Forall (loop_event status_url job_id token path)
    (trace (poll_loop P fuel w status_url job_id token path st))
  /\ sleeps (trace (poll_loop P fuel w status_url job_id token path st))
     = polls (trace (poll_loop P fuel w status_url job_id token path st))
  /\ one_write path (trace (poll_loop P fuel w status_url job_id token path st)).
Proof.
  induction fuel as [|fuel IH]; intros st.
  - cbn. repeat split; [constructor | now left].
  - cbn [poll_loop]. destruct (poll_count st <? max_polls).
    + rewrite trace_bind.
      destruct (poll_once_polling st) as (Hev & Hs & Hw & Hcont).
      pose proof (InfiniteYouFacts.poll_once_polls P w status_url job_id token path st)
        as Hp.
      destruct (result (poll_once P w status_url job_id token path st))
        as [[st'|]|e|] eqn:Hr.
      * destruct (IH st') as (Hev' & Hs' & Hw').
        rewrite sleeps_app, InfiniteYouFacts.polls_app, Hs, Hp, Hs'.
        split; [|split]; [apply Forall_app; auto | reflexivity |].
        unfold one_write. rewrite EffFacts.writes_app, (Hcont st' eq_refl). exact Hw'.
      * cbn [ret trace fst]. rewrite app_nil_r, Hs, Hp. auto.
      * rewrite app_nil_r, Hs, Hp. auto.
      * rewrite app_nil_r, Hs, Hp. auto.
    + destruct (InfiniteYouFacts.timed_out_run st) as (line & -> & _).
      cbn [trace fst]. split; [|split]; [| reflexivity | now left].
      apply prints_loop_events. reflexivity.
Qed.

Lemma poll_loop_keeps :
  keeps (polling_trace status_url token path)
    (poll_loop P (S max_polls) w status_url job_id token path initial_state).
Proof.
  unfold keeps. exists job_id.
  destruct (poll_loop_polling (S max_polls) initial_state) as (Hev & Hs & Hw).
  destruct (InfiniteYouFacts.poll_loop_bounded P w status_url job_id token path
              (S max_polls) initial_state) as [_ Hp].
  { cbn [poll_count initial_state]. lia. }
  cbn [poll_count initial_state] in Hp.
  repeat split; auto; lia.
Qed.

End Loop.

Lemma polling_bind {A B} status_url token path (m : M A) (k : A -> M B) :
  all_events is_print m ->
  (forall a, keeps (polling_trace status_url token path) (k a)) ->
  keeps (polling_trace status_url token path) (bind m k).
Proof.
  apply keeps_bind; [apply polling_trace_left | apply polling_trace_nil].
Qed.

Lemma polling_prints {A} status_url token path (m : M A) :
  all_events is_print m -> keeps (polling_trace status_url token path) m.
Proof.
  apply keeps_prints; [apply polling_trace_left | apply polling_trace_nil].
Qed.

Lemma report_prints e : all_events is_print (report e).
Proof. destruct e; reflexivity. Qed.

Lemma submit_ends w url status token path body :
  finishes (submit_and_wait P w url status token path body).
Proof.
  unfold submit_and_wait, print.
  repeat first
    [ apply InfiniteYouFacts.poll_loop_bounded; cbn [poll_count initial_state]; lia
    | apply InfiniteYouFacts.handle_output_ends
    | ends_step ].
Qed.

(** The [try] block and its handlers: the submission, then the trace of
    the polling; no exception leaves it. *)
Lemma attempt_shape w url status token path body :
  exists rest,
    trace (try_except (submit_and_wait P w url status token path body) report)
    = EvHttpPost url token body :: rest
    /\ polling_trace status token path rest
    /\ result (try_except (submit_and_wait P w url status token path body) report)
       = Done tt.
Proof.
  assert (result (try_except (submit_and_wait P w url status token path body) report)
          = Done tt) as Hdone.
  { rewrite InfiniteYouFacts.try_report_result.
    pose proof (submit_ends w url status token path body) as H. unfold finishes in H.
    destruct (result _) as [[]| |]; [reflexivity | reflexivity | congruence]. }
  unfold submit_and_wait in *. rewrite EffFacts.bind_emit in *.
  match goal with
  | |- context [try_except (_ :: trace ?m, result ?m) report] =>
      exists (trace (try_except m report));
      assert (keeps (polling_trace status token path) (try_except m report)) as Hkeeps
  end.
  { apply keeps_try; [apply polling_trace_right | | apply report_prints].
    repeat first
      [ apply poll_loop_keeps
      | apply handle_output_polling
      | apply polling_bind; [solve [quiet] | intros ?]
      | apply polling_prints; solve [quiet]
      | match goal with
        | |- keeps _ (if ?b then _ else _) => destruct b
        | |- keeps _ (match ?x with _ => _ end) => destruct x
        end ]. }
  split; [|split; [exact Hkeeps | exact Hdone]].
  rewrite !trace_try. cbn [trace result fst snd app]. reflexivity.
Qed.

(** A run that is ready is the set-up followed by the [try] block, with
    the addresses and the key taken from the environment. *)
Lemma ready_run w :
  ready w ->
  exists before url status token body,
    forallb local_event before = true
    /\ env w !! "RUNPOD_INFU_URL" = Some url
    /\ env w !! "RUNPOD_API_KEY" = Some token
    /\ (if truthy_str (Some url) && contains "/v2/" url then
          let* after := index (split url "/v2/") 1 in
          let* endpoint_id := index (split after "/") 0 in
          ret (Some ("https://api.runpod.ai/v2/" +:+ endpoint_id +:+ "/status"))
        else ret (Some url)) = ret (Some status)
    /\ test_infiniteyou_api P w
       = (before
          ++ trace (try_except
                      (submit_and_wait P w url status token
                         (default EmptyString (env w !! "INFINITE_OUTPUT_IMAGE_PATH"))
                         body) report),
          result (try_except
                    (submit_and_wait P w url status token
                       (default EmptyString (env w !! "INFINITE_OUTPUT_IMAGE_PATH"))
                       body) report)).
Proof.
  intros (Hurl & Hkey & Hin & Hout & Hprompt & Hmk & data & Hfile).
  destruct (EffFacts.truthy_str_some _ Hurl) as (url & Eurl & _).
  destruct (EffFacts.truthy_str_some _ Hkey) as (token & Ekey & _).
  destruct (InfiniteYouFacts.status_url_found url) as (status & Hstatus).
  unfold test_infiniteyou_api. rewrite Eurl in *. rewrite Hstatus.
  rewrite EffFacts.bind_ret_l, Hurl, Hkey, Hin, Hout, Hprompt. cbn [negb].
  unfold print at 1. rewrite !EffFacts.bind_emit. cbn [trace result fst snd].
  rewrite Hmk, EffFacts.bind_ret_l, Hfile.
  rewrite bool_decide_eq_true_2 by eauto. cbn [negb].
  unfold image_to_base64. rewrite Hfile.
  unfold print. rewrite !EffFacts.bind_emit. cbn [ret trace result fst snd].
  rewrite (EffFacts.bind_done _ _ _ _ eq_refl), !EffFacts.bind_emit.
  cbn [trace result fst snd app].
  rewrite Ekey. cbn [default from_option id].
  eexists [_; _; _; _; _; _], url, status, token, _.
  split; [|split; [reflexivity|split; [reflexivity|split; [exact Hstatus|]]]]; cycle 1.
  - reflexivity.
  - reflexivity.
Qed.

(** A run either stops during the set-up, with nothing but local events,
    or is ready. *)
Lemma prelude w :
  (forallb local_event (trace (test_infiniteyou_api P w)) = true
   /\ (result (test_infiniteyou_api P w) = Done tt
       \/ exists e, result (test_infiniteyou_api P w) = Raised e /\ setup_error e))
  \/ ready w.
Proof.
  destruct (truthy_str (env w !! "RUNPOD_INFU_URL")) eqn:Hurl.
  2:{ left. rewrite (InfiniteYouFacts.missing_url P w Hurl). split; [reflexivity|]. now left. }
  destruct (truthy_str (env w !! "RUNPOD_API_KEY")) eqn:Hkey.
  2:{ left. rewrite (InfiniteYouFacts.missing_key P w Hurl Hkey).
      split; [reflexivity|]. now left. }
  destruct (truthy_str (env w !! "INFINITE_INPUT_FACE_IMAGE_PATH")) eqn:Hin.
  2:{ left. rewrite (InfiniteYouFacts.missing_input P w Hurl Hkey Hin).
      split; [reflexivity|]. right. eexists. split; [reflexivity|]. left. reflexivity. }
  destruct (truthy_str (env w !! "INFINITE_OUTPUT_IMAGE_PATH")) eqn:Hout.
  2:{ left. rewrite (InfiniteYouFacts.missing_output P w Hurl Hkey Hin Hout).
      split; [reflexivity|]. right. eexists. split; [reflexivity|].
      right. left. reflexivity. }
  destruct (truthy_str (env w !! "INFINITE_PERSON_PROMPT")) eqn:Hprompt.
  2:{ left. rewrite (InfiniteYouFacts.missing_prompt P w Hurl Hkey Hin Hout Hprompt).
      split; [reflexivity|]. right. eexists. split; [reflexivity|].
      right. right. left. reflexivity. }
  destruct (mkdir_ok w (default EmptyString (env w !! "INFINITE_OUTPUT_IMAGE_PATH")))
    eqn:Hmk.
  2:{ left.
      destruct (EffFacts.truthy_str_some _ Hurl) as (url & Eurl & _).
      destruct (InfiniteYouFacts.status_url_found url) as (status & Hstatus).
      unfold test_infiniteyou_api. rewrite Eurl in *. rewrite Hstatus.
      rewrite EffFacts.bind_ret_l, Hurl, Hkey, Hin, Hout, Hprompt. cbn [negb].
      unfold print at 1. rewrite !EffFacts.bind_emit. cbn [trace result fst snd].
      rewrite Hmk. split; [reflexivity|]. right. eexists. split; [reflexivity|].
      right. right. right. reflexivity. }
  destruct (fs w !! default EmptyString (env w !! "INFINITE_INPUT_FACE_IMAGE_PATH"))
    as [[data|]|] eqn:Hfile.
  - right. unfold ready. repeat split; eauto.
  - left.
    destruct (EffFacts.truthy_str_some _ Hurl) as (url & Eurl & _).
    destruct (InfiniteYouFacts.status_url_found url) as (status & Hstatus).
    unfold test_infiniteyou_api. rewrite Eurl in *. rewrite Hstatus.
    rewrite EffFacts.bind_ret_l, Hurl, Hkey, Hin, Hout, Hprompt. cbn [negb].
    unfold print at 1. rewrite !EffFacts.bind_emit. cbn [trace result fst snd].
    rewrite Hmk, EffFacts.bind_ret_l, Hfile.
    rewrite bool_decide_eq_true_2 by eauto. cbn [negb].
    unfold image_to_base64. rewrite Hfile.
    split; [reflexivity|]. right. eexists. split; [reflexivity|].
    right. right. right. reflexivity.
  - left.
    destruct (EffFacts.truthy_str_some _ Hurl) as (url & Eurl & _).
    destruct (InfiniteYouFacts.status_url_found url) as (status & Hstatus).
    unfold test_infiniteyou_api. rewrite Eurl in *. rewrite Hstatus.
    rewrite EffFacts.bind_ret_l, Hurl, Hkey, Hin, Hout, Hprompt. cbn [negb].
    unfold print at 1. rewrite !EffFacts.bind_emit. cbn [trace result fst snd].
    rewrite Hmk, EffFacts.bind_ret_l, Hfile.
    rewrite bool_decide_eq_false_2 by (intros [x Hx]; discriminate).
    split; [reflexivity|]. now left.
Qed.

(** The events of the set-up are no request, no pause and no write. *)
Lemma local_counts t :
  forallb local_event t = true ->
  http_events t = [] /\ polls t = 0 /\ sleeps t = 0 /\ posts t = 0 /\ writes t = []
  /\ network_calls t = 0.
Proof.
  intros H. unfold http_events, polls, sleeps, posts, writes, network_calls.
  rewrite !(filter_none local_event) by (assumption || now intros []).
  repeat split.
Qed.

(** [failure_hint] on a text prints and returns. *)
Lemma failure_hint_text msg :
  exists t, failure_hint (VStr msg) = (t, Done tt) /\ forallb is_print t = true.
Proof.
  unfold failure_hint. cbn [has lower bind ret].
  destruct (contains "No space left on device" msg); [eexists; split; reflexivity|].
  destruct (contains "Model not found" msg); [eexists; split; reflexivity|].
  destruct (contains "403" msg); cbn [bind ret]; [eexists; split; reflexivity|].
  destruct (contains "access" (lower_string msg)); eexists; split; reflexivity.
Qed.

(** A run whose first [n] polls let the loop go on: what comes before
    the turn of poll [n + 1], and how the run ends when that turn leaves
    the loop. *)
Lemma run_until w n :
  starts_polling w -> n < max_polls ->
  (forall k, 1 <= k <= n -> goes_on (poll w k) = true) ->
  exists before status_url job_id token st,
    poll_count st = n /\ polls before = n /\ writes before = []
    /\ forall t r,
         poll_once P w status_url job_id token
           (default EmptyString (env w !! "INFINITE_OUTPUT_IMAGE_PATH")) st = (t, r) ->
         (forall st', r <> Done (Continue st')) ->
         test_infiniteyou_api P w = (before ++ t ++ tail (leave r), final (leave r)).
Proof.
  intros Hstart Hn Hgo.
  set (path := default EmptyString (env w !! "INFINITE_OUTPUT_IMAGE_PATH")).
  destruct (InfiniteYouFacts.reaches_loop P w Hstart)
    as (before & status_url & job_id & token & Hbp & _ & Hbw & _ & Hrun).
  fold path in Hrun.
  destruct (InfiniteYouFacts.poll_loop_not_yet P w status_url job_id token path n
              initial_state (S max_polls)) as (tn & st & Hloop & Hcount & Hp & _ & Hw & _).
  { intros k Hk. apply Hgo. cbn [poll_count initial_state] in Hk. lia. }
  { cbn [poll_count initial_state]. lia. }
  { lia. }
  cbn [poll_count initial_state Nat.add] in Hcount.
  exists (before ++ tn), status_url, job_id, token, st.
  rewrite InfiniteYouFacts.polls_app, EffFacts.writes_app, Hbp, Hbw, Hp, Hw.
  split; [exact Hcount|]. split; [reflexivity|]. split; [reflexivity|].
  intros t r Hturn Hleave.
  assert (poll_loop P (S max_polls - n) w status_url job_id token path st = (t, leave r))
    as Hrest.
  { replace (S max_polls - n) with (S (max_polls - n)) by lia. cbn [poll_loop].
    assert ((poll_count st <? max_polls) = true) as -> by (apply Nat.ltb_lt; lia).
    rewrite Hturn. destruct r as [[st'|]|e|]; cbn [bind ret leave];
      rewrite ?app_nil_r; try reflexivity.
    destruct (Hleave st' eq_refl). }
  rewrite Hrest in Hloop. cbn [trace result fst snd] in Hloop.
  rewrite (Hrun _ _ Hloop), <- !app_assoc. reflexivity.
Qed.

End Client.
End RunFacts.

(* ===================================================================== *)
(** * Splitting an address *)
(* ===================================================================== *)

Module UrlFacts.
Import Py Eff PyOps.

Lemma contains_char_cons c a s :
  contains (String c EmptyString) (String a s)
  = Ascii.eqb a c || contains (String c EmptyString) s.
Proof.
  cbn [contains String.prefix].
  destruct (ascii_dec c a) as [<-|Hne].
  - rewrite Ascii.eqb_refl. destruct s; reflexivity.
  - destruct (Ascii.eqb_spec a c) as [->|_]; [congruence | reflexivity].
Qed.

(** Splitting at a character a text without it gives the text back. *)
Lemma split_go_char_plain c cur s :
  contains (String c EmptyString) s = false ->
  split_go (String c EmptyString) 0 cur s = [cur +:+ s].
Proof.
  revert cur. induction s as [|a s IH]; intros cur H.
  - cbn. now rewrite PyFacts.append_empty_r.
  - rewrite contains_char_cons in H. apply orb_false_iff in H as [Ha Hs].
    cbn [split_go String.prefix].
    destruct (ascii_dec c a) as [<-|_]; [now rewrite Ascii.eqb_refl in Ha|].
    rewrite IH by assumption. rewrite PyFacts.append_assoc. reflexivity.
Qed.

(** Splitting stops at the first occurrence of the character. *)
Lemma split_go_char_sep c cur pre rest :
  contains (String c EmptyString) pre = false ->
  split_go (String c EmptyString) 0 cur (pre +:+ String c rest)
  = (cur +:+ pre) :: split_go (String c EmptyString) 0 EmptyString rest.
Proof.
  revert cur. induction pre as [|a pre IH]; intros cur H.
  - change (EmptyString +:+ String c rest) with (String c rest).
    rewrite PyFacts.append_empty_r. cbn [split_go String.prefix].
    destruct (ascii_dec c c); [|congruence]. destruct rest; reflexivity.
  - rewrite contains_char_cons in H. apply orb_false_iff in H as [Ha Hs].
    rewrite PyFacts.append_cons. cbn [split_go String.prefix].
    destruct (ascii_dec c a) as [<-|_]; [now rewrite Ascii.eqb_refl in Ha|].
    rewrite IH by assumption. now rewrite PyFacts.append_assoc.
Qed.

(** The first piece of a split starts with what was collected so far. *)
Lemma split_go_head sep s : forall skip cur,
  exists rest l, split_go sep skip cur s = (cur +:+ rest) :: l.
Proof.
  induction s as [|a s IH]; intros skip cur; cbn [split_go].
  - exists EmptyString, []. now rewrite PyFacts.append_empty_r.
  - destruct skip as [|k]; [|apply IH].
    destruct (String.prefix sep (String a s)).
    + exists EmptyString. eexists. now rewrite PyFacts.append_empty_r.
    + destruct (IH 0 (cur +:+ String a EmptyString)) as (rest & l & ->).
      exists (String a rest), l. now rewrite PyFacts.append_assoc.
Qed.

(** The piece that follows "/v2/" in an address: the endpoint id, up to
    the next slash at least. *)
Lemma split_v2_endpoint id rest : forall cur,
  contains "/" id = false ->
  exists more l,
    split_go "/v2/" 0 cur (id +:+ String "/" rest) = (cur +:+ id +:+ more) :: l
    /\ (more = EmptyString \/ exists tail, more = String "/" tail).
Proof.
  induction id as [|a id IH]; intros cur H.
  - change (EmptyString +:+ String "/" rest) with (String "/" rest).
    cbn [split_go].
    destruct (String.prefix "/v2/" (String "/" rest)).
    + exists EmptyString. eexists. split; [|now left].
      change (EmptyString +:+ EmptyString) with EmptyString.
      now rewrite PyFacts.append_empty_r.
    + destruct (split_go_head "/v2/" rest 0 (cur +:+ "/")) as (tail & l & ->).
      exists (String "/" tail), l. split; [|eauto].
      rewrite PyFacts.append_assoc. reflexivity.
  - rewrite contains_char_cons in H. apply orb_false_iff in H as [Ha Hs].
    rewrite PyFacts.append_cons. cbn [split_go String.prefix].
    destruct (ascii_dec "/" a) as [<-|_]; [discriminate|].
    destruct (IH (cur +:+ String a EmptyString) Hs) as (more & l & -> & Hmore).
    exists more, l. split; [|exact Hmore].
    rewrite PyFacts.append_assoc. reflexivity.
Qed.

(** The endpoint id is the first piece of that piece. *)
Lemma split_slash_first id more :
  contains "/" id = false ->
  more = EmptyString \/ (exists tail, more = String "/" tail) ->
  exists l, split (id +:+ more) "/" = id :: l.
Proof.
  intros H [-> | (tail & ->)]; unfold split.
  - rewrite PyFacts.append_empty_r, split_go_char_plain by assumption. eauto.
  - rewrite split_go_char_sep by assumption. eauto.
Qed.

(** The status address of an endpoint address of the documented form. *)
Lemma status_of_endpoint id rest :
  contains "/" id = false ->
  (if truthy_str (Some ("https://api.runpod.ai/v2/" +:+ id +:+ "/" +:+ rest))
      && contains "/v2/" ("https://api.runpod.ai/v2/" +:+ id +:+ "/" +:+ rest)
   then
     let* after := index (split ("https://api.runpod.ai/v2/" +:+ id +:+ "/" +:+ rest)
                            "/v2/") 1 in
     let* endpoint_id := index (split after "/") 0 in
     ret (Some ("https://api.runpod.ai/v2/" +:+ endpoint_id +:+ "/status"))
   else ret (Some ("https://api.runpod.ai/v2/" +:+ id +:+ "/" +:+ rest)))
  = ret (Some ("https://api.runpod.ai/v2/" +:+ id +:+ "/status")).
Proof.
  intros H.
  assert (truthy_str (Some ("https://api.runpod.ai/v2/" +:+ id +:+ "/" +:+ rest)) = true)
    as -> by reflexivity.
  assert (forall t, contains "/v2/" ("https://api.runpod.ai/v2/" +:+ t) = true) as Hin
    by (intros [|? ?]; reflexivity).
  assert (forall t, split ("https://api.runpod.ai/v2/" +:+ t) "/v2/"
                    = "https://api.runpod.ai" :: split_go "/v2/" 0 EmptyString t) as Hsplit
    by (intros [|? ?]; reflexivity).
  change ("https://api.runpod.ai/v2/" +:+ id +:+ "/" +:+ rest)
    with ("https://api.runpod.ai/v2/" +:+ (id +:+ String "/" rest)).
  rewrite Hin, Hsplit. cbn [andb].
  destruct (split_v2_endpoint id rest EmptyString H) as (more & l & -> & Hmore).
  change (EmptyString +:+ id +:+ more) with (id +:+ more).
  cbn [index lookup list_lookup bind ret].
  destruct (split_slash_first id more H Hmore) as (l' & ->).
  reflexivity.
Qed.

(** An address without "/v2/" is its own status address. *)
Lemma status_of_other url :
  contains "/v2/" url = false ->
  (if truthy_str (Some url) && contains "/v2/" url
   then
     let* after := index (split url "/v2/") 1 in
     let* endpoint_id := index (split after "/") 0 in
     ret (Some ("https://api.runpod.ai/v2/" +:+ endpoint_id +:+ "/status"))
   else ret (Some url))
  = ret (Some url).
Proof. intros ->. now rewrite andb_false_r. Qed.

End UrlFacts.

(* ===================================================================== *)
(** * Images in and out of the face-personalization client *)
(* ===================================================================== *)

Module ImageFacts.
Import Py Eff PyOps InfiniteYou.

Section Client.
Context (P : pil).

(** X1.  The text that [image_to_base64] makes of a file is read back by
    [base64_to_image] as the bytes of that file: the data-URL prefix is
    stripped, the rest is decoded, and the image library is handed
    exactly the bytes that were read. *)
Theorem data_url_round_trip (w : world) (image_path output_path : string)
    (data : list byte) :
  fs w !! image_path = Some (File data) ->
  exists s,
    result (image_to_base64 w image_path) = Done s
    /\ image_bytes P (VStr s) output_path
       = match image_open P data with
         | None => raise UnidentifiedImageError
         | Some img => lift (image_save P img output_path)
         end.
Proof.
  intros Hfile. exists ("data:image/jpeg;base64," +:+ Base64.b64encode data). split.
  - unfold image_to_base64. rewrite Hfile. reflexivity.
  - unfold image_bytes.
    assert (startswith ("data:image/jpeg;base64," +:+ Base64.b64encode data) "data:image"
            = true) as -> by reflexivity.
    change ("data:image/jpeg;base64," +:+ Base64.b64encode data)
      with ("data:image/jpeg;base64" +:+ String "," (Base64.b64encode data)).
    rewrite PyFacts.split_data_url by (reflexivity || apply HFFacts.encode_comma_free).
    cbn [index lookup list_lookup bind ret].
    rewrite Base64Facts.b64decode_b64encode. cbn [lift bind ret].
    destruct (image_open P data) as [img|]; [|reflexivity].
    destruct (image_save P img output_path); reflexivity.
Qed.

(** X2.  A text that starts like a data URL but holds no comma makes
    [base64_to_image] fail with [IndexError] before anything is decoded
    or written. *)
Theorem data_url_without_comma (s output_path : string) :
  startswith s "data:image" = true ->
  contains "," s = false ->
  base64_to_image P (VStr s) output_path = ([], Raised IndexError).
Proof.
  intros Hstart Hcomma. unfold base64_to_image, image_bytes. rewrite Hstart.
  unfold split. rewrite PyFacts.split_go_plain by assumption. reflexivity.
Qed.

(** X3.  When the output object says success and its image decodes,
    the image is written before the metadata is looked at: the file is
    written whatever the metadata is, and the handling ends normally
    when the metadata is absent or an object and with [AttributeError]
    when it is anything else. *)
Theorem image_saved_before_metadata (o : gmap string value) (path : string)
    (img : value) (data : list byte) :
  truthy (default VNone (o !! "success")) = true ->
  o !! "image" = Some img ->
  result (image_bytes P img path) = Done data ->
  writes (trace (handle_output P (VDict o) path)) = [EvWriteFile path data]
  /\ result (handle_output P (VDict o) path)
     = match o !! "metadata" with
       | None | Some (VDict _) => Done tt
       | Some _ => Raised AttributeError
       end.
Proof.
  intros Hsuccess Himage Hbytes.
  pose proof (InfiniteYouFacts.image_bytes_trace P img path) as Htrace.
  assert (image_bytes P img path = ([], Done data)) as Hrun.
  { rewrite (EffFacts.surjective_run (image_bytes P img path)), Htrace, Hbytes.
    reflexivity. }
  split.
  - rewrite InfiniteYouFacts.handle_output_writes. cbn [saved_data].
    now rewrite Hsuccess, Himage, Hbytes.
  - unfold handle_output, base64_to_image.
    cbn [get get_default has item bind ret].
    change (match o !! "success" with Some x => x | None => VNone end)
      with (default VNone (o !! "success")).
    rewrite Hsuccess, Himage.
    rewrite bool_decide_eq_true_2 by eauto.
    cbn [bind ret emit print app]. rewrite Hrun.
    unfold print_metadata. cbn [get_default bind ret emit print].
    destruct (o !! "metadata") as [[| | | | | |m]|]; reflexivity.
Qed.

End Client.

(** X1 on the identity image of the examples, a PNG file. *)
Lemma data_url_round_trip_witness :
  fs scripted_world !! "face.png" = Some (File example_pixels)
  /\ exists s,
       result (image_to_base64 scripted_world "face.png") = Done s
       /\ image_bytes plain_pil (VStr s) "out.png" = ret example_pixels.
Proof.
  split; [reflexivity|].
  apply (data_url_round_trip plain_pil scripted_world "face.png" "out.png" example_pixels).
  reflexivity.
Defined.

(** X2 on a data URL that was cut before its comma. *)
Lemma data_url_without_comma_witness :
  base64_to_image plain_pil (VStr "data:image/png;base64") "out.png"
  = ([], Raised IndexError).
Proof.
  apply (data_url_without_comma plain_pil "data:image/png;base64" "out.png"); reflexivity.
Defined.

(** X3 on an output whose metadata is [null]. *)
Lemma image_saved_before_metadata_witness :
  writes (trace (handle_output plain_pil (VDict null_metadata_fields) "out.png"))
  = [EvWriteFile "out.png" example_pixels]
  /\ result (handle_output plain_pil (VDict null_metadata_fields) "out.png")
     = Raised AttributeError.
Proof.
  apply (image_saved_before_metadata plain_pil null_metadata_fields "out.png"
           (VStr ("data:image/png;base64," +:+ Base64.b64encode example_pixels))
           example_pixels); reflexivity.
Defined.

End ImageFacts.

(* ===================================================================== *)
(** * The face-personalization client on every input *)
(* ===================================================================== *)

Module ClientFacts.
Import Py Eff PyOps InfiniteYou.

(** Among the events of the loop, the requests are the status requests. *)
Lemma loop_requests status_url job_id token path t :
  Forall (loop_event status_url job_id token path) t ->
  http_events t = List.filter is_get t.
Proof.
  induction 1 as [|e t He _ IH]; [reflexivity|].
  unfold http_events in *. cbn [List.filter]. rewrite IH.
  destruct He as [-> | [-> | [He | (data & ->)]]]; try reflexivity.
  destruct e; try discriminate. reflexivity.
Qed.

Lemma filter_all (Q : event -> bool) t : forallb Q (List.filter Q t) = true.
Proof.
  induction t as [|e t IH]; [reflexivity|]. cbn [List.filter].
  destruct (Q e) eqn:He; [|exact IH]. cbn [forallb]. now rewrite He.
Qed.

Lemma loop_status_requests status_url job_id token path t :
  Forall (loop_event status_url job_id token path) t ->
  Forall (status_request status_url) t.
Proof.
  intros H. eapply Forall_impl; [exact H|].
  intros e [-> | [-> | [He | (data & ->)]]]; cbn; auto.
  destruct e; try discriminate. exact I.
Qed.

Lemma local_status_requests status_url t :
  forallb local_event t = true -> Forall (status_request status_url) t.
Proof.
  induction t as [|e t IH]; [constructor|]. cbn [forallb].
  intros [He Ht]%andb_true_iff. constructor; [|auto].
  destruct e; try discriminate; exact I.
Qed.

Section Client.
Context (P : pil).

(** X4.  Whatever the environment, the files and the answers of the
    service, a run of the client writes at most one file, and that file
    is the one named by INFINITE_OUTPUT_IMAGE_PATH. *)
Theorem writes_only_the_output_image (w : world) :
  one_write (default EmptyString (env w !! "INFINITE_OUTPUT_IMAGE_PATH"))
    (trace (test_infiniteyou_api P w)).
Proof.
  destruct (RunFacts.prelude P w) as [[Hlocal _] | Hready].
  - left. now apply RunFacts.local_counts.
  - destruct (RunFacts.ready_run P w Hready)
      as (before & url & status & token & body & Hb & _ & _ & _ & ->).
    destruct (RunFacts.attempt_shape P w url status token
                (default EmptyString (env w !! "INFINITE_OUTPUT_IMAGE_PATH")) body)
      as (rest & -> & (job_id & _ & _ & _ & Hw) & _).
    cbn [trace fst]. unfold one_write in *.
    destruct (RunFacts.local_counts _ Hb) as (_ & _ & _ & _ & Hbw & _).
    rewrite EffFacts.writes_app, Hbw. exact Hw.
Qed.

(** X5.  An exception leaves the client only during the set-up: it is
    the [ValueError] of one of the three values checked that way, or an
    [OSError] of the file system, and by then no request has been sent
    and no file written.  From the submission on, every exception is
    reported and the client returns. *)
Theorem raises_only_during_setup (w : world) (e : exn) :
  result (test_infiniteyou_api P w) = Raised e ->
  setup_error e
  /\ network_calls (trace (test_infiniteyou_api P w)) = 0
  /\ writes (trace (test_infiniteyou_api P w)) = [].
Proof.
  intros Hraised.
  destruct (RunFacts.prelude P w) as [[Hlocal Hresult] | Hready].
  - destruct (RunFacts.local_counts _ Hlocal) as (_ & _ & _ & _ & Hw & Hn).
    split; [|split; assumption].
    destruct Hresult as [Hdone | (e' & He' & Hsetup)]; congruence.
  - destruct (RunFacts.ready_run P w Hready)
      as (before & url & status & token & body & _ & _ & _ & _ & Hrun).
    destruct (RunFacts.attempt_shape P w url status token
                (default EmptyString (env w !! "INFINITE_OUTPUT_IMAGE_PATH")) body)
      as (rest & _ & _ & Hdone).
    rewrite Hrun in Hraised. cbn [result snd] in Hraised. congruence.
Qed.

(** X6.  The requests of a run, in order: none at all, or the submission
    to the address in RUNPOD_INFU_URL with the key in RUNPOD_API_KEY,
    followed by status requests only, at most 2000 of them. *)
Theorem one_submission_then_polls (w : world) :
  http_events (trace (test_infiniteyou_api P w)) = []
  \/ exists url token body gets,
       http_events (trace (test_infiniteyou_api P w)) = EvHttpPost url token body :: gets
       /\ env w !! "RUNPOD_INFU_URL" = Some url
       /\ env w !! "RUNPOD_API_KEY" = Some token
       /\ forallb is_get gets = true
       /\ length gets <= 2000.
Proof.
  destruct (RunFacts.prelude P w) as [[Hlocal _] | Hready].
  - left. now apply RunFacts.local_counts.
  - right.
    destruct (RunFacts.ready_run P w Hready)
      as (before & url & status & token & body & Hb & Hurl & Hkey & _ & ->).
    destruct (RunFacts.attempt_shape P w url status token
                (default EmptyString (env w !! "INFINITE_OUTPUT_IMAGE_PATH")) body)
      as (rest & -> & (job_id & Hev & _ & Hp & _) & _).
    cbn [trace fst].
    destruct (RunFacts.local_counts _ Hb) as (Hbh & _).
    exists url, token, body, (List.filter is_get rest).
    split; [|split; [exact Hurl|split; [exact Hkey|split; [apply filter_all|exact Hp]]]].
    unfold http_events in *. rewrite List.filter_app, Hbh. cbn [List.filter is_http app].
    f_equal. exact (loop_requests _ _ _ _ _ Hev).
Qed.

(** X7.  In every run the client pauses exactly once for each status
    request it sends. *)
Theorem pause_for_every_poll (w : world) :
  sleeps (trace (test_infiniteyou_api P w)) = polls (trace (test_infiniteyou_api P w)).
Proof.
  destruct (RunFacts.prelude P w) as [[Hlocal _] | Hready].
  - destruct (RunFacts.local_counts _ Hlocal) as (_ & -> & -> & _). reflexivity.
  - destruct (RunFacts.ready_run P w Hready)
      as (before & url & status & token & body & Hb & _ & _ & _ & ->).
    destruct (RunFacts.attempt_shape P w url status token
                (default EmptyString (env w !! "INFINITE_OUTPUT_IMAGE_PATH")) body)
      as (rest & -> & (job_id & _ & Hs & _ & _) & _).
    cbn [trace fst].
    destruct (RunFacts.local_counts _ Hb) as (_ & Hbp & Hbs & _).
    rewrite RunFacts.sleeps_app, InfiniteYouFacts.polls_app, Hbp, Hbs.
    exact Hs.
Qed.

(** The status requests of a run go to the status address that the
    set-up derived. *)
Lemma status_requests_at w url status :
  env w !! "RUNPOD_INFU_URL" = Some url ->
  (if truthy_str (Some url) && contains "/v2/" url then
     let* after := index (split url "/v2/") 1 in
     let* endpoint_id := index (split after "/") 0 in
     ret (Some ("https://api.runpod.ai/v2/" +:+ endpoint_id +:+ "/status"))
   else ret (Some url)) = ret (Some status) ->
  Forall (status_request status) (trace (test_infiniteyou_api P w)).
Proof.
  intros Hurl Hstatus.
  destruct (RunFacts.prelude P w) as [[Hlocal _] | Hready].
  - now apply local_status_requests.
  - destruct (RunFacts.ready_run P w Hready)
      as (before & url' & status' & token & body & Hb & Hurl' & _ & Hstatus' & ->).
    assert (url' = url) as -> by congruence.
    assert (status' = status) as ->.
    { rewrite Hstatus in Hstatus'. unfold ret in Hstatus'. congruence. }
    destruct (RunFacts.attempt_shape P w url status token
                (default EmptyString (env w !! "INFINITE_OUTPUT_IMAGE_PATH")) body)
      as (rest & -> & (job_id & Hev & _) & _).
    cbn [trace fst]. apply Forall_app. split; [now apply local_status_requests|].
    constructor; [exact I|]. exact (loop_status_requests _ _ _ _ _ Hev).
Qed.

(** X8.  With an endpoint address of the documented form,
    https://api.runpod.ai/v2/<id>/<action>, every status request of a
    run goes to https://api.runpod.ai/v2/<id>/status; with an address
    that holds no "/v2/", the status requests go to the address itself. *)
Theorem status_requests_go_to_endpoint (w : world) :
  (forall id action,
     contains "/" id = false ->
     env w !! "RUNPOD_INFU_URL"
     = Some ("https://api.runpod.ai/v2/" +:+ id +:+ "/" +:+ action) ->
     Forall (status_request ("https://api.runpod.ai/v2/" +:+ id +:+ "/status"))
       (trace (test_infiniteyou_api P w)))
  /\ (forall url,
        contains "/v2/" url = false ->
        env w !! "RUNPOD_INFU_URL" = Some url ->
        Forall (status_request url) (trace (test_infiniteyou_api P w))).
Proof.
  split.
  - intros id action Hid Hurl.
    apply (status_requests_at w _ _ Hurl). now apply UrlFacts.status_of_endpoint.
  - intros url Hno Hurl.
    apply (status_requests_at w _ _ Hurl). now apply UrlFacts.status_of_other.
Qed.

(** X9.  When the first [n] polls show no terminal state and poll
    [n + 1] says FAILED, the client stops polling there: it has sent
    [n + 1] status requests, reports the failure with the error text of
    the answer, saves nothing and returns. *)
Theorem failed_job_ends_the_run (w : world) (n : nat) (msg : string) :
  starts_polling w ->
  n < max_polls ->
  (forall k, 1 <= k <= n -> goes_on (poll w k) = true) ->
  failed_answer (poll w (S n)) msg ->
  result (test_infiniteyou_api P w) = Done tt
  /\ polls (trace (test_infiniteyou_api P w)) = S n
  /\ writes (trace (test_infiniteyou_api P w)) = []
  /\ (In (EvPrint [Lit "❌ Job failed: "; Obj (VStr msg)])
        (trace (test_infiniteyou_api P w))
      \/ In (EvPrint [Lit "❌ Job failed after "; Seconds; Lit "s of generation: ";
                      Obj (VStr msg)])
           (trace (test_infiniteyou_api P w))).
Proof.
  intros Hstart Hn Hgo (text & d & Hpoll & Hstatus & Herror).
  destruct (RunFacts.run_until P w n Hstart Hn Hgo)
    as (before & status_url & job_id & token & st & Hcount & Hbp & Hbw & Hrun).
  destruct (RunFacts.failure_hint_text msg) as (hint & Hhint & Hprints).
  assert (exists line,
    poll_once P w status_url job_id token
      (default EmptyString (env w !! "INFINITE_OUTPUT_IMAGE_PATH")) st
    = (EvSleep :: EvHttpGet status_url job_id token :: EvPrint line :: hint, Done Break)
    /\ (line = [Lit "❌ Job failed: "; Obj (VStr msg)]
        \/ line = [Lit "❌ Job failed after "; Seconds; Lit "s of generation: ";
                   Obj (VStr msg)])) as (line & Hturn & Hline).
  { unfold poll_once. rewrite Hcount, Hpoll.
    cbn [lift bind emit ret status_code json get get_default Z.eqb Pos.eqb].
    rewrite Hstatus. cbn [eq_str].
    change ("FAILED" =? "IN_PROGRESS")%string with false.
    change ("FAILED" =? "COMPLETED")%string with false.
    change ("FAILED" =? "FAILED")%string with true.
    cbn [andb bind ret].
    change (match d !! "error" with Some x => x | None => VStr "Unknown error" end)
      with (default (VStr "Unknown error") (d !! "error")).
    rewrite Herror, Hhint.
    destruct (generation_start_time st); cbn [bind print emit ret app];
      rewrite ?app_nil_r; eexists; split; eauto. }
  rewrite (Hrun _ _ Hturn) by discriminate.
  cbn [leave tail final trace result fst snd]. rewrite app_nil_r.
  rewrite InfiniteYouFacts.polls_app, EffFacts.writes_app, Hbp, Hbw.
  change (EvSleep :: EvHttpGet status_url job_id token :: EvPrint line :: hint)
    with ([EvSleep; EvHttpGet status_url job_id token; EvPrint line] ++ hint).
  rewrite InfiniteYouFacts.polls_app, EffFacts.writes_app,
    (RunFacts.prints_no_polls _ Hprints), (RunFacts.prints_no_writes _ Hprints).
  split; [reflexivity|]. split; [unfold polls; cbn; lia|]. split; [reflexivity|].
  destruct Hline as [-> | ->]; [left | right];
    apply in_or_app; right; cbn; auto.
Qed.

(** X10.  When the first [n] polls show no terminal state and poll
    [n + 1] is answered with a status code other than 200, the client
    stops polling there: it prints the code and the text of the answer,
    saves nothing and returns. *)
Theorem bad_status_answer_ends_the_run (w : world) (n : nat) (r : response) :
  starts_polling w ->
  n < max_polls ->
  (forall k, 1 <= k <= n -> goes_on (poll w k) = true) ->
  poll w (S n) = inr r ->
  status_code r <> 200%Z ->
  result (test_infiniteyou_api P w) = Done tt
  /\ polls (trace (test_infiniteyou_api P w)) = S n
  /\ writes (trace (test_infiniteyou_api P w)) = []
  /\ exists t,
       trace (test_infiniteyou_api P w)
       = t ++ [EvPrint [Lit "❌ Failed to check job status: "; Int (status_code r)];
               EvPrint [Lit "Response: "; Str (text r)]].
Proof.
  intros Hstart Hn Hgo Hpoll Hcode.
  destruct (RunFacts.run_until P w n Hstart Hn Hgo)
    as (before & status_url & job_id & token & st & Hcount & Hbp & Hbw & Hrun).
  assert (poll_once P w status_url job_id token
            (default EmptyString (env w !! "INFINITE_OUTPUT_IMAGE_PATH")) st
          = ([EvSleep; EvHttpGet status_url job_id token;
              EvPrint [Lit "❌ Failed to check job status: "; Int (status_code r)];
              EvPrint [Lit "Response: "; Str (text r)]], Done Break)) as Hturn.
  { unfold poll_once. rewrite Hcount, Hpoll.
    apply Z.eqb_neq in Hcode. cbn [lift bind emit ret]. rewrite Hcode. reflexivity. }
  rewrite (Hrun _ _ Hturn) by discriminate.
  cbn [leave tail final trace result fst snd]. rewrite app_nil_r.
  rewrite InfiniteYouFacts.polls_app, EffFacts.writes_app, Hbp, Hbw.
  split; [reflexivity|]. split; [unfold polls; cbn; lia|]. split; [reflexivity|].
  exists (before ++ [EvSleep; EvHttpGet status_url job_id token]).
  rewrite <- app_assoc. reflexivity.
Qed.

(** X11.  When the first [n] polls show no terminal state and status
    request [n + 1] fails with an exception (a timeout, a connection
    error), the exception is reported by the handlers of the submission
    and the client returns: [n + 1] status requests, nothing saved, and
    the report as the last line; for a timeout that line is the one
    about the 12.5 minutes of the submission. *)
Theorem polling_error_is_reported (w : world) (n : nat) (e : exn) :
  starts_polling w ->
  n < max_polls ->
  (forall k, 1 <= k <= n -> goes_on (poll w k) = true) ->
  poll w (S n) = inl e ->
  result (test_infiniteyou_api P w) = Done tt
  /\ polls (trace (test_infiniteyou_api P w)) = S n
  /\ writes (trace (test_infiniteyou_api P w)) = []
  /\ (exists t, trace (test_infiniteyou_api P w) = t ++ trace (report e))
  /\ report RequestsTimeout = ([EvPrint [Lit "❌ Request timed out (12.5 minutes)"]], Done tt).
Proof.
  intros Hstart Hn Hgo Hpoll.
  destruct (RunFacts.run_until P w n Hstart Hn Hgo)
    as (before & status_url & job_id & token & st & Hcount & Hbp & Hbw & Hrun).
  assert (poll_once P w status_url job_id token
            (default EmptyString (env w !! "INFINITE_OUTPUT_IMAGE_PATH")) st
          = ([EvSleep; EvHttpGet status_url job_id token], Raised e)) as Hturn.
  { unfold poll_once. rewrite Hcount, Hpoll. reflexivity. }
  rewrite (Hrun _ _ Hturn) by discriminate.
  cbn [leave tail final trace result fst snd].
  rewrite !InfiniteYouFacts.polls_app, !EffFacts.writes_app, Hbp, Hbw.
  rewrite (RunFacts.prints_no_polls _ (RunFacts.report_prints e)),
    (RunFacts.prints_no_writes _ (RunFacts.report_prints e)).
  split; [reflexivity|]. split; [unfold polls; cbn; lia|]. split; [reflexivity|].
  split; [|reflexivity].
  exists (before ++ [EvSleep; EvHttpGet status_url job_id token]).
  rewrite <- app_assoc. reflexivity.
Qed.

(** X12.  A submission that fails ends the run without a status request:
    an exception of the request is reported and the client returns; an
    answer with a status code other than 200 makes the client print the
    code and the text of the answer and return.  Nothing is saved. *)
Theorem failed_submission_is_reported (w : world) :
  ready w ->
  (forall e,
     post w = inl e ->
     result (test_infiniteyou_api P w) = Done tt
     /\ network_calls (trace (test_infiniteyou_api P w)) = 1
     /\ writes (trace (test_infiniteyou_api P w)) = []
     /\ exists t, trace (test_infiniteyou_api P w) = t ++ trace (report e))
  /\ (forall r,
        post w = inr r -> status_code r <> 200%Z ->
        result (test_infiniteyou_api P w) = Done tt
        /\ network_calls (trace (test_infiniteyou_api P w)) = 1
        /\ writes (trace (test_infiniteyou_api P w)) = []
        /\ exists t,
             trace (test_infiniteyou_api P w)
             = t ++ [EvPrint [Lit "❌ HTTP Error: "; Int (status_code r)];
                     EvPrint [Lit "Response: "; Str (text r)]]).
Proof.
  intros Hready.
  destruct (RunFacts.ready_run P w Hready)
    as (before & url & status & token & body & Hb & _ & _ & _ & Hrun).
  destruct (RunFacts.local_counts _ Hb) as (_ & _ & _ & _ & Hbw & Hbn).
  split.
  - intros e Hpost. rewrite Hrun. unfold submit_and_wait. rewrite Hpost.
    cbn [lift bind emit raise try_except trace result fst snd app].
    destruct (InfiniteYouFacts.report_run e) as (line & Hreport).
    rewrite Hreport. cbn [trace result fst snd app].
    rewrite EffFacts.network_calls_app, EffFacts.writes_app, Hbw, Hbn.
    split; [reflexivity|]. split; [reflexivity|]. split; [reflexivity|].
    exists (before ++ [EvHttpPost url token body]). rewrite <- app_assoc. reflexivity.
  - intros r Hpost Hcode. rewrite Hrun. unfold submit_and_wait. rewrite Hpost.
    apply Z.eqb_neq in Hcode.
    cbn [lift bind emit ret print raise try_except trace result fst snd app].
    rewrite Hcode.
    cbn [lift bind emit ret print raise try_except trace result fst snd app].
    rewrite EffFacts.network_calls_app, EffFacts.writes_app, Hbw, Hbn.
    split; [reflexivity|]. split; [reflexivity|]. split; [reflexivity|].
    exists (before ++ [EvHttpPost url token body;
                       EvPrint [Lit "⏱️  Request completed in: "; Seconds; Lit " seconds"]]).
    rewrite <- app_assoc. reflexivity.
Qed.

End Client.

(** X5 on an input path that is a directory. *)
Lemma raises_only_during_setup_witness :
  result (test_infiniteyou_api plain_pil directory_world) = Raised OSError
  /\ setup_error OSError
  /\ network_calls (trace (test_infiniteyou_api plain_pil directory_world)) = 0.
Proof.
  assert (result (test_infiniteyou_api plain_pil directory_world) = Raised OSError) as H
    by reflexivity.
  split; [exact H|].
  destruct (raises_only_during_setup plain_pil directory_world OSError H) as (Hs & Hn & _).
  split; assumption.
Defined.

(** X8 on the scripted service, whose address has the documented form. *)
Lemma status_requests_go_to_endpoint_witness :
  contains "/" "k0nmfiw7iqu5t0" = false
  /\ Forall (status_request "https://api.runpod.ai/v2/k0nmfiw7iqu5t0/status")
       (trace (test_infiniteyou_api plain_pil scripted_world))
  /\ polls (trace (test_infiniteyou_api plain_pil scripted_world)) = 4.
Proof.
  split; [reflexivity|]. split; [|reflexivity].
  destruct (status_requests_go_to_endpoint plain_pil scripted_world) as [H _].
  apply (H "k0nmfiw7iqu5t0"%string "run"%string); reflexivity.
Defined.

Lemma starts_polling_example (w : world) :
  env w = example_env ->
  fs w = {[ "face.png" := File example_pixels ]} ->
  mkdir_ok w = (fun _ => true) ->
  post w = ok_response queued ->
  starts_polling w.
Proof.
  intros He Hf Hm Hp. unfold starts_polling. rewrite He, Hf, Hm, Hp.
  repeat split; try reflexivity.
  - exists "face.png"%string, example_pixels. repeat split; try reflexivity. discriminate.
  - eexists _, _. repeat split; try reflexivity. left. reflexivity.
Qed.

(** X9 on a job that fails at the third poll. *)
Lemma failed_job_ends_the_run_witness :
  starts_polling failing_world
  /\ failed_answer (poll failing_world 3) "No space left on device"
  /\ result (test_infiniteyou_api plain_pil failing_world) = Done tt
  /\ polls (trace (test_infiniteyou_api plain_pil failing_world)) = 3.
Proof.
  assert (starts_polling failing_world) as Hstart
    by (apply starts_polling_example; reflexivity).
  assert (failed_answer (poll failing_world 3) "No space left on device") as Hfailed.
  { eexists _, _. repeat split; reflexivity. }
  split; [exact Hstart|]. split; [exact Hfailed|].
  assert (2 < max_polls) as Hn by (unfold max_polls; lia).
  assert (forall k, 1 <= k <= 2 -> goes_on (poll failing_world k) = true) as Hgo.
  { intros k Hk. cbn [poll failing_world].
    assert ((k <=? 2) = true) as -> by (apply Nat.leb_le; lia). reflexivity. }
  destruct (failed_job_ends_the_run plain_pil failing_world 2 "No space left on device"
              Hstart Hn Hgo Hfailed) as (Hr & Hp & _).
  split; assumption.
Defined.

(** X10 on a status service that answers 502 to the third request. *)
Lemma bad_status_answer_ends_the_run_witness :
  starts_polling bad_gateway_world
  /\ poll bad_gateway_world 3 = inr bad_gateway
  /\ result (test_infiniteyou_api plain_pil bad_gateway_world) = Done tt
  /\ polls (trace (test_infiniteyou_api plain_pil bad_gateway_world)) = 3.
Proof.
  assert (starts_polling bad_gateway_world) as Hstart
    by (apply starts_polling_example; reflexivity).
  split; [exact Hstart|]. split; [reflexivity|].
  assert (2 < max_polls) as Hn by (unfold max_polls; lia).
  assert (forall k, 1 <= k <= 2 -> goes_on (poll bad_gateway_world k) = true) as Hgo.
  { intros k Hk. cbn [poll bad_gateway_world].
    assert ((k <=? 2) = true) as -> by (apply Nat.leb_le; lia). reflexivity. }
  assert (status_code bad_gateway <> 200%Z) as Hcode by discriminate.
  destruct (bad_status_answer_ends_the_run plain_pil bad_gateway_world 2 bad_gateway
              Hstart Hn Hgo eq_refl Hcode) as (Hr & Hp & _).
  split; assumption.
Defined.

(** X11 on a status request that times out. *)
Lemma polling_error_is_reported_witness :
  starts_polling timeout_world
  /\ poll timeout_world 3 = inl RequestsTimeout
  /\ result (test_infiniteyou_api plain_pil timeout_world) = Done tt
  /\ polls (trace (test_infiniteyou_api plain_pil timeout_world)) = 3.
Proof.
  assert (starts_polling timeout_world) as Hstart
    by (apply starts_polling_example; reflexivity).
  split; [exact Hstart|]. split; [reflexivity|].
  assert (2 < max_polls) as Hn by (unfold max_polls; lia).
  assert (forall k, 1 <= k <= 2 -> goes_on (poll timeout_world k) = true) as Hgo.
  { intros k Hk. cbn [poll timeout_world].
    assert ((k <=? 2) = true) as -> by (apply Nat.leb_le; lia). reflexivity. }
  destruct (polling_error_is_reported plain_pil timeout_world 2 RequestsTimeout
              Hstart Hn Hgo eq_refl) as (Hr & Hp & _).
  split; assumption.
Defined.

(** X12 on a submission that is refused. *)
Lemma failed_submission_is_reported_witness :
  ready refused_world
  /\ post refused_world = inl RequestsException
  /\ result (test_infiniteyou_api plain_pil refused_world) = Done tt
  /\ network_calls (trace (test_infiniteyou_api plain_pil refused_world)) = 1.
Proof.
  assert (ready refused_world) as Hready.
  { unfold ready. repeat split; try reflexivity. eexists. reflexivity. }
  split; [exact Hready|]. split; [reflexivity|].
  destruct (failed_submission_is_reported plain_pil refused_world Hready) as [H _].
  destruct (H RequestsException eq_refl) as (Hr & Hn & _).
  split; assumption.
Defined.

End ClientFacts.

(* ===================================================================== *)
(** * The script around the client, and values set to the empty text *)
(* ===================================================================== *)

Module ScriptFacts.
Import Py Eff PyOps.

Section Client.
Import InfiniteYou.
Context (P : pil).

(** X13.  The closing lines of the script ("Test completed!" and the
    summary) are printed exactly when the test returns: after a test
    that returns they follow its trace, and an exception of the test
    ends the script before them.  A test that stopped because the
    address of the service is missing has returned, so these lines are
    printed although nothing was tested. *)
Theorem summary_follows_a_test_that_returns (w : world) :
  (result (test_infiniteyou_api P w) = Done tt ->
   script P w
   = (EvPrint [Lit "🧪 InfiniteYou RunPod API Test"]
      :: EvPrint [Lit (repeat_string "=" 40)]
      :: trace (test_infiniteyou_api P w) ++ trace (summary w), Done tt))
  /\ (forall e,
        result (test_infiniteyou_api P w) = Raised e ->
        script P w
        = (EvPrint [Lit "🧪 InfiniteYou RunPod API Test"]
           :: EvPrint [Lit (repeat_string "=" 40)]
           :: trace (test_infiniteyou_api P w), Raised e))
  /\ (truthy_str (env w !! "RUNPOD_INFU_URL") = false ->
      In (EvPrint [Lit "🏁 Test completed!"]) (trace (script P w))).
Proof.
  assert (forall r, result (test_infiniteyou_api P w) = r ->
            test_infiniteyou_api P w = (trace (test_infiniteyou_api P w), r)) as Hrun.
  { intros r <-. apply EffFacts.surjective_run. }
  split; [|split].
  - intros Hdone. unfold script, print. rewrite !EffFacts.bind_emit.
    cbn [trace result fst snd]. rewrite (Hrun _ Hdone). reflexivity.
  - intros e Hraised. unfold script, print. rewrite !EffFacts.bind_emit.
    cbn [trace result fst snd]. rewrite (Hrun _ Hraised). reflexivity.
  - intros Hurl. unfold script. rewrite (InfiniteYouFacts.missing_url P w Hurl).
    unfold summary, print. cbn [bind emit ret trace result fst snd app].
    do 4 right. left. reflexivity.
Qed.

End Client.

(** X14.  In each of the four scripts a required value that is set to
    the empty text is treated like one that is not set: the script
    stops, by raising [ValueError] or by printing an error line and
    returning, and has sent no request. *)
Theorem empty_value_counts_as_missing :
  (forall P w v,
     In v InfiniteYou.required -> InfiniteYou.env w !! v = Some EmptyString ->
     stops_unconfigured (InfiniteYou.test_infiniteyou_api P w))
  /\ (forall w v,
        In v StableDiffusion.required -> HFClient.env w !! v = Some EmptyString ->
        stops_unconfigured (StableDiffusion.main w))
  /\ (forall w v,
        In v NewPerson.required -> HFClient.env w !! v = Some EmptyString ->
        stops_unconfigured (NewPerson.main w))
  /\ (forall C w csv v,
        In v CompareFaces.required -> CompareFaces.env w !! v = Some EmptyString ->
        stops_unconfigured (CompareFaces.main C w csv)).
Proof.
  split; [|split; [|split]].
  - intros P w v Hv H. apply (InfiniteYouFacts.missing_value_stops P w v Hv).
    now rewrite H.
  - intros w v Hv H. apply (ScriptsFacts.stable_diffusion_missing w v Hv). now rewrite H.
  - intros w v Hv H. apply (ScriptsFacts.new_person_missing w v Hv). now rewrite H.
  - intros C w csv v Hv H. apply (CompareFacesFacts.missing_path_stops C w csv v Hv).
    now rewrite H.
Qed.

(** X13 on the environment without the address of the service. *)
Lemma summary_follows_a_test_that_returns_witness :
  truthy_str (InfiniteYou.env InfiniteYou.no_url_world !! "RUNPOD_INFU_URL") = false
  /\ In (EvPrint [Lit "🏁 Test completed!"])
       (trace (InfiniteYou.script InfiniteYou.plain_pil InfiniteYou.no_url_world)).
Proof.
  split; [reflexivity|].
  destruct (summary_follows_a_test_that_returns InfiniteYou.plain_pil
              InfiniteYou.no_url_world) as (_ & _ & H).
  apply H. reflexivity.
Defined.

(** X14 on environments whose values are empty. *)
Lemma empty_value_counts_as_missing_witness :
  network_calls (trace (InfiniteYou.test_infiniteyou_api InfiniteYou.plain_pil
                          InfiniteYou.empty_key_world)) = 0
  /\ network_calls (trace (StableDiffusion.main HFClient.blank_world)) = 0
  /\ network_calls (trace (NewPerson.main HFClient.blank_world)) = 0
  /\ network_calls (trace (CompareFaces.main CompareFaces.plain_cv
                             CompareFaces.blank_world None)) = 0.
Proof.
  destruct empty_value_counts_as_missing as (H1 & H2 & H3 & H4).
  split; [|split; [|split]].
  - apply (H1 InfiniteYou.plain_pil InfiniteYou.empty_key_world "RUNPOD_API_KEY");
      [cbn; auto | reflexivity].
  - apply (H2 HFClient.blank_world "HUGGINGFACE_ENDPOINT"); [cbn; auto | reflexivity].
  - apply (H3 HFClient.blank_world "NEW_PERSON_OUTPUT_IMAGE_PATH");
      [cbn; auto | reflexivity].
  - apply (H4 CompareFaces.plain_cv CompareFaces.blank_world None
             "DEFAULT_PERSON_FACE_IMAGE"); [cbn; auto | reflexivity].
Defined.

End ScriptFacts.

(* ===================================================================== *)
(** * The text-to-image clients on every answer *)
(* ===================================================================== *)

Module GenerateFacts.
Import Py Eff PyOps HFClient.

Lemma http_events_app t1 t2 : http_events (t1 ++ t2) = http_events t1 ++ http_events t2.
Proof. apply List.filter_app. Qed.

(** [generate_image] sends its request and does nothing else to the
    outside. *)
Lemma generate_image_trace w i prompt key url :
  trace (generate_image w i prompt key url)
  = [EvHttpPost url key (VDict {[ "inputs" := VStr prompt ]})].
Proof.
  unfold generate_image. rewrite EffFacts.bind_emit. cbn [trace fst]. f_equal.
  match goal with
  | |- trace ?m = [] => assert (all_events (fun _ => false) m) as H
  end.
  { unfold raise_for_status. repeat first [progress quiet | progress cbv zeta]. }
  unfold all_events in H. destruct (trace _); [reflexivity | discriminate].
Qed.

Lemma generate_image_ends w i prompt key url : finishes (generate_image w i prompt key url).
Proof.
  unfold generate_image, raise_for_status. repeat first [progress ends | progress cbv zeta].
Qed.

(** One turn of the loop over the prompts. *)
Lemma turn_requests w i prompt key url path (line saved : message) :
  result (let* _ := print line in
          try_except
            (let* image_bytes := generate_image w i prompt key url in
             let* _ := write_file w path image_bytes in
             print saved)
            (fun e => print [Lit "  Error: "; Exc e])) = Done tt
  /\ http_events
       (trace (let* _ := print line in
               try_except
                 (let* image_bytes := generate_image w i prompt key url in
                  let* _ := write_file w path image_bytes in
                  print saved)
                 (fun e => print [Lit "  Error: "; Exc e])))
     = [EvHttpPost url key (VDict {[ "inputs" := VStr prompt ]})].
Proof.
  pose proof (generate_image_trace w i prompt key url) as Ht.
  pose proof (generate_image_ends w i prompt key url) as He.
  destruct (generate_image w i prompt key url) as [t [d|e|]];
    unfold finishes in He; cbn [trace result fst snd] in *; subst t; [| |congruence].
  - unfold write_file. destruct (open_ok w path); destruct d; split; reflexivity.
  - split; reflexivity.
Qed.

(** A loop whose every turn ends normally and sends one request. *)
Lemma for_each_requests (body : nat -> string -> M unit) (f : string -> event) prompts :
  forall i,
  (forall k prompt, result (body k prompt) = Done tt
                    /\ http_events (trace (body k prompt)) = [f prompt]) ->
  result (for_each i prompts body) = Done tt
  /\ http_events (trace (for_each i prompts body)) = map f prompts.
Proof.
  induction prompts as [|p ps IH]; intros i H.
  - split; reflexivity.
  - cbn [for_each map].
    destruct (H i p) as [Hr Hh]. destruct (IH (S i) H) as [Hr' Hh'].
    rewrite RunFacts.result_bind, RunFacts.trace_bind, Hr, http_events_app, Hh, Hh'.
    split; [exact Hr' | reflexivity].
Qed.

(** A run of the single-image script that is configured. *)
Lemma new_person_run w key url path :
  env w !! "HUGGINGFACE_API_KEY" = Some key -> key <> EmptyString ->
  env w !! "HUGGINGFACE_ENDPOINT" = Some url -> url <> EmptyString ->
  env w !! "NEW_PERSON_OUTPUT_IMAGE_PATH" = Some path -> path <> EmptyString ->
  mkdir_ok w path = true ->
  forall t,
    try_except
      (let* image_bytes :=
         generate_image w 1 (default NewPerson.default_prompt (env w !! "NEW_PERSON_PROMPT"))
           key url in
       let* _ := write_file w (path_str path) image_bytes in
       print [Lit "  Saved: "; Str (path_str path)])
      (fun e => print [Lit "  Error: "; Exc e]) = (t, Done tt) ->
    NewPerson.main w
    = (EvMkdirParent path
       :: EvPrint [Lit "Generating "; Int 1; Lit " images..."]
       :: EvPrint [Lit "["; Int 1; Lit "/"; Int 1; Lit "] ";
                   Str (default NewPerson.default_prompt (env w !! "NEW_PERSON_PROMPT"))]
       :: t ++ [EvPrint [Lit (String "010" "Done! Image saved to: ");
                         Str (path_str path)]], Done tt).
Proof.
  intros Hkey Nkey Hurl Nurl Hpath Npath Hmk t Hturn.
  apply String.eqb_neq in Nkey, Nurl, Npath.
  unfold NewPerson.main. rewrite Hkey, Hurl, Hpath.
  cbn [truthy_str default from_option id]. rewrite Nkey, Nurl, Npath.
  cbn [negb orb]. rewrite Hmk. cbn [for_each].
  unfold print in *.
  repeat (rewrite ?EffFacts.bind_emit, ?EffFacts.bind_ret_l; cbn [trace result fst snd]).
  rewrite Hturn. cbn [trace result fst snd].
  rewrite !(EffFacts.bind_done _ _ _ _ eq_refl). cbn [trace result fst snd ret emit app].
  rewrite app_nil_r. reflexivity.
Qed.

End GenerateFacts.

Module TextToImageFacts.
Import Py Eff PyOps HFClient.

(** X15.  A configured run of the batch script sends one request per
    prompt, in the order of the prompts, each to the endpoint with the
    key, and returns normally: a prompt that fails (an exception of the
    request, an error status, an answer that does not decode, a file
    that cannot be written) does not stop the prompts after it. *)
Theorem batch_sends_every_prompt (w : world) (key url : string) :
  env w !! "HUGGINGFACE_API_KEY" = Some key -> key <> EmptyString ->
  env w !! "HUGGINGFACE_ENDPOINT" = Some url -> url <> EmptyString ->
  mkdir_ok w (script_dir w +:+ "/output_HF_images") = true ->
  result (StableDiffusion.main w) = Done tt
  /\ http_events (trace (StableDiffusion.main w))
     = map (fun prompt => EvHttpPost url key (VDict {[ "inputs" := VStr prompt ]}))
         StableDiffusion.prompts.
Proof.
  intros Hkey Nkey Hurl Nurl Hmk.
  apply String.eqb_neq in Nkey, Nurl.
  unfold StableDiffusion.main. rewrite Hkey, Hurl.
  cbn [truthy_str default from_option id]. rewrite Nkey, Nurl. cbn [negb orb].
  rewrite Hmk.
  set (body := fun (i : nat) (prompt : string) => _).
  destruct (GenerateFacts.for_each_requests body
              (fun prompt => EvHttpPost url key (VDict {[ "inputs" := VStr prompt ]}))
              StableDiffusion.prompts 1) as [Hr Hh].
  { intros k prompt. unfold body. apply GenerateFacts.turn_requests. }
  unfold print.
  repeat (rewrite ?EffFacts.bind_emit, ?EffFacts.bind_ret_l; cbn [trace result fst snd]).
  rewrite RunFacts.result_bind, RunFacts.trace_bind, Hr.
  split; [reflexivity|].
  match goal with
  | |- http_events (?a :: ?b :: ?x ++ ?c) = ?r => change (http_events ([a; b] ++ x ++ c) = r)
  end.
  rewrite !GenerateFacts.http_events_app, Hh. apply app_nil_r.
Qed.

(** X16.  A configured run of the single-image script sends exactly one
    request, and returns normally whatever the answer.  The prompt it
    sends is the value of NEW_PERSON_PROMPT when that variable is set,
    the empty text included, and the default prompt only when it is not
    set. *)
Theorem new_person_sends_one_prompt (w : world) (key url path : string) :
  env w !! "HUGGINGFACE_API_KEY" = Some key -> key <> EmptyString ->
  env w !! "HUGGINGFACE_ENDPOINT" = Some url -> url <> EmptyString ->
  env w !! "NEW_PERSON_OUTPUT_IMAGE_PATH" = Some path -> path <> EmptyString ->
  mkdir_ok w path = true ->
  result (NewPerson.main w) = Done tt
  /\ http_events (trace (NewPerson.main w))
     = [EvHttpPost url key
          (VDict {[ "inputs" :=
                      VStr (match env w !! "NEW_PERSON_PROMPT" with
                            | Some prompt => prompt
                            | None => NewPerson.default_prompt
                            end) ]})].
Proof.
  intros Hkey Nkey Hurl Nurl Hpath Npath Hmk.
  change (match env w !! "NEW_PERSON_PROMPT" with
          | Some prompt => prompt
          | None => NewPerson.default_prompt
          end) with (default NewPerson.default_prompt (env w !! "NEW_PERSON_PROMPT")).
  set (prompt := default NewPerson.default_prompt (env w !! "NEW_PERSON_PROMPT")).
  destruct (GenerateFacts.turn_requests w 1 prompt key url (path_str path) []
              [Lit "  Saved: "; Str (path_str path)])
    as [Hr Hh].
  unfold print at 1 in Hr. unfold print at 1 in Hh.
  rewrite EffFacts.bind_emit in Hr, Hh. cbn [trace result fst snd] in Hr, Hh.
  unfold http_events in Hh. cbn [List.filter is_http] in Hh. fold (http_events) in Hh.
  rewrite (GenerateFacts.new_person_run w key url path Hkey Nkey Hurl Nurl Hpath Npath Hmk
             _ (eq_trans (EffFacts.surjective_run _) (f_equal (pair _) Hr))).
  split; [reflexivity|]. cbn [trace fst].
  match goal with
  | |- http_events (?a :: ?b :: ?c :: ?x ++ ?d) = ?r =>
      change (http_events ([a; b; c] ++ x ++ d) = r)
  end.
  rewrite !GenerateFacts.http_events_app. fold prompt. unfold http_events at 2.
  rewrite Hh. reflexivity.
Qed.

(** X17.  When the endpoint answers with an error status (400 to 599),
    the single-image script writes no file: the [HTTPError] of
    [raise_for_status] is printed as an error line and the script
    returns normally. *)
Theorem http_error_writes_nothing (w : world) (key url path : string) (r : response) :
  env w !! "HUGGINGFACE_API_KEY" = Some key -> key <> EmptyString ->
  env w !! "HUGGINGFACE_ENDPOINT" = Some url -> url <> EmptyString ->
  env w !! "NEW_PERSON_OUTPUT_IMAGE_PATH" = Some path -> path <> EmptyString ->
  mkdir_ok w path = true ->
  post w 1 = inr r ->
  (400 <= status_code r < 600)%Z ->
  result (NewPerson.main w) = Done tt
  /\ writes (trace (NewPerson.main w)) = []
  /\ In (EvPrint [Lit "  Error: "; Exc (HTTPError (status_code r))])
       (trace (NewPerson.main w)).
Proof.
  intros Hkey Nkey Hurl Nurl Hpath Npath Hmk Hpost [Hlo Hhi].
  rewrite (GenerateFacts.new_person_run w key url path Hkey Nkey Hurl Nurl Hpath Npath Hmk
             [EvHttpPost url key
                (VDict {[ "inputs" :=
                   VStr (default NewPerson.default_prompt (env w !! "NEW_PERSON_PROMPT")) ]});
              EvPrint [Lit "  Error: "; Exc (HTTPError (status_code r))]]).
  - split; [reflexivity|]. split; [reflexivity|]. cbn. auto 10.
  - unfold generate_image, raise_for_status. rewrite Hpost.
    apply Z.leb_le in Hlo. apply Z.ltb_lt in Hhi.
    cbn [lift bind emit ret]. rewrite Hlo, Hhi. reflexivity.
Qed.

(** X18.  When the endpoint answers 200 with a JSON object that has no
    [image] key, [generate_image] hands the object back as it is, and
    the single-image script, which opens the output file (under the
    text [Path] gives of its name) before it writes, leaves that file
    empty: the [TypeError] of the write is printed as an error line and
    the script returns normally. *)
Theorem object_answer_leaves_empty_file (w : world) (key url path text : string)
    (d : gmap string value) :
  env w !! "HUGGINGFACE_API_KEY" = Some key -> key <> EmptyString ->
  env w !! "HUGGINGFACE_ENDPOINT" = Some url -> url <> EmptyString ->
  env w !! "NEW_PERSON_OUTPUT_IMAGE_PATH" = Some path -> path <> EmptyString ->
  mkdir_ok w path = true ->
  open_ok w (path_str path) = true ->
  post w 1 = inr {| status_code := 200; text := text; json := Some (VDict d) |} ->
  d !! "image" = None ->
  (forall prompt, result (generate_image w 1 prompt key url) = Done (Object (VDict d)))
  /\ result (NewPerson.main w) = Done tt
  /\ writes (trace (NewPerson.main w)) = [EvWriteFile (path_str path) []]
  /\ In (EvPrint [Lit "  Error: "; Exc TypeError]) (trace (NewPerson.main w)).
Proof.
  intros Hkey Nkey Hurl Nurl Hpath Npath Hmk Hopen Hpost Himage.
  assert (forall prompt,
    generate_image w 1 prompt key url
    = ([EvHttpPost url key (VDict {[ "inputs" := VStr prompt ]})], Done (Object (VDict d))))
    as Hgen.
  { intros prompt. unfold generate_image, raise_for_status. rewrite Hpost.
    cbn [lift bind emit ret status_code json Z.leb Z.ltb Z.compare Pos.compare
         Pos.compare_cont andb].
    cbn [bind ret]. rewrite Himage. reflexivity. }
  split; [intros prompt; now rewrite Hgen|].
  rewrite (GenerateFacts.new_person_run w key url path Hkey Nkey Hurl Nurl Hpath Npath Hmk
             [EvHttpPost url key
                (VDict {[ "inputs" :=
                   VStr (default NewPerson.default_prompt (env w !! "NEW_PERSON_PROMPT")) ]});
              EvWriteFile (path_str path) [];
              EvPrint [Lit "  Error: "; Exc TypeError]]).
  - split; [reflexivity|]. split; [reflexivity|]. cbn. auto 10.
  - rewrite Hgen. unfold write_file. rewrite Hopen. reflexivity.
Qed.

(** X19.  Besides a data URL as a JSON string, [generate_image] decodes
    three more shapes of a 200 answer to the bytes that were encoded:
    the bare base64 text as a JSON string, and an object whose [image]
    is the bare base64 text or a data URL. *)
Theorem accepted_answer_shapes (w : world) (i : nat) (prompt key url text pre : string)
    (body : value) (data : list byte) :
  post w i = inr {| status_code := 200; text := text; json := Some body |} ->
  contains "," pre = false ->
  body = VStr (Base64.b64encode data)
  \/ (exists d, body = VDict d
                /\ (d !! "image" = Some (VStr (Base64.b64encode data))
                    \/ d !! "image"
                       = Some (VStr ((pre +:+ ",") +:+ Base64.b64encode data)))) ->
  generate_image w i prompt key url
  = ([EvHttpPost url key (VDict {[ "inputs" := VStr prompt ]})], Done (Bytes data)).
Proof.
  intros Hpost Hpre Hshape.
  destruct (HFFacts.strip_and_decode pre data Hpre) as (Hin & Hsplit & Hdec).
  pose proof (HFFacts.encode_comma_free data) as Hfree.
  unfold generate_image, raise_for_status. rewrite Hpost.
  cbn [lift bind emit ret status_code json Z.leb Z.ltb Z.compare Pos.compare
       Pos.compare_cont andb].
  cbn [bind ret].
  destruct Hshape as [-> | (d & -> & [Himage | Himage])]; rewrite ?Himage.
  - rewrite Hfree. cbn [bind ret]. rewrite Hdec. reflexivity.
  - rewrite Hfree. cbn [bind ret]. rewrite Hdec. reflexivity.
  - rewrite Hin. unfold index. rewrite Hsplit. cbn [bind ret]. rewrite Hdec. reflexivity.
Qed.

Lemma length_append (s1 s2 : string) :
  String.length (s1 +:+ s2) = String.length s1 + String.length s2.
Proof.
  induction s1 as [|c s1 IH]; [reflexivity|].
  rewrite PyFacts.append_cons. cbn [String.length]. now rewrite IH.
Qed.

Lemma append_inj_l (s a b : string) : s +:+ a = s +:+ b -> a = b.
Proof.
  induction s as [|c s IH]; [auto|]. rewrite !PyFacts.append_cons. intros [= H]. auto.
Qed.

Lemma append_inj_length (a1 a2 b1 b2 : string) :
  String.length a1 = String.length a2 -> a1 +:+ b1 = a2 +:+ b2 -> a1 = a2 /\ b1 = b2.
Proof.
  revert a2. induction a1 as [|c a1 IH]; intros [|c2 a2] Hlen; try discriminate.
  - auto.
  - rewrite !PyFacts.append_cons. intros [= -> H]. injection Hlen as Hlen.
    destruct (IH a2 Hlen H) as [-> ->]. auto.
Qed.

Lemma append_inj_r (a b s : string) : a +:+ s = b +:+ s -> a = b.
Proof.
  intros H. apply (append_inj_length a b s s); [|exact H].
  apply (f_equal String.length) in H. rewrite !length_append in H. lia.
Qed.

(** X20.  The files of one batch run have different names: for two
    different prompt numbers the paths differ, given that the two time
    stamps have the same length (as the stamps of one format have). *)
Theorem batch_files_are_distinct (w : world) (i j : nat) :
  String.length (now w i) = String.length (now w j) ->
  i <> j ->
  StableDiffusion.filepath w i <> StableDiffusion.filepath w j.
Proof.
  intros Hlen Hij Heq. apply Hij. unfold StableDiffusion.filepath in Heq.
  apply append_inj_l, append_inj_l in Heq.
  apply append_inj_length in Heq as [_ Heq]; [|exact Hlen].
  apply append_inj_l, append_inj_r in Heq.
  exact (pretty_nat_inj _ _ Heq).
Qed.

(** X15 on the service of the examples. *)
Lemma batch_sends_every_prompt_witness :
  result (StableDiffusion.main unavailable_world) = Done tt
  /\ length (http_events (trace (StableDiffusion.main unavailable_world))) = 10.
Proof.
  assert (forall s : string, String "h" s <> EmptyString) as Hne by discriminate.
  destruct (batch_sends_every_prompt unavailable_world "hf_key" "https://endpoint.example/sd"
              eq_refl (Hne _) eq_refl (Hne _) eq_refl) as [Hr Hh].
  split; [exact Hr|]. rewrite Hh. reflexivity.
Defined.

(** X16 on a service that is not available, with the prompt set to the
    empty text: the empty prompt is sent, not the default one. *)
Lemma new_person_sends_one_prompt_witness :
  env empty_prompt_world !! "NEW_PERSON_PROMPT" = Some EmptyString
  /\ result (NewPerson.main empty_prompt_world) = Done tt
  /\ http_events (trace (NewPerson.main empty_prompt_world))
     = [EvHttpPost "https://endpoint.example/sd" "hf_key"
          (VDict {[ "inputs" := VStr EmptyString ]})].
Proof.
  assert (forall s : string, String "h" s <> EmptyString) as Hh by discriminate.
  assert (forall s : string, String "o" s <> EmptyString) as Ho by discriminate.
  split; [reflexivity|].
  exact (new_person_sends_one_prompt empty_prompt_world "hf_key"
           "https://endpoint.example/sd" "out/new.png"
           eq_refl (Hh _) eq_refl (Hh _) eq_refl (Ho _) eq_refl).
Defined.

(** X17 on a service that answers 503. *)
Lemma http_error_writes_nothing_witness :
  post unavailable_world 1 = inr unavailable
  /\ result (NewPerson.main unavailable_world) = Done tt
  /\ writes (trace (NewPerson.main unavailable_world)) = [].
Proof.
  split; [reflexivity|].
  assert ((400 <= status_code unavailable < 600)%Z) as Hcode by (cbn; lia).
  assert (forall s : string, String "h" s <> EmptyString) as Hh by discriminate.
  assert (forall s : string, String "o" s <> EmptyString) as Ho by discriminate.
  destruct (http_error_writes_nothing unavailable_world "hf_key"
              "https://endpoint.example/sd" "out/new.png" unavailable
              eq_refl (Hh _) eq_refl (Hh _) eq_refl (Ho _) eq_refl eq_refl Hcode)
    as (Hr & Hw & _).
  split; assumption.
Defined.

(** X18 on a service that answers with an object about its loading,
    for the output path "./out//new.png". *)
Lemma object_answer_leaves_empty_file_witness :
  loading !! "image" = None
  /\ env loading_world !! "NEW_PERSON_OUTPUT_IMAGE_PATH" = Some "./out//new.png"%string
  /\ writes (trace (NewPerson.main loading_world)) = [EvWriteFile "out/new.png" []].
Proof.
  split; [reflexivity|]. split; [reflexivity|].
  assert (forall s : string, String "h" s <> EmptyString) as Hh by discriminate.
  assert (forall s : string, String "." s <> EmptyString) as Ho by discriminate.
  destruct (object_answer_leaves_empty_file loading_world "hf_key"
              "https://endpoint.example/sd" "./out//new.png" EmptyString loading
              eq_refl (Hh _) eq_refl (Hh _) eq_refl (Ho _) eq_refl eq_refl eq_refl eq_refl)
    as (_ & _ & Hw & _).
  exact Hw.
Defined.

(** X19 on a service that answers with bare base64 text. *)
Lemma accepted_answer_shapes_witness :
  generate_image bare_world 1 "a prompt" "hf_key" "https://endpoint.example/sd"
  = ([EvHttpPost "https://endpoint.example/sd" "hf_key"
        (VDict {[ "inputs" := VStr "a prompt" ]})], Done (Bytes example_data)).
Proof.
  apply (accepted_answer_shapes bare_world 1 "a prompt" "hf_key"
           "https://endpoint.example/sd" EmptyString "data:image/png;base64"
           (VStr (Base64.b64encode example_data)) example_data);
    [reflexivity | reflexivity | left; reflexivity].
Defined.

(** X20 on the first two files of a run. *)
Lemma batch_files_are_distinct_witness :
  StableDiffusion.filepath data_url_world 1 <> StableDiffusion.filepath data_url_world 2.
Proof.
  apply (batch_files_are_distinct data_url_world 1 2); [reflexivity | discriminate].
Defined.

End TextToImageFacts.

(* ===================================================================== *)
(** * The face comparator on every input *)
(* ===================================================================== *)

Module ComparatorFacts.
Import Py Eff PyOps CompareFaces.

Section Comparator.
Context (C : cv).

(** [detect_face] on a path that gives no image. *)
Lemma detect_face_unreadable w path :
  imread C w path = None ->
  detect_face C w path
  = ([EvImread path], Raised (ValueError ("Could not load image: " +:+ path))).
Proof. intros Hread. unfold detect_face. rewrite Hread. reflexivity. Qed.

(** The warning is printed as soon as a second face is found. *)
Lemma detect_face_warns w path g first second more :
  detects C w path g (first :: second :: more) ->
  In (warning path) (trace (detect_face C w path)).
Proof.
  intros (img & face_cascade & Hread & Hgray & Hcascade & Hfaces).
  unfold detect_face. rewrite Hread, Hgray.
  cbn [cv_call bind emit ret]. rewrite Hcascade.
  cbn [cv_call bind emit ret]. rewrite Hfaces.
  cbn [cv_call bind emit ret].
  destruct (resize C (crop C g first)); cbn; auto.
Qed.

(** A detector that reports only the first face makes [detect_face] hand
    back what it hands back anyway. *)
Lemma detect_face_first_only w path :
  result (detect_face (first_face_only C) w path) = result (detect_face C w path).
Proof.
  unfold detect_face. rewrite !EffFacts.bind_emit. cbn [result snd].
  change (imread (first_face_only C) w path) with (imread C w path).
  destruct (imread C w path) as [img|]; [|reflexivity].
  change (cvtColor (first_face_only C) img) with (cvtColor C img).
  destruct (cvtColor C img) as [msg|g]; [reflexivity|].
  cbn [cv_call]. rewrite !EffFacts.bind_ret_l, !EffFacts.bind_emit. cbn [result snd].
  change (CascadeClassifier (first_face_only C) (cascade_file (first_face_only C)))
    with (CascadeClassifier C (cascade_file C)).
  destruct (CascadeClassifier C (cascade_file C)) as [msg|face_cascade]; [reflexivity|].
  cbn [cv_call]. rewrite !EffFacts.bind_ret_l, !EffFacts.bind_emit. cbn [result snd].
  change (detectMultiScale (first_face_only C) face_cascade g)
    with (match detectMultiScale C face_cascade g with
          | inl msg => inl msg
          | inr faces => inr (take 1 faces)
          end).
  destruct (detectMultiScale C face_cascade g) as [msg|[|first [|second more]]];
    try reflexivity;
    cbn [cv_call take]; rewrite !EffFacts.bind_ret_l;
    cbn [length Nat.ltb Nat.leb]; unfold print;
    rewrite ?EffFacts.bind_ret_l, ?EffFacts.bind_emit; reflexivity.
Qed.

(** X21.  With both paths set, an image file that is missing stops the
    comparator before it reads anything: it raises [FileNotFoundError]
    with the text "Image not found: " and the path, for the first path
    when that file is missing and for the second when only that one is. *)
Theorem missing_image_file_named (w : world) (csv : option (list (list string)))
    (p1 p2 : string) :
  env w !! "DEFAULT_PERSON_FACE_IMAGE" = Some p1 -> p1 <> EmptyString ->
  env w !! "INFINITE_PERSON_FACE_IMAGE" = Some p2 -> p2 <> EmptyString ->
  (fs w !! p1 = None ->
   main C w csv = ([], Raised (FileNotFoundError ("Image not found: " +:+ p1))))
  /\ (is_Some (fs w !! p1) -> fs w !! p2 = None ->
      main C w csv = ([], Raised (FileNotFoundError ("Image not found: " +:+ p2)))).
Proof.
  intros E1 N1 E2 N2. apply String.eqb_neq in N1, N2.
  unfold main. rewrite E1, E2. cbn [truthy_str default from_option id].
  rewrite N1, N2. cbn [negb]. split.
  - intros H. rewrite H.
    rewrite bool_decide_eq_false_2 by (intros [x Hx]; discriminate). reflexivity.
  - intros H1 H2. rewrite H2.
    rewrite bool_decide_eq_true_2 by exact H1.
    rewrite bool_decide_eq_false_2 by (intros [x Hx]; discriminate). reflexivity.
Qed.

(** X22.  An image that cannot be loaded (a file that is no image) makes
    the comparison raise [ValueError] with the text "Error comparing
    faces: Could not load image: " and the path of that image: the first
    image at once, the second after a face region was cut out of the
    first. *)
Theorem unreadable_image_named (w : world) (p1 p2 : string) :
  (imread C w p1 = None ->
   compute_face_similarity C w p1 p2
   = ([EvImread p1],
      Raised (ValueError ("Error comparing faces: Could not load image: " +:+ p1))))
  /\ (forall face1,
        face_of C w p1 face1 ->
        imread C w p2 = None ->
        result (compute_face_similarity C w p1 p2)
        = Raised (ValueError ("Error comparing faces: Could not load image: " +:+ p2))).
Proof.
  split.
  - intros H. unfold compute_face_similarity.
    rewrite (detect_face_unreadable w p1 H). reflexivity.
  - intros face1 (g & first & more & Hfaces & Hresize) H2.
    unfold compute_face_similarity.
    rewrite (CompareFacesFacts.detect_face_found C w p1 g first more face1 Hfaces Hresize),
      (detect_face_unreadable w p2 H2).
    reflexivity.
Qed.

(** X23.  When a face is found in the first image and none in the
    second, the error of the comparison names the second image, and
    both images were read and searched, each with the classifier loaded
    for it. *)
Theorem second_image_without_face (w : world) (p1 p2 : string)
    (g1 g2 face1 : gray C) (first : rect C) (more : list (rect C)) :
  detects C w p1 g1 (first :: more) ->
  resize C (crop C g1 first) = inr face1 ->
  detects C w p2 g2 [] ->
  compute_face_similarity C w p1 p2
  = ((EvImread p1 :: EvLoadCascade (cascade_file C) :: EvDetect p1
      :: match more with [] => [] | _ => [warning p1] end)
     ++ [EvImread p2; EvLoadCascade (cascade_file C); EvDetect p2],
     Raised (ValueError ("Error comparing faces: No face detected in image: " +:+ p2))).
Proof.
  intros Hfaces Hresize Hnone. unfold compute_face_similarity.
  rewrite (CompareFacesFacts.detect_face_found C w p1 g1 first more face1 Hfaces Hresize),
    (CompareFacesFacts.detect_face_none C w p2 g2 Hnone).
  cbn [bind try_except raise exn_str]. rewrite app_nil_r. reflexivity.
Qed.

(** X24.  Only the first face found in an image enters the comparison:
    it ends as it would with a detector that reports no face but the
    first, whatever else the detector finds; and an image in which more
    than one face is found gets the warning of line 34. *)
Theorem similarity_uses_first_faces (w : world) (p1 p2 : string) :
  result (compute_face_similarity C w p1 p2)
  = result (compute_face_similarity (first_face_only C) w p1 p2)
  /\ (forall g first second more,
        detects C w p1 g (first :: second :: more) ->
        In (warning p1) (trace (compute_face_similarity C w p1 p2)))
  /\ (forall face1 g first second more,
        face_of C w p1 face1 ->
        detects C w p2 g (first :: second :: more) ->
        In (warning p2) (trace (compute_face_similarity C w p1 p2))).
Proof.
  split; [|split].
  - unfold compute_face_similarity.
    rewrite !RunFacts.result_try, !RunFacts.result_bind, detect_face_first_only.
    destruct (result (detect_face C w p1)) as [face1| |]; try reflexivity.
    rewrite !RunFacts.result_bind, detect_face_first_only.
    destruct (result (detect_face C w p2)) as [face2| |]; reflexivity.
  - intros g first second more Hfaces. unfold compute_face_similarity.
    rewrite RunFacts.trace_try, RunFacts.trace_bind.
    apply in_or_app. left. apply in_or_app. left.
    eapply detect_face_warns, Hfaces.
  - intros face1 g first second more Hface Hfaces. unfold compute_face_similarity.
    rewrite RunFacts.trace_try, RunFacts.trace_bind.
    rewrite (CompareFacesFacts.detect_face_region C w p1 face1 Hface).
    rewrite RunFacts.trace_bind.
    apply in_or_app. left. apply in_or_app. right. apply in_or_app. left.
    eapply detect_face_warns, Hfaces.
Qed.

(** X25.  A run of the comparator that ends with an exception has handed
    no row to the writer: neither a header nor a data row is written
    unless the comparison succeeded and the file could be opened. *)
Theorem failed_run_writes_no_row (w : world) (csv : option (list (list string)))
    (e : exn) :
  result (main C w csv) = Raised e ->
  rows_written (trace (main C w csv)) = [].
Proof.
  unfold main.
  destruct (negb (truthy_str (env w !! "DEFAULT_PERSON_FACE_IMAGE"))); [reflexivity|].
  destruct (negb (truthy_str (env w !! "INFINITE_PERSON_FACE_IMAGE"))); [reflexivity|].
  destruct (negb (bool_decide (is_Some (fs w !! default EmptyString
              (env w !! "DEFAULT_PERSON_FACE_IMAGE"))))); [reflexivity|].
  destruct (negb (bool_decide (is_Some (fs w !! default EmptyString
              (env w !! "INFINITE_PERSON_FACE_IMAGE"))))); [reflexivity|].
  unfold print. rewrite !EffFacts.bind_emit. cbn [trace result fst snd rows_written].
  set (left := default EmptyString (env w !! "DEFAULT_PERSON_FACE_IMAGE")).
  set (right := default EmptyString (env w !! "INFINITE_PERSON_FACE_IMAGE")).
  pose proof (CompareFacesFacts.compute_no_csv C w left right) as Hquiet.
  destruct (compute_face_similarity C w left right) as [t [similarity|e'|]];
    cbn [trace fst] in Hquiet; cbn [bind trace result fst snd];
    [|intros _; exact Hquiet|discriminate].
  destruct (csv_open_ok w).
  - destruct (negb (bool_decide (is_Some csv))); cbn; discriminate.
  - intros _. cbn [bind emit raise trace fst].
    rewrite CompareFacesFacts.rows_written_app, Hquiet. reflexivity.
Qed.

(** X26.  Runs against a file that exists only append: after [N] runs
    that ended normally the file holds the rows it had, in their order,
    followed by the [N] data rows of the runs; no header is added,
    whatever the file held, an empty file included. *)
Theorem runs_append_to_existing_file (ws : list world) (rows : list (list string))
    (csv' : option (list (list string))) :
  result (runs C ws (Some rows)) = Done csv' ->
  exists data,
    csv' = Some (rows ++ data)
    /\ length data = length ws
    /\ Forall2 (row_of C) ws data
    /\ rows_written (trace (runs C ws (Some rows))) = data.
Proof.
  intros H.
  destruct (CompareFacesFacts.runs_existing C ws rows csv' H) as (data & -> & Hdata & Hw).
  exists data. split; [reflexivity|]. split; [|split; assumption].
  symmetry. eapply Forall2_length; eassumption.
Qed.

(** X27.  Whatever fails inside the comparison leaves it as one kind of
    error: a [ValueError] whose text is "Error comparing faces: "
    followed by the text of what failed.  So an error of the library
    while the first image is searched, as with a classifier that is
    empty, is reported under that text, and the second image is not
    read. *)
Theorem comparison_errors_are_wrapped (w : world) (p1 p2 : string) :
  (forall e,
     result (compute_face_similarity C w p1 p2) = Raised e ->
     exists cause, e = ValueError ("Error comparing faces: " +:+ cause))
  /\ (forall img g face_cascade msg,
        imread C w p1 = Some img ->
        cvtColor C img = inr g ->
        CascadeClassifier C (cascade_file C) = inr face_cascade ->
        detectMultiScale C face_cascade g = inl msg ->
        compute_face_similarity C w p1 p2
        = ([EvImread p1; EvLoadCascade (cascade_file C); EvDetect p1],
           Raised (ValueError ("Error comparing faces: " +:+ msg)))).
Proof.
  split.
  - intros e. unfold compute_face_similarity. rewrite RunFacts.result_try.
    match goal with
    | |- match ?r with _ => _ end = _ -> _ => destruct r as [similarity|cause|]
    end; try discriminate.
    cbn [raise result snd]. intros [= <-]. eauto.
  - intros img g face_cascade msg Hread Hgray Hcascade Hfail.
    unfold compute_face_similarity, detect_face. rewrite Hread, Hgray.
    cbn [cv_call bind emit ret]. rewrite Hcascade.
    cbn [cv_call bind emit ret]. rewrite Hfail. reflexivity.
Qed.

End Comparator.

(** X21 on an environment whose files are missing. *)
Lemma missing_image_file_named_witness :
  main plain_cv no_files_world None
  = ([], Raised (FileNotFoundError "Image not found: a.jpg")).
Proof.
  assert (forall s : string, String "a" s <> EmptyString) as Ha by discriminate.
  assert (forall s : string, String "b" s <> EmptyString) as Hb by discriminate.
  destruct (missing_image_file_named plain_cv no_files_world None "a.jpg" "b.jpg"
              eq_refl (Ha _) eq_refl (Hb _)) as [H _].
  exact (H eq_refl).
Defined.

(** X22 on a first image that is no image. *)
Lemma unreadable_image_named_witness :
  imread plain_cv garbled_world "a.jpg" = None
  /\ compute_face_similarity plain_cv garbled_world "a.jpg" "b.jpg"
     = ([EvImread "a.jpg"],
        Raised (ValueError "Error comparing faces: Could not load image: a.jpg")).
Proof.
  split; [reflexivity|].
  destruct (unreadable_image_named plain_cv garbled_world "a.jpg" "b.jpg") as [H _].
  exact (H eq_refl).
Defined.

(** X23 on a second image without a face. *)
Lemma second_image_without_face_witness :
  detects plain_cv second_faceless_world "a.jpg" [x01; x02] [0]
  /\ detects plain_cv second_faceless_world "b.jpg" [x00; x03] []
  /\ compute_face_similarity plain_cv second_faceless_world "a.jpg" "b.jpg"
     = ([EvImread "a.jpg"; EvLoadCascade (cascade_file plain_cv); EvDetect "a.jpg";
         EvImread "b.jpg"; EvLoadCascade (cascade_file plain_cv); EvDetect "b.jpg"],
        Raised (ValueError "Error comparing faces: No face detected in image: b.jpg")).
Proof.
  assert (detects plain_cv second_faceless_world "a.jpg" [x01; x02] [0]) as H1.
  { exists [x01; x02], tt. split; [reflexivity|]. split; [reflexivity|].
    split; reflexivity. }
  assert (detects plain_cv second_faceless_world "b.jpg" [x00; x03] []) as H2.
  { exists [x00; x03], tt. split; [reflexivity|]. split; [reflexivity|].
    split; reflexivity. }
  split; [exact H1|]. split; [exact H2|].
  exact (second_image_without_face plain_cv second_faceless_world "a.jpg" "b.jpg"
           [x01; x02] [x00; x03] [x01; x02] 0 [] H1 eq_refl H2).
Defined.

(** X24 on a first image with two faces. *)
Lemma similarity_uses_first_faces_witness :
  detects plain_cv crowd_world "a.jpg" [x02; x07; x09] [0; 1]
  /\ In (warning "a.jpg")
       (trace (compute_face_similarity plain_cv crowd_world "a.jpg" "b.jpg"))
  /\ result (compute_face_similarity plain_cv crowd_world "a.jpg" "b.jpg")
     = result (compute_face_similarity (first_face_only plain_cv) crowd_world
                 "a.jpg" "b.jpg").
Proof.
  assert (detects plain_cv crowd_world "a.jpg" [x02; x07; x09] [0; 1]) as Hfaces.
  { exists [x02; x07; x09], tt. split; [reflexivity|]. split; [reflexivity|].
    split; reflexivity. }
  destruct (similarity_uses_first_faces plain_cv crowd_world "a.jpg" "b.jpg")
    as (Hsame & Hwarn & _).
  split; [exact Hfaces|]. split; [|exact Hsame].
  exact (Hwarn [x02; x07; x09] 0 1 [] Hfaces).
Defined.

(** X25 on two images without a face. *)
Lemma failed_run_writes_no_row_witness :
  result (main plain_cv no_faces_world None)
  = Raised (ValueError "Error comparing faces: No face detected in image: a.jpg")
  /\ rows_written (trace (main plain_cv no_faces_world None)) = [].
Proof.
  assert (result (main plain_cv no_faces_world None)
          = Raised (ValueError "Error comparing faces: No face detected in image: a.jpg"))
    as H by reflexivity.
  split; [exact H|].
  exact (failed_run_writes_no_row plain_cv no_faces_world None _ H).
Defined.

(** X26 on two runs against an empty file. *)
Lemma runs_append_to_existing_file_witness :
  exists data,
    result (runs plain_cv [faces_world; faces_world] (Some [])) = Done (Some ([] ++ data))
    /\ length data = 2.
Proof.
  destruct (runs_append_to_existing_file plain_cv [faces_world; faces_world] []
              (Some [["a.jpg"; "b.jpg"; "0"]; ["a.jpg"; "b.jpg"; "0"]]) eq_refl)
    as (data & Hcsv & Hlen & _).
  exists data. split; [|exact Hlen].
  rewrite <- Hcsv. reflexivity.
Defined.

(** X27 on a library whose classifier is empty. *)
Lemma comparison_errors_are_wrapped_witness :
  detectMultiScale unloaded_cv tt [x01; x02] = inl empty_classifier
  /\ compute_face_similarity unloaded_cv faces_world "a.jpg" "b.jpg"
     = ([EvImread "a.jpg"; EvLoadCascade (cascade_file unloaded_cv); EvDetect "a.jpg"],
        Raised (ValueError ("Error comparing faces: " +:+ empty_classifier))).
Proof.
  split; [reflexivity|].
  destruct (comparison_errors_are_wrapped unloaded_cv faces_world "a.jpg" "b.jpg")
    as [_ H].
  exact (H [x01; x02] [x01; x02] tt empty_classifier eq_refl eq_refl eq_refl eq_refl).
Defined.

End ComparatorFacts.
